(** * Emotion detector page (script.js): a shallow embedding and its properties

    The page script wires a webcam, a face-expression detector and a small
    display.  Its state is a handful of module variables and DOM elements; its
    code is a set of event handlers, some of them [async].  The embedding keeps
    that shape:

    - JavaScript numbers are IEEE 754 binary64 values, here Rocq's primitive
      floats; [>] is [PrimFloat.ltb] with swapped arguments and
      [Number.prototype.toFixed] is computed exactly on the value's mantissa
      and exponent;
    - a string is held as the UTF-8 bytes of its text;
    - an object iterated with [Object.entries] is the list of its entries in
      iteration order;
    - the module variables and the DOM elements the script touches are the
      fields of one record [state], which also holds what the browser keeps
      for the page (active interval timers, console, alerts, pending
      promises);
    - synchronous code is written in a state-and-exception monad [M]; an
      [async] function is cut at each [await] into the part that runs before
      it and the part that runs when the awaited promise settles;
    - the browser's event loop is the function [step], one event at a time.

    What the sources do not fix is left open or stated here.  The markup is
    not part of the sources: the document a session starts from is arbitrary,
    and the only elements whose id starts with [emotion-] are taken to be the
    ones the script names or creates.  A style keeps the width it is given only
    when CSS accepts the text ([width_accepted]); the registry's colours are
    recorded as assigned.  [step] delivers an event whenever its
    handler is installed and its promise or timer is pending, which covers the
    orders a browser can produce (and a [loadedmetadata] more than once). *)

From Stdlib Require Import List String Ascii Bool ZArith Lia PeanoNat Decimal DecimalString.
From Stdlib Require Import Floats Permutation.
Import ListNotations.

Set Warnings "-inexact-float".

Local Open Scope string_scope.
Local Open Scope list_scope.

(** ** JavaScript values used by the script *)

Module JS.

(** A string given by its bytes (the emoji of the registry are not ASCII). *)
Definition of_bytes (l : list nat) : string :=
  string_of_list_ascii (map ascii_of_nat l).
Arguments of_bytes : simpl never.

(** [String.prototype.toUpperCase].  A string is held as the UTF-8 bytes of
    its text.  The method replaces each code point by its upper-case mapping
    in the Unicode Character Database (here version 14.0), whatever the
    language: one code point for most letters, several for a few.  Bytes that
    are not well-formed UTF-8 are kept as they are. *)
Inductive scalar :=
  | CodePoint (c : Z)
  | Stray (b : Z).

Definition continuation (b : Z) : bool := (128 <=? b)%Z && (b <? 192)%Z.

Fixpoint code_points (l : list Z) : list scalar :=
  match l with
  | [] => []
  | b0 :: r0 =>
      if (b0 <? 128)%Z then CodePoint b0 :: code_points r0
      else
        match r0 with
        | b1 :: r1 =>
            if (b0 <? 224)%Z then
              if (194 <=? b0)%Z && continuation b1
              then CodePoint ((b0 - 192) * 64 + (b1 - 128))%Z :: code_points r1
              else Stray b0 :: code_points r0
            else
              match r1 with
              | b2 :: r2 =>
                  if (b0 <? 240)%Z then
                    let c := ((b0 - 224) * 4096 + (b1 - 128) * 64
                              + (b2 - 128))%Z in
                    if continuation b1 && continuation b2 && (2048 <=? c)%Z
                       && negb ((55296 <=? c)%Z && (c <? 57344)%Z)
                    then CodePoint c :: code_points r2
                    else Stray b0 :: code_points r0
                  else
                    match r2 with
                    | b3 :: r3 =>
                        let c := ((b0 - 240) * 262144 + (b1 - 128) * 4096
                                  + (b2 - 128) * 64 + (b3 - 128))%Z in
                        if continuation b1 && continuation b2
                           && continuation b3 && (65536 <=? c)%Z
                           && (c <? 1114112)%Z
                        then CodePoint c :: code_points r3
                        else Stray b0 :: code_points r0
                    | [] => Stray b0 :: code_points r0
                    end
              | [] => Stray b0 :: code_points r0
              end
        | [] => Stray b0 :: code_points r0
        end
  end.

Definition utf8 (c : Z) : list Z :=
  (if c <? 128 then [c]
   else if c <? 2048 then [192 + c / 64; 128 + c mod 64]
   else if c <? 65536 then
     [224 + c / 4096; 128 + (c / 64) mod 64; 128 + c mod 64]
   else [240 + c / 262144; 128 + (c / 4096) mod 64; 128 + (c / 64) mod 64;
         128 + c mod 64])%Z.

(** The simple mappings of UnicodeData.txt, as runs
    [(first, last, step, offset)]: every [step]-th code point from [first] to
    [last] maps to itself plus [offset]. *)
Definition upper_ranges : list (Z * Z * Z * Z) :=
  ([
    (97, 122, 1, (-32)); (181, 181, 1, 743); (224, 246, 1, (-32));
    (248, 254, 1, (-32)); (255, 255, 1, 121); (257, 303, 2, (-1));
    (305, 305, 1, (-232)); (307, 311, 2, (-1)); (314, 328, 2, (-1));
    (331, 375, 2, (-1)); (378, 382, 2, (-1)); (383, 383, 1, (-300));
    (384, 384, 1, 195); (387, 389, 2, (-1)); (392, 392, 1, (-1));
    (396, 396, 1, (-1)); (402, 402, 1, (-1)); (405, 405, 1, 97);
    (409, 409, 1, (-1)); (410, 410, 1, 163); (414, 414, 1, 130);
    (417, 421, 2, (-1)); (424, 424, 1, (-1)); (429, 429, 1, (-1));
    (432, 432, 1, (-1)); (436, 438, 2, (-1)); (441, 441, 1, (-1));
    (445, 445, 1, (-1)); (447, 447, 1, 56); (453, 453, 1, (-1));
    (454, 454, 1, (-2)); (456, 456, 1, (-1)); (457, 457, 1, (-2));
    (459, 459, 1, (-1)); (460, 460, 1, (-2)); (462, 476, 2, (-1));
    (477, 477, 1, (-79)); (479, 495, 2, (-1)); (498, 498, 1, (-1));
    (499, 499, 1, (-2)); (501, 501, 1, (-1)); (505, 543, 2, (-1));
    (547, 563, 2, (-1)); (572, 572, 1, (-1)); (575, 576, 1, 10815);
    (578, 578, 1, (-1)); (583, 591, 2, (-1)); (592, 592, 1, 10783);
    (593, 593, 1, 10780); (594, 594, 1, 10782); (595, 595, 1, (-210));
    (596, 596, 1, (-206)); (598, 599, 1, (-205)); (601, 601, 1, (-202));
    (603, 603, 1, (-203)); (604, 604, 1, 42319); (608, 608, 1, (-205));
    (609, 609, 1, 42315); (611, 611, 1, (-207)); (613, 613, 1, 42280);
    (614, 614, 1, 42308); (616, 616, 1, (-209)); (617, 617, 1, (-211));
    (618, 618, 1, 42308); (619, 619, 1, 10743); (620, 620, 1, 42305);
    (623, 623, 1, (-211)); (625, 625, 1, 10749); (626, 626, 1, (-213));
    (629, 629, 1, (-214)); (637, 637, 1, 10727); (640, 640, 1, (-218));
    (642, 642, 1, 42307); (643, 643, 1, (-218)); (647, 647, 1, 42282);
    (648, 648, 1, (-218)); (649, 649, 1, (-69)); (650, 651, 1, (-217));
    (652, 652, 1, (-71)); (658, 658, 1, (-219)); (669, 669, 1, 42261);
    (670, 670, 1, 42258); (837, 837, 1, 84); (881, 883, 2, (-1));
    (887, 887, 1, (-1)); (891, 893, 1, 130); (940, 940, 1, (-38));
    (941, 943, 1, (-37)); (945, 961, 1, (-32)); (962, 962, 1, (-31));
    (963, 971, 1, (-32)); (972, 972, 1, (-64)); (973, 974, 1, (-63));
    (976, 976, 1, (-62)); (977, 977, 1, (-57)); (981, 981, 1, (-47));
    (982, 982, 1, (-54)); (983, 983, 1, (-8)); (985, 1007, 2, (-1));
    (1008, 1008, 1, (-86)); (1009, 1009, 1, (-80)); (1010, 1010, 1, 7);
    (1011, 1011, 1, (-116)); (1013, 1013, 1, (-96)); (1016, 1016, 1, (-1));
    (1019, 1019, 1, (-1)); (1072, 1103, 1, (-32)); (1104, 1119, 1, (-80));
    (1121, 1153, 2, (-1)); (1163, 1215, 2, (-1)); (1218, 1230, 2, (-1));
    (1231, 1231, 1, (-15)); (1233, 1327, 2, (-1)); (1377, 1414, 1, (-48));
    (4304, 4346, 1, 3008); (4349, 4351, 1, 3008); (5112, 5117, 1, (-8));
    (7296, 7296, 1, (-6254)); (7297, 7297, 1, (-6253));
    (7298, 7298, 1, (-6244)); (7299, 7300, 1, (-6242));
    (7301, 7301, 1, (-6243)); (7302, 7302, 1, (-6236));
    (7303, 7303, 1, (-6181)); (7304, 7304, 1, 35266); (7545, 7545, 1, 35332);
    (7549, 7549, 1, 3814); (7566, 7566, 1, 35384); (7681, 7829, 2, (-1));
    (7835, 7835, 1, (-59)); (7841, 7935, 2, (-1)); (7936, 7943, 1, 8);
    (7952, 7957, 1, 8); (7968, 7975, 1, 8); (7984, 7991, 1, 8);
    (8000, 8005, 1, 8); (8017, 8023, 2, 8); (8032, 8039, 1, 8);
    (8048, 8049, 1, 74); (8050, 8053, 1, 86); (8054, 8055, 1, 100);
    (8056, 8057, 1, 128); (8058, 8059, 1, 112); (8060, 8061, 1, 126);
    (8112, 8113, 1, 8); (8126, 8126, 1, (-7205)); (8144, 8145, 1, 8);
    (8160, 8161, 1, 8); (8165, 8165, 1, 7); (8526, 8526, 1, (-28));
    (8560, 8575, 1, (-16)); (8580, 8580, 1, (-1)); (9424, 9449, 1, (-26));
    (11312, 11359, 1, (-48)); (11361, 11361, 1, (-1));
    (11365, 11365, 1, (-10795)); (11366, 11366, 1, (-10792));
    (11368, 11372, 2, (-1)); (11379, 11379, 1, (-1)); (11382, 11382, 1, (-1));
    (11393, 11491, 2, (-1)); (11500, 11502, 2, (-1)); (11507, 11507, 1, (-1));
    (11520, 11557, 1, (-7264)); (11559, 11559, 1, (-7264));
    (11565, 11565, 1, (-7264)); (42561, 42605, 2, (-1));
    (42625, 42651, 2, (-1)); (42787, 42799, 2, (-1)); (42803, 42863, 2, (-1));
    (42874, 42876, 2, (-1)); (42879, 42887, 2, (-1)); (42892, 42892, 1, (-1));
    (42897, 42899, 2, (-1)); (42900, 42900, 1, 48); (42903, 42921, 2, (-1));
    (42933, 42947, 2, (-1)); (42952, 42954, 2, (-1)); (42961, 42961, 1, (-1));
    (42967, 42969, 2, (-1)); (42998, 42998, 1, (-1));
    (43859, 43859, 1, (-928)); (43888, 43967, 1, (-38864));
    (65345, 65370, 1, (-32)); (66600, 66639, 1, (-40));
    (66776, 66811, 1, (-40)); (66967, 67003, 2, (-39));
    (66968, 66976, 2, (-39)); (66980, 66992, 2, (-39));
    (66996, 67000, 2, (-39)); (67004, 67004, 1, (-39));
    (68800, 68850, 1, (-64)); (71872, 71903, 1, (-32));
    (93792, 93823, 1, (-32)); (125218, 125251, 1, (-34))
  ])%Z.

(** The unconditional mappings of SpecialCasing.txt to several code points. *)
Definition upper_special : list (Z * list Z) :=
  ([
    (223, [83; 83]); (329, [700; 78]); (496, [74; 780]);
    (912, [921; 776; 769]); (944, [933; 776; 769]); (1415, [1333; 1362]);
    (7830, [72; 817]); (7831, [84; 776]); (7832, [87; 778]);
    (7833, [89; 778]); (7834, [65; 702]); (8016, [933; 787]);
    (8018, [933; 787; 768]); (8020, [933; 787; 769]); (8022, [933; 787; 834]);
    (8064, [7944; 921]); (8065, [7945; 921]); (8066, [7946; 921]);
    (8067, [7947; 921]); (8068, [7948; 921]); (8069, [7949; 921]);
    (8070, [7950; 921]); (8071, [7951; 921]); (8072, [7944; 921]);
    (8073, [7945; 921]); (8074, [7946; 921]); (8075, [7947; 921]);
    (8076, [7948; 921]); (8077, [7949; 921]); (8078, [7950; 921]);
    (8079, [7951; 921]); (8080, [7976; 921]); (8081, [7977; 921]);
    (8082, [7978; 921]); (8083, [7979; 921]); (8084, [7980; 921]);
    (8085, [7981; 921]); (8086, [7982; 921]); (8087, [7983; 921]);
    (8088, [7976; 921]); (8089, [7977; 921]); (8090, [7978; 921]);
    (8091, [7979; 921]); (8092, [7980; 921]); (8093, [7981; 921]);
    (8094, [7982; 921]); (8095, [7983; 921]); (8096, [8040; 921]);
    (8097, [8041; 921]); (8098, [8042; 921]); (8099, [8043; 921]);
    (8100, [8044; 921]); (8101, [8045; 921]); (8102, [8046; 921]);
    (8103, [8047; 921]); (8104, [8040; 921]); (8105, [8041; 921]);
    (8106, [8042; 921]); (8107, [8043; 921]); (8108, [8044; 921]);
    (8109, [8045; 921]); (8110, [8046; 921]); (8111, [8047; 921]);
    (8114, [8122; 921]); (8115, [913; 921]); (8116, [902; 921]);
    (8118, [913; 834]); (8119, [913; 834; 921]); (8124, [913; 921]);
    (8130, [8138; 921]); (8131, [919; 921]); (8132, [905; 921]);
    (8134, [919; 834]); (8135, [919; 834; 921]); (8140, [919; 921]);
    (8146, [921; 776; 768]); (8147, [921; 776; 769]); (8150, [921; 834]);
    (8151, [921; 776; 834]); (8162, [933; 776; 768]); (8163, [933; 776; 769]);
    (8164, [929; 787]); (8166, [933; 834]); (8167, [933; 776; 834]);
    (8178, [8186; 921]); (8179, [937; 921]); (8180, [911; 921]);
    (8182, [937; 834]); (8183, [937; 834; 921]); (8188, [937; 921]);
    (64256, [70; 70]); (64257, [70; 73]); (64258, [70; 76]);
    (64259, [70; 70; 73]); (64260, [70; 70; 76]); (64261, [83; 84]);
    (64262, [83; 84]); (64275, [1348; 1350]); (64276, [1348; 1333]);
    (64277, [1348; 1339]); (64278, [1358; 1350]); (64279, [1348; 1341])
  ])%Z.

Definition in_run (c : Z) (r : Z * Z * Z * Z) : bool :=
  let '(first, last, step, _) := r in
  (first <=? c)%Z && (c <=? last)%Z && ((c - first) mod step =? 0)%Z.

Definition upper_code_point (c : Z) : list Z :=
  match find (fun p => (fst p =? c)%Z) upper_special with
  | Some (_, u) => u
  | None =>
      match find (in_run c) upper_ranges with
      | Some (_, _, _, offset) => [(c + offset)%Z]
      | None => [c]
      end
  end.

Definition upper_scalar (u : scalar) : list Z :=
  match u with
  | CodePoint c => flat_map utf8 (upper_code_point c)
  | Stray b => [b]
  end.

Definition bytes (s : string) : list Z :=
  map (fun c => Z.of_nat (nat_of_ascii c)) (list_ascii_of_string s).

Definition of_byte_values (l : list Z) : string :=
  string_of_list_ascii (map (fun b => ascii_of_nat (Z.to_nat b)) l).

Definition toUpperCase (s : string) : string :=
  of_byte_values (flat_map upper_scalar (code_points (bytes s))).

(** Decimal digits of a natural number, as in a template literal. *)
Definition nat_to_string (n : nat) : string :=
  NilEmpty.string_of_uint (Nat.to_uint n).

Definition Z_to_string (z : Z) : string :=
  match z with
  | Z0 => "0"
  | Zpos p => NilEmpty.string_of_uint (Pos.to_uint p)
  | Zneg p => "-" ++ NilEmpty.string_of_uint (Pos.to_uint p)
  end.

(** JavaScript's [a > b] on numbers: false as soon as one side is NaN. *)
Definition gt (a b : float) : bool := PrimFloat.ltb b a.
Arguments gt : simpl never.

(** [x.toFixed(1)].  Not finite: the name of the value.  Otherwise the sign,
    then the integer [n] for which [n / 10 - |x|] is closest to zero (the
    larger one when two are as close), written with one digit after the
    point.  [|x| = m * 2^e] exactly, so [n = floor (10 * m * 2^e + 1/2)]. *)
Definition tenths (m : positive) (e : Z) : Z :=
  if (0 <=? e)%Z then (10 * Zpos m * 2 ^ e)%Z
  else ((20 * Zpos m + 2 ^ (- e)) / (2 * 2 ^ (- e)))%Z.

(** Insert the point before the last digit, padding with a leading zero. *)
Definition with_point (n : Z) : string :=
  Z_to_string (n / 10) ++ "." ++ Z_to_string (n mod 10).

(** From [10^21] on, [toFixed] falls back to [Number::toString]: the fewest
    digits [s] with [s * 10^p] still read back as the same number, the closest
    such value being taken, in exponent notation.  A binary64 value that large
    is an integer [X = m * 2^e]; the reals that round to it lie up to half a
    unit in the last place around it (a quarter below a power of two), the
    bounds included when the mantissa is even. *)
Definition reads_back (m : positive) (e : Z) (c : Z) : bool :=
  let X := (Zpos m * 2 ^ e)%Z in
  let lo := (X - (if Zpos m =? 2 ^ 52 then 2 ^ (e - 2) else 2 ^ (e - 1)))%Z in
  let hi := (X + 2 ^ (e - 1))%Z in
  if Z.even (Zpos m) then (lo <=? c)%Z && (c <=? hi)%Z
  else (lo <? c)%Z && (c <? hi)%Z.

Fixpoint shortest (p : nat) (m : positive) (e : Z) : Z * nat :=
  let X := (Zpos m * 2 ^ e)%Z in
  let t := (10 ^ Z.of_nat p)%Z in
  let c1 := ((X / t) * t)%Z in
  let c2 := (c1 + t)%Z in
  let ok1 := reads_back m e c1 in
  let ok2 := reads_back m e c2 in
  let pick :=
    if ok1 && ok2 then
      if (X - c1 <? c2 - X)%Z then Some c1
      else if (c2 - X <? X - c1)%Z then Some c2
      else if Z.even (c1 / t)%Z then Some c1 else Some c2
    else if ok1 then Some c1
    else if ok2 then Some c2
    else None in
  match pick, p with
  | Some c, _ => ((c / t)%Z, p)
  | None, O => (X, O)
  | None, S p' => shortest p' m e
  end.

Definition exponent_form (m : positive) (e : Z) : string :=
  let X := (Zpos m * 2 ^ e)%Z in
  let '(s, p) := shortest (String.length (Z_to_string X)) m e in
  let ds := Z_to_string s in
  let n := (String.length ds + p)%nat in
  match ds with
  | EmptyString => EmptyString
  | String d EmptyString => String d "e+" ++ nat_to_string (n - 1)
  | String d rest => String d "." ++ rest ++ "e+" ++ nat_to_string (n - 1)
  end.

Definition toFixed1 (x : float) : string :=
  match Prim2SF x with
  | S754_nan => "NaN"
  | S754_infinity false => "Infinity"
  | S754_infinity true => "-Infinity"
  | S754_zero _ => "0.0"
  | S754_finite s m e =>
      (if s then "-" else "") ++
      (if (10 ^ 21 <=? Zpos m * 2 ^ e)%Z then exponent_form m e
       else with_point (tenths m e))
  end.
Arguments toFixed1 : simpl never.

End JS.

(** ** Data the script works on *)

(** The registry: [emotionMap], in the order of its keys. *)
Record EmotionEntry := { emoji : string; color : string }.

Definition emotionMap : list (string * EmotionEntry) :=
  [ ("neutral",   {| emoji := JS.of_bytes [195; 176; 197; 184; 203; 156];
                     color := "#a0aec0" |});
    ("happy",     {| emoji := JS.of_bytes [195; 176; 197; 184; 203; 156; 197; 160];
                     color := "#90ee90" |});
    ("sad",       {| emoji := JS.of_bytes [195; 176; 197; 184; 203; 156; 194; 162];
                     color := "#87ceeb" |});
    ("angry",     {| emoji := JS.of_bytes [195; 176; 197; 184; 203; 156; 194; 160];
                     color := "#ff6b6b" |});
    ("fearful",   {| emoji := JS.of_bytes [195; 176; 197; 184; 203; 156; 194; 168];
                     color := "#daa520" |});
    ("disgusted", {| emoji := JS.of_bytes [195; 176; 197; 184; 194; 164; 194; 162];
                     color := "#98d8c8" |});
    ("surprised", {| emoji := JS.of_bytes [195; 176; 197; 184; 203; 156; 194; 178];
                     color := "#ffd700" |}) ].

(** [Object.keys(emotionMap)]. *)
Definition registered : list string := map fst emotionMap.

(** Reading [emotionMap[k]]: an own entry, a member inherited from
    [Object.prototype] (an object with neither [color] nor [emoji]), or
    [undefined]. *)
Inductive property :=
  | Own (e : EmotionEntry)
  | Inherited
  | Undefined.

Definition object_prototype_keys : list string :=
  [ "constructor"; "__proto__"; "hasOwnProperty"; "isPrototypeOf";
    "propertyIsEnumerable"; "toLocaleString"; "toString"; "valueOf";
    "__defineGetter__"; "__defineSetter__"; "__lookupGetter__";
    "__lookupSetter__" ].

Definition emotionMap_get (k : string) : property :=
  match find (fun p => String.eqb (fst p) k) emotionMap with
  | Some (_, e) => Own e
  | None => if existsb (String.eqb k) object_prototype_keys then Inherited
            else Undefined
  end.

(** What the detector returns for one face: [detection.expressions], as
    [Object.entries] lists it, and [detection.detection.box]. *)
Record Box := { x : float; y : float; width : float; height : float }.
Record FaceDetection := { box : Box }.
Record WithFaceExpressions :=
  { detection : FaceDetection; expressions : list (string * float) }.

(** A media stream is the list of its tracks; [track.stop()] ends a track. *)
Record MediaStreamTrack := { kind : string; ended : bool }.
Definition MediaStream := list MediaStreamTrack.

Definition stop (t : MediaStreamTrack) : MediaStreamTrack :=
  {| kind := kind t; ended := true |}.

Inductive js_error :=
  | TypeError (message : string)
  | DOMException (name : string)
  | Error (message : string).

(** How an awaited promise settles. *)
Inductive settled (A : Type) :=
  | Fulfilled (a : A)
  | Rejected (e : js_error).
Arguments Fulfilled {A} a.
Arguments Rejected {A} e.

(** ** The page *)

(** One [div.emotion-item] of the grid: its id, the text of its
    [.emotion-name], the background and the width in the style of its
    [.emotion-bar-fill] ([None]: no width; otherwise the text last assigned
    and accepted), the text of its
    [.emotion-value], and whether its class list holds [active]. *)
Record EmotionItem :=
  { item_id : string;
    item_name : string;
    bar_background : string;
    bar_width : option string;
    item_value : string;
    item_active : bool }.

(** What has been painted on the canvas since it was last cleared. *)
Inductive paint :=
  | StrokeRect (style : string) (line : float) (x y w h : float)
  | FillText (text : string) (style : string) (font : string) (x y : float).

(** The canvas and the state of its 2D context (the values the script
    assigned to the context's attributes). *)
Record Canvas :=
  { canvas_width : N;
    canvas_height : N;
    strokeStyle : string;
    lineWidth : float;
    fillStyle : string;
    font : string;
    painted : list paint }.

Variant CanvasRenderingContext2D := Context2D.

(** [toggleBtn]: its text, its [disabled] attribute, [active] in its classes. *)
Record Button := { textContent : string; disabled : bool; active : bool }.

(** [loadingIndicator]: its text and its [style.display]. *)
Record Indicator := { indicator_text : string; indicator_display : string }.

Record Document :=
  { video_srcObject : option MediaStream;
    video_onloadedmetadata : bool;
    canvas : Canvas;
    emotionName : string;
    emotionConfidence : string;
    faceCount : string;
    emotionsList : list EmotionItem;
    toggleBtn : Button;
    loadingIndicator : Indicator }.

Inductive console_entry :=
  | console_log (message : string)
  | console_error (message : string) (e : js_error).

(** What the browser keeps for the page: the interval timers that are set,
    the next timer id, the console, the alerts shown, and the promises the
    script is waiting for. *)
Record Browser :=
  { timers : list positive;
    next_timer : positive;
    console : list console_entry;
    alerts : list string;
    load_fired : bool;
    models_loading : bool;
    camera_requests : nat;
    detections_in_flight : nat }.

(** The module variables of the script, the document and the browser. *)
Record state :=
  { isVideoRunning : bool;
    detectingInterval : option positive;
    ctx : option CanvasRenderingContext2D;
    document : Document;
    browser : Browser }.

(** Field updates. *)
Definition set_strokeStyle (v : string) (r : Canvas) : Canvas :=
  {| canvas_width := canvas_width r; canvas_height := canvas_height r;
     strokeStyle := v; lineWidth := lineWidth r; fillStyle := fillStyle r;
     font := font r; painted := painted r |}.
Definition set_lineWidth (v : float) (r : Canvas) : Canvas :=
  {| canvas_width := canvas_width r; canvas_height := canvas_height r;
     strokeStyle := strokeStyle r; lineWidth := v; fillStyle := fillStyle r;
     font := font r; painted := painted r |}.
Definition set_fillStyle (v : string) (r : Canvas) : Canvas :=
  {| canvas_width := canvas_width r; canvas_height := canvas_height r;
     strokeStyle := strokeStyle r; lineWidth := lineWidth r; fillStyle := v;
     font := font r; painted := painted r |}.
Definition set_font (v : string) (r : Canvas) : Canvas :=
  {| canvas_width := canvas_width r; canvas_height := canvas_height r;
     strokeStyle := strokeStyle r; lineWidth := lineWidth r;
     fillStyle := fillStyle r; font := v; painted := painted r |}.
Definition set_painted (v : list paint) (r : Canvas) : Canvas :=
  {| canvas_width := canvas_width r; canvas_height := canvas_height r;
     strokeStyle := strokeStyle r; lineWidth := lineWidth r;
     fillStyle := fillStyle r; font := font r; painted := v |}.
Definition set_textContent (v : string) (r : Button) : Button :=
  {| textContent := v; disabled := disabled r; active := active r |}.
Definition set_disabled (v : bool) (r : Button) : Button :=
  {| textContent := textContent r; disabled := v; active := active r |}.
Definition set_active (v : bool) (r : Button) : Button :=
  {| textContent := textContent r; disabled := disabled r; active := v |}.
Definition set_indicator_text (v : string) (r : Indicator) : Indicator :=
  {| indicator_text := v; indicator_display := indicator_display r |}.
Definition set_indicator_display (v : string) (r : Indicator) : Indicator :=
  {| indicator_text := indicator_text r; indicator_display := v |}.
Definition set_video_srcObject (v : option MediaStream) (r : Document) : Document :=
  {| video_srcObject := v;
     video_onloadedmetadata := video_onloadedmetadata r; canvas := canvas r;
     emotionName := emotionName r; emotionConfidence := emotionConfidence r;
     faceCount := faceCount r; emotionsList := emotionsList r;
     toggleBtn := toggleBtn r; loadingIndicator := loadingIndicator r |}.
Definition set_video_onloadedmetadata (v : bool) (r : Document) : Document :=
  {| video_srcObject := video_srcObject r; video_onloadedmetadata := v;
     canvas := canvas r; emotionName := emotionName r;
     emotionConfidence := emotionConfidence r; faceCount := faceCount r;
     emotionsList := emotionsList r; toggleBtn := toggleBtn r;
     loadingIndicator := loadingIndicator r |}.
Definition set_canvas (v : Canvas) (r : Document) : Document :=
  {| video_srcObject := video_srcObject r;
     video_onloadedmetadata := video_onloadedmetadata r; canvas := v;
     emotionName := emotionName r; emotionConfidence := emotionConfidence r;
     faceCount := faceCount r; emotionsList := emotionsList r;
     toggleBtn := toggleBtn r; loadingIndicator := loadingIndicator r |}.
Definition set_emotionName (v : string) (r : Document) : Document :=
  {| video_srcObject := video_srcObject r;
     video_onloadedmetadata := video_onloadedmetadata r; canvas := canvas r;
     emotionName := v; emotionConfidence := emotionConfidence r;
     faceCount := faceCount r; emotionsList := emotionsList r;
     toggleBtn := toggleBtn r; loadingIndicator := loadingIndicator r |}.
Definition set_emotionConfidence (v : string) (r : Document) : Document :=
  {| video_srcObject := video_srcObject r;
     video_onloadedmetadata := video_onloadedmetadata r; canvas := canvas r;
     emotionName := emotionName r; emotionConfidence := v;
     faceCount := faceCount r; emotionsList := emotionsList r;
     toggleBtn := toggleBtn r; loadingIndicator := loadingIndicator r |}.
Definition set_faceCount (v : string) (r : Document) : Document :=
  {| video_srcObject := video_srcObject r;
     video_onloadedmetadata := video_onloadedmetadata r; canvas := canvas r;
     emotionName := emotionName r; emotionConfidence := emotionConfidence r;
     faceCount := v; emotionsList := emotionsList r;
     toggleBtn := toggleBtn r; loadingIndicator := loadingIndicator r |}.
Definition set_emotionsList (v : list EmotionItem) (r : Document) : Document :=
  {| video_srcObject := video_srcObject r;
     video_onloadedmetadata := video_onloadedmetadata r; canvas := canvas r;
     emotionName := emotionName r; emotionConfidence := emotionConfidence r;
     faceCount := faceCount r; emotionsList := v; toggleBtn := toggleBtn r;
     loadingIndicator := loadingIndicator r |}.
Definition set_toggleBtn (v : Button) (r : Document) : Document :=
  {| video_srcObject := video_srcObject r;
     video_onloadedmetadata := video_onloadedmetadata r; canvas := canvas r;
     emotionName := emotionName r; emotionConfidence := emotionConfidence r;
     faceCount := faceCount r; emotionsList := emotionsList r;
     toggleBtn := v; loadingIndicator := loadingIndicator r |}.
Definition set_loadingIndicator (v : Indicator) (r : Document) : Document :=
  {| video_srcObject := video_srcObject r;
     video_onloadedmetadata := video_onloadedmetadata r; canvas := canvas r;
     emotionName := emotionName r; emotionConfidence := emotionConfidence r;
     faceCount := faceCount r; emotionsList := emotionsList r;
     toggleBtn := toggleBtn r; loadingIndicator := v |}.
Definition set_timers (v : list positive) (r : Browser) : Browser :=
  {| timers := v; next_timer := next_timer r; console := console r;
     alerts := alerts r; load_fired := load_fired r;
     models_loading := models_loading r;
     camera_requests := camera_requests r;
     detections_in_flight := detections_in_flight r |}.
Definition set_next_timer (v : positive) (r : Browser) : Browser :=
  {| timers := timers r; next_timer := v; console := console r;
     alerts := alerts r; load_fired := load_fired r;
     models_loading := models_loading r;
     camera_requests := camera_requests r;
     detections_in_flight := detections_in_flight r |}.
Definition set_console (v : list console_entry) (r : Browser) : Browser :=
  {| timers := timers r; next_timer := next_timer r; console := v;
     alerts := alerts r; load_fired := load_fired r;
     models_loading := models_loading r;
     camera_requests := camera_requests r;
     detections_in_flight := detections_in_flight r |}.
Definition set_alerts (v : list string) (r : Browser) : Browser :=
  {| timers := timers r; next_timer := next_timer r; console := console r;
     alerts := v; load_fired := load_fired r;
     models_loading := models_loading r;
     camera_requests := camera_requests r;
     detections_in_flight := detections_in_flight r |}.
Definition set_load_fired (v : bool) (r : Browser) : Browser :=
  {| timers := timers r; next_timer := next_timer r; console := console r;
     alerts := alerts r; load_fired := v; models_loading := models_loading r;
     camera_requests := camera_requests r;
     detections_in_flight := detections_in_flight r |}.
Definition set_models_loading (v : bool) (r : Browser) : Browser :=
  {| timers := timers r; next_timer := next_timer r; console := console r;
     alerts := alerts r; load_fired := load_fired r; models_loading := v;
     camera_requests := camera_requests r;
     detections_in_flight := detections_in_flight r |}.
Definition set_camera_requests (v : nat) (r : Browser) : Browser :=
  {| timers := timers r; next_timer := next_timer r; console := console r;
     alerts := alerts r; load_fired := load_fired r;
     models_loading := models_loading r; camera_requests := v;
     detections_in_flight := detections_in_flight r |}.
Definition set_detections_in_flight (v : nat) (r : Browser) : Browser :=
  {| timers := timers r; next_timer := next_timer r; console := console r;
     alerts := alerts r; load_fired := load_fired r;
     models_loading := models_loading r;
     camera_requests := camera_requests r; detections_in_flight := v |}.
Definition set_isVideoRunning (v : bool) (r : state) : state :=
  {| isVideoRunning := v; detectingInterval := detectingInterval r;
     ctx := ctx r; document := document r; browser := browser r |}.
Definition set_detectingInterval (v : option positive) (r : state) : state :=
  {| isVideoRunning := isVideoRunning r; detectingInterval := v;
     ctx := ctx r; document := document r; browser := browser r |}.
Definition set_ctx (v : option CanvasRenderingContext2D) (r : state) : state :=
  {| isVideoRunning := isVideoRunning r;
     detectingInterval := detectingInterval r; ctx := v;
     document := document r; browser := browser r |}.
Definition set_document (v : Document) (r : state) : state :=
  {| isVideoRunning := isVideoRunning r;
     detectingInterval := detectingInterval r; ctx := ctx r; document := v;
     browser := browser r |}.
Definition set_browser (v : Browser) (r : state) : state :=
  {| isVideoRunning := isVideoRunning r;
     detectingInterval := detectingInterval r; ctx := ctx r;
     document := document r; browser := v |}.
Definition set_bar_width (v : option string) (r : EmotionItem) : EmotionItem :=
  {| item_id := item_id r; item_name := item_name r;
     bar_background := bar_background r; bar_width := v;
     item_value := item_value r; item_active := item_active r |}.
Definition set_item_value (v : string) (r : EmotionItem) : EmotionItem :=
  {| item_id := item_id r; item_name := item_name r;
     bar_background := bar_background r; bar_width := bar_width r;
     item_value := v; item_active := item_active r |}.
Definition set_item_active (v : bool) (r : EmotionItem) : EmotionItem :=
  {| item_id := item_id r; item_name := item_name r;
     bar_background := bar_background r; bar_width := bar_width r;
     item_value := item_value r; item_active := v |}.

(** ** Sequencing: state, and exceptions that keep the state reached *)

Inductive completion (A : Type) :=
  | Normal (a : A)
  | Throw (e : js_error).
Arguments Normal {A} a.
Arguments Throw {A} e.

Definition M (A : Type) : Type := state -> completion A * state.

Definition ret {A} (a : A) : M A := fun s => (Normal a, s).

Definition bind {A B} (m : M A) (k : A -> M B) : M B :=
  fun s =>
    match m s with
    | (Normal a, s') => k a s'
    | (Throw e, s') => (Throw e, s')
    end.

Definition throw {A} (e : js_error) : M A := fun s => (Throw e, s).

(** [try { body } catch (error) { handler }]: the handler starts from the
    state the body had reached. *)
Definition try_catch (body : M unit) (handler : js_error -> M unit) : M unit :=
  fun s =>
    match body s with
    | (Normal a, s') => (Normal a, s')
    | (Throw e, s') => handler e s'
    end.

Definition get : M state := fun s => (Normal s, s).
Definition modify (f : state -> state) : M unit := fun s => (Normal tt, f s).

Declare Scope js_scope.
Delimit Scope js_scope with js.
Notation "a <- m ;; k" := (bind m (fun a => k))
  (at level 61, m at next level, right associativity) : js_scope.
Notation "m ;; k" := (bind m (fun _ => k))
  (at level 61, right associativity) : js_scope.
Local Open Scope js_scope.

(** [list.forEach(f)]. *)
Fixpoint forEach {A} (l : list A) (f : A -> M unit) : M unit :=
  match l with
  | [] => ret tt
  | a :: r => f a ;; forEach r f
  end.

(** Assignments to the module variables and to the elements. *)
Definition on_document (f : Document -> Document) : M unit :=
  modify (fun s => set_document (f (document s)) s).
Definition on_browser (f : Browser -> Browser) : M unit :=
  modify (fun s => set_browser (f (browser s)) s).
Definition on_toggleBtn (f : Button -> Button) : M unit :=
  on_document (fun d => set_toggleBtn (f (toggleBtn d)) d).
Definition on_loadingIndicator (f : Indicator -> Indicator) : M unit :=
  on_document (fun d => set_loadingIndicator (f (loadingIndicator d)) d).
Definition on_canvas (f : Canvas -> Canvas) : M unit :=
  on_document (fun d => set_canvas (f (canvas d)) d).

Definition log (message : string) : M unit :=
  on_browser (fun b => set_console (console b ++ [console_log message]) b).
Definition log_error (message : string) (e : js_error) : M unit :=
  on_browser (fun b => set_console (console b ++ [console_error message e]) b).
Definition alert (message : string) : M unit :=
  on_browser (fun b => set_alerts (alerts b ++ [message]) b).

(** A method call or an attribute assignment on [ctx]: a [TypeError] while
    [ctx] is [null]. *)
Definition on_ctx (f : Canvas -> Canvas) : M unit :=
  s <- get ;;
  match ctx s with
  | None => throw (TypeError "Cannot read properties of null")
  | Some Context2D => on_canvas f
  end.

(** [ctx.clearRect(0, 0, canvas.width, canvas.height)]: the whole canvas. *)
Definition clearRect_all : M unit := on_ctx (set_painted []).

(** [ctx.strokeRect(x, y, w, h)] paints with the current stroke style and
    line width; it does nothing when an argument is not finite or when both
    sizes are zero.  [ctx.fillText(text, x, y)] paints with the current fill
    style and font, and does nothing when a coordinate is not finite. *)
Definition stroked (bx by_ w h : float) (c : Canvas) : Canvas :=
  if is_finite bx && is_finite by_ && is_finite w && is_finite h
     && negb (is_zero w && is_zero h)
  then set_painted
         (painted c ++ [StrokeRect (strokeStyle c) (lineWidth c) bx by_ w h]) c
  else c.

Definition filled (text : string) (tx ty : float) (c : Canvas) : Canvas :=
  if is_finite tx && is_finite ty
  then set_painted (painted c ++ [FillText text (fillStyle c) (font c) tx ty]) c
  else c.

Definition strokeRect (bx by_ w h : float) : M unit :=
  on_ctx (stroked bx by_ w h).

Definition fillText (text : string) (tx ty : float) : M unit :=
  on_ctx (filled text tx ty).

(** [clearInterval(id)] and [setInterval(detectEmotions, 100)]. *)
Definition clearInterval (id : positive) : M unit :=
  on_browser (fun b => set_timers (filter (fun t => negb (Pos.eqb t id)) (timers b)) b).

Definition setInterval : M positive :=
  s <- get ;;
  let id := next_timer (browser s) in
  on_browser (fun b => set_timers (timers b ++ [id]) (set_next_timer (Pos.succ id) b)) ;;
  ret id.

(** ** The script *)

(** [initEmotionsGrid]. *)
Definition emotion_item (emotion : string) (e : EmotionEntry) : EmotionItem :=
  {| item_id := "emotion-" ++ emotion;
     item_name := emoji e ++ " " ++ emotion;
     bar_background := color e;
     bar_width := None;
     item_value := "0%";
     item_active := false |}.

Definition initEmotionsGrid : M unit :=
  on_document (set_emotionsList []) ;;
  forEach emotionMap (fun '(emotion, e) =>
    on_document (fun d => set_emotionsList (emotionsList d ++ [emotion_item emotion e]) d)).

(** [loadModels], up to its [await] and from it on. *)
Definition loadModels_begin : M unit :=
  log "Loading models..." ;;
  on_browser (set_models_loading true).

Definition loadModels_resume (r : settled unit) : M unit :=
  match r with
  | Fulfilled _ =>
      log "Models loaded successfully!" ;;
      on_loadingIndicator (set_indicator_display "none") ;;
      on_toggleBtn (set_disabled false)
  | Rejected error =>
      log_error "Error loading models:" error ;;
      on_loadingIndicator (set_indicator_text "Error loading models")
  end.

(** [startWebcam], up to its [await] and from it on. *)
Definition startWebcam_begin : M unit :=
  on_browser (fun b => set_camera_requests (S (camera_requests b)) b).

Definition startWebcam_resume (r : settled MediaStream) : M unit :=
  match r with
  | Fulfilled stream =>
      on_document (set_video_srcObject (Some stream)) ;;
      modify (set_isVideoRunning true) ;;
      modify (set_ctx (Some Context2D)) ;;
      on_document (set_video_onloadedmetadata true)
  | Rejected error =>
      log_error "Error accessing webcam:" error ;;
      alert "Could not access webcam. Please check permissions." ;;
      modify (set_isVideoRunning false)
  end.

(** [stopWebcam]. *)
Definition stopWebcam : M unit :=
  s <- get ;;
  match video_srcObject (document s) with
  | Some stream => on_document (set_video_srcObject (Some (map stop stream)))
  | None => ret tt
  end ;;
  modify (set_isVideoRunning false) ;;
  s <- get ;;
  match detectingInterval s with
  | Some id => clearInterval id
  | None => ret tt
  end ;;
  clearRect_all ;;
  on_document (set_emotionName "--") ;;
  on_document (set_emotionConfidence "0%") ;;
  on_document (set_faceCount "Faces Detected: 0") ;;
  initEmotionsGrid.

(** The arg-max loop of [detectEmotions]:
    [let maxEmotion = 'neutral'; let maxValue = 0;] then, for each entry,
    [if (value > maxValue) { maxValue = value; maxEmotion = emotion; }]. *)
Definition keep_max (best : string * float) (entry : string * float)
  : string * float :=
  let '(maxEmotion, maxValue) := best in
  let '(emotion, value) := entry in
  if JS.gt value maxValue then (emotion, value) else (maxEmotion, maxValue).

Definition dominant (expressions : list (string * float)) : string * float :=
  fold_left keep_max expressions ("neutral", 0%float).

(** [(v * 100).toFixed(1)]. *)
Definition percent (v : float) : string := JS.toFixed1 (v * 100)%float.
Arguments percent : simpl never.

(** [document.getElementById]: the elements whose id starts with [emotion-]
    are the two text elements of the dominant-emotion display and the items
    of the grid. *)
Variant element :=
  | EmotionNameElement
  | EmotionConfidenceElement
  | EmotionItemElement.

Definition find_element (id : string) (grid : list EmotionItem)
  : option element :=
  if String.eqb id "emotion-name" then Some EmotionNameElement
  else if String.eqb id "emotion-confidence" then Some EmotionConfidenceElement
  else if existsb (fun it => String.eqb (item_id it) id) grid
       then Some EmotionItemElement
       else None.

Definition getElementById (id : string) (d : Document) : option element :=
  find_element id (emotionsList d).

(** An update of the first grid item with the given id. *)
Fixpoint update_first (id : string) (f : EmotionItem -> EmotionItem)
  (l : list EmotionItem) : list EmotionItem :=
  match l with
  | [] => []
  | it :: r =>
      if String.eqb (item_id it) id then f it :: r
      else it :: update_first id f r
  end.

Definition on_item (id : string) (f : EmotionItem -> EmotionItem) : M unit :=
  on_document (fun d => set_emotionsList (update_first id f (emotionsList d)) d).

(** [fill.style.width = percentage + '%'].  The style keeps a width only when
    the text is a percentage CSS accepts for [width], one that is not
    negative; any other text is dropped and the bar stays as wide as it was.
    Of the texts [toFixed] produces, CSS accepts those that start with a digit
    (exponent notation included) and [-0.0], which is not a negative number;
    it does not accept the other texts with a minus sign, nor [NaN],
    [Infinity] and [-Infinity], which are not numbers in CSS. *)
Definition is_digit (c : ascii) : bool :=
  (48 <=? nat_of_ascii c)%nat && (nat_of_ascii c <=? 57)%nat.

Definition width_accepted (percentage : string) : bool :=
  match percentage with
  | String "-" rest => String.eqb rest "0.0"
  | String c _ => is_digit c
  | EmptyString => false
  end.

Definition assign_width (percentage : string) (it : EmotionItem)
  : EmotionItem :=
  if width_accepted percentage
  then set_bar_width (Some (percentage ++ "%")%string) it
  else it.

(** The body of the second [forEach] of [detectEmotions].  The two text
    elements hold a text node only (their [textContent] was just assigned), so
    [querySelector('.emotion-value')] is [null] on them. *)
Definition update_emotion (maxEmotion : string) (entry : string * float)
  : M unit :=
  let '(emotion, confidence) := entry in
  let id := ("emotion-" ++ emotion)%string in
  s <- get ;;
  match getElementById id (document s) with
  | None => ret tt
  | Some EmotionItemElement =>
      let percentage := percent confidence in
      on_item id (set_item_value (percentage ++ "%")) ;;
      on_item id (assign_width percentage) ;;
      on_item id (set_item_active (String.eqb emotion maxEmotion))
  | Some _ =>
      throw (TypeError "Cannot set properties of null (setting 'textContent')")
  end.

(** The face box and its label.  [emotionMap[maxEmotion]] is [undefined] for
    a label that is neither registered nor inherited: reading [.color] throws.
    On an inherited member [.color] and [.emoji] are [undefined]: the context
    ignores the assignment and the label starts with "undefined". *)
Definition draw_face (maxEmotion : string) (maxValue : float) (b : Box)
  : M unit :=
  match emotionMap_get maxEmotion with
  | Undefined =>
      throw (TypeError "Cannot read properties of undefined (reading 'color')")
  | found =>
      let paint_with (f : string -> Canvas -> Canvas) : M unit :=
        match found with
        | Own e => on_ctx (f (color e))
        | _ => on_ctx (fun c => c)
        end in
      let emoji_text :=
        match found with Own e => emoji e | _ => "undefined" end in
      paint_with set_strokeStyle ;;
      on_ctx (set_lineWidth 3%float) ;;
      strokeRect (x b) (y b) (width b) (height b) ;;
      let label := (emoji_text ++ " " ++ JS.toUpperCase maxEmotion
                    ++ " (" ++ percent maxValue ++ "%)")%string in
      paint_with set_fillStyle ;;
      on_ctx (set_font "bold 18px Arial") ;;
      fillText label (x b) (y b - 10)%float
  end.

(** [detectEmotions], up to its [await] and from it on. *)
Definition detectEmotions_begin : M unit :=
  s <- get ;;
  if negb (isVideoRunning s) then ret tt
  else on_browser (fun b => set_detections_in_flight (S (detections_in_flight b)) b).

Definition show_detections (detections : list WithFaceExpressions) : M unit :=
  clearRect_all ;;
  on_document (set_faceCount
    ("Faces Detected: " ++ JS.nat_to_string (List.length detections))) ;;
  match detections with
  | face :: _ =>
      let '(maxEmotion, maxValue) := dominant (expressions face) in
      on_document (set_emotionName (JS.toUpperCase maxEmotion)) ;;
      on_document (set_emotionConfidence (percent maxValue ++ "%")) ;;
      forEach (expressions face) (update_emotion maxEmotion) ;;
      draw_face maxEmotion maxValue (box (detection face))
  | [] =>
      on_document (set_emotionName "--") ;;
      on_document (set_emotionConfidence "0%") ;;
      initEmotionsGrid
  end.

Definition detectEmotions_resume (r : settled (list WithFaceExpressions))
  : M unit :=
  try_catch
    (match r with
     | Fulfilled detections => show_detections detections
     | Rejected error => throw error
     end)
    (fun error => log_error "Detection error:" error).

(** [startDetection]. *)
Definition startDetection : M unit :=
  s <- get ;;
  match detectingInterval s with
  | Some id => clearInterval id
  | None => ret tt
  end ;;
  id <- setInterval ;;
  modify (set_detectingInterval (Some id)).

(** [video.onloadedmetadata]: assigning the canvas size also resets the
    canvas and its context. *)
Definition blank_canvas (w h : N) : Canvas :=
  {| canvas_width := w; canvas_height := h;
     strokeStyle := "#000000"; lineWidth := 1%float;
     fillStyle := "#000000"; font := "10px sans-serif";
     painted := [] |}.

Definition onloadedmetadata (videoWidth videoHeight : N) : M unit :=
  on_canvas (fun c => blank_canvas videoWidth (canvas_height c)) ;;
  on_canvas (fun c => blank_canvas (canvas_width c) videoHeight) ;;
  startDetection.

(** The click handler of [toggleBtn]; [startWebcam()] is not awaited. *)
Definition onclick : M unit :=
  s <- get ;;
  if isVideoRunning s then
    stopWebcam ;;
    on_toggleBtn (set_textContent "Start Camera") ;;
    on_toggleBtn (set_active false)
  else
    startWebcam_begin ;;
    on_toggleBtn (set_textContent "Stop Camera") ;;
    on_toggleBtn (set_active true).

(** The [load] handler, up to [await loadModels()] and from it on. *)
Definition onload_begin : M unit :=
  initEmotionsGrid ;;
  on_toggleBtn (set_disabled true) ;;
  on_toggleBtn (set_textContent "Loading Models...") ;;
  loadModels_begin.

Definition onload_resume (r : settled unit) : M unit :=
  loadModels_resume r ;;
  on_toggleBtn (set_textContent "Start Camera") ;;
  on_toggleBtn (set_disabled false).

(** The [beforeunload] handler. *)
Definition onbeforeunload : M unit :=
  s <- get ;;
  if isVideoRunning s then stopWebcam else ret tt.

(** ** The event loop *)

Inductive event :=
  | WindowLoad
  | ModelsSettled (r : settled unit)
  | Click
  | CameraSettled (r : settled MediaStream)
  | LoadedMetadata (videoWidth videoHeight : N)
  | TimerTick (id : positive)
  | DetectionSettled (r : settled (list WithFaceExpressions))
  | BeforeUnload.

(** A handler runs to its end; an exception that leaves it is reported on
    the console and the state it had reached stays. *)
Definition handle (m : M unit) (s : state) : state :=
  match m s with
  | (Normal _, s') => s'
  | (Throw e, s') =>
      set_browser (set_console (console (browser s') ++ [console_error "Uncaught" e])
                     (browser s')) s'
  end.

(** One event, when the browser can deliver it: [load] fires once, a
    promise settles only if it is pending, a disabled button takes no click,
    [loadedmetadata] needs its handler and a stream, and a tick needs its
    timer to be set. *)
Definition step (s : state) (ev : event) : option state :=
  let b := browser s in
  match ev with
  | WindowLoad =>
      if load_fired b then None
      else Some (handle onload_begin
                   (set_browser (set_load_fired true b) s))
  | ModelsSettled r =>
      if models_loading b
      then Some (handle (onload_resume r)
                   (set_browser (set_models_loading false b) s))
      else None
  | Click =>
      if disabled (toggleBtn (document s)) then None
      else Some (handle onclick s)
  | CameraSettled r =>
      match camera_requests b with
      | O => None
      | S n => Some (handle (startWebcam_resume r)
                       (set_browser (set_camera_requests n b) s))
      end
  | LoadedMetadata w h =>
      match video_onloadedmetadata (document s), video_srcObject (document s) with
      | true, Some _ => Some (handle (onloadedmetadata w h) s)
      | _, _ => None
      end
  | TimerTick id =>
      if existsb (Pos.eqb id) (timers b)
      then Some (handle detectEmotions_begin s)
      else None
  | DetectionSettled r =>
      match detections_in_flight b with
      | O => None
      | S n => Some (handle (detectEmotions_resume r)
                       (set_browser (set_detections_in_flight n b) s))
      end
  | BeforeUnload => Some (handle onbeforeunload s)
  end.

Fixpoint run (s : state) (evs : list event) : option state :=
  match evs with
  | [] => Some s
  | ev :: r => match step s ev with
               | Some s' => run s' r
               | None => None
               end
  end.

(** The state in which the script starts: its variables as declared, no
    timer, nothing pending; the document is whatever the markup gave. *)
Definition initial (s : state) : Prop :=
  isVideoRunning s = false /\ detectingInterval s = None /\ ctx s = None /\
  video_srcObject (document s) = None /\
  video_onloadedmetadata (document s) = false /\
  timers (browser s) = [] /\ load_fired (browser s) = false /\
  models_loading (browser s) = false /\ camera_requests (browser s) = O /\
  detections_in_flight (browser s) = O.

Inductive reachable : state -> Prop :=
  | reachable_initial s : initial s -> reachable s
  | reachable_step s ev s' : reachable s -> step s ev = Some s' -> reachable s'.

(** * The vocabulary of the properties

    Functions and predicates the statements below are written with: the order
    of the numbers, the grid update as a function of the grid, the states the
    handlers end in, the invariants of a session, and a sample session. *)

(** ** The order of the script's numbers

    A binary64 value other than NaN has a rank, three integers compared
    lexicographically: the sign class, then the exponent and the mantissa
    (both negated for negative values).  The two zeros share a rank. *)
Module Order.

Definition rank_of (f : spec_float) : option (Z * Z * Z) :=
  match f with
  | S754_nan => None
  | S754_infinity true => Some (-2, 0, 0)%Z
  | S754_infinity false => Some (2, 0, 0)%Z
  | S754_zero _ => Some (0, 0, 0)%Z
  | S754_finite true m e => Some (-1, - e, - Zpos m)%Z
  | S754_finite false m e => Some (1, e, Zpos m)%Z
  end.

Definition rank (a : float) : option (Z * Z * Z) := rank_of (Prim2SF a).

Definition below (k1 k2 : Z * Z * Z) : Prop :=
  let '(a1, b1, c1) := k1 in
  let '(a2, b2, c2) := k2 in
  (a1 < a2 \/ (a1 = a2 /\ (b1 < b2 \/ (b1 = b2 /\ c1 < c2))))%Z.

Definition lt_rank (r1 r2 : option (Z * Z * Z)) : Prop :=
  match r1, r2 with
  | Some k1, Some k2 => below k1 k2
  | _, _ => False
  end.

Definition same (k1 k2 : Z * Z * Z) : Prop :=
  let '(a1, b1, c1) := k1 in
  let '(a2, b2, c2) := k2 in
  (a1 = a2 /\ b1 = b2 /\ c1 = c2)%Z.

Definition le_rank (r1 r2 : option (Z * Z * Z)) : Prop :=
  match r1, r2 with
  | Some k1, Some k2 => below k1 k2 \/ same k1 k2
  | _, _ => False
  end.

(** JavaScript's [a >= b] on numbers. *)
Definition reaches (a b : float) : bool := PrimFloat.leb b a.
Arguments reaches : simpl never.

End Order.

(** ** The grid update as a function of the grid

    The second [forEach] of [detectEmotions] touches the grid only; here it is
    as a function of the grid, with the exception it may end on. *)

(** What one entry of the mapping does to its item: percentage text, bar
    width, highlight. *)
Definition entry_update (maxEmotion emotion : string) (confidence : float)
  (it : EmotionItem) : EmotionItem :=
  set_item_active (String.eqb emotion maxEmotion)
    (assign_width (percent confidence)
       (set_item_value (percent confidence ++ "%") it)).

Definition null_textContent : js_error :=
  TypeError "Cannot set properties of null (setting 'textContent')".

Fixpoint update_grid (maxEmotion : string) (entries : list (string * float))
  (grid : list EmotionItem) : completion unit * list EmotionItem :=
  match entries with
  | [] => (Normal tt, grid)
  | (emotion, confidence) :: r =>
      let id := ("emotion-" ++ emotion)%string in
      match find_element id grid with
      | None => update_grid maxEmotion r grid
      | Some EmotionItemElement =>
          update_grid maxEmotion r
            (update_first id (entry_update maxEmotion emotion confidence) grid)
      | Some _ => (Throw null_textContent, grid)
      end
  end.

(** ** The states the handlers end in *)

Definition with_grid (grid : list EmotionItem) (s : state) : state :=
  set_document (set_emotionsList grid (document s)) s.

(** The grid as [initEmotionsGrid] builds it. *)
Definition fresh_grid : list EmotionItem :=
  map (fun p => emotion_item (fst p) (snd p)) emotionMap.

Definition in_document (f : Document -> Document) (s : state) : state :=
  set_document (f (document s)) s.

Definition in_canvas (f : Canvas -> Canvas) (s : state) : state :=
  in_document (fun d => set_canvas (f (canvas d)) d) s.

(** The state once the canvas is cleared and the counter and the dominant
    emotion are written. *)
Definition main_shown (faces : nat) (name confidence : string) (s : state)
  : state :=
  in_document (set_emotionConfidence confidence)
    (in_document (set_emotionName name)
       (in_document (set_faceCount ("Faces Detected: " ++ JS.nat_to_string faces))
          (in_canvas (set_painted []) s))).

(** The canvas once the box and the label of the face are painted. *)
Definition face_painted (stroke : option string) (emoji_text maxEmotion : string)
  (maxValue : float) (b : Box) (c : Canvas) : Canvas :=
  let styled (f : string -> Canvas -> Canvas) (c : Canvas) :=
    match stroke with Some col => f col c | None => c end in
  let c1 := set_lineWidth 3%float (styled set_strokeStyle c) in
  let c2 := stroked (x b) (y b) (width b) (height b) c1 in
  let c3 := set_font "bold 18px Arial" (styled set_fillStyle c2) in
  filled (emoji_text ++ " " ++ JS.toUpperCase maxEmotion
          ++ " (" ++ percent maxValue ++ "%)")
    (x b) (y b - 10)%float c3.

Definition undefined_color : js_error :=
  TypeError "Cannot read properties of undefined (reading 'color')".

(** [console.error(message, e)]. *)
Definition logged (message : string) (e : js_error) (s : state) : state :=
  set_browser (set_console (console (browser s) ++ [console_error message e])
                 (browser s)) s.

(** The tick's continuation on a face, in full: the state it ends in. *)
Definition after_face (face : WithFaceExpressions) (rest : nat) (s : state)
  : state :=
  let '(l, v) := dominant (expressions face) in
  let s1 := main_shown (S rest) (JS.toUpperCase l) (percent v ++ "%") s in
  match update_grid l (expressions face) (emotionsList (document s)) with
  | (Throw e, g) => logged "Detection error:" e (with_grid g s1)
  | (Normal _, g) =>
      match emotionMap_get l with
      | Own e =>
          in_canvas (face_painted (Some (color e)) (emoji e) l v
                       (box (detection face))) (with_grid g s1)
      | Inherited =>
          in_canvas (face_painted None "undefined" l v
                       (box (detection face))) (with_grid g s1)
      | Undefined => logged "Detection error:" undefined_color (with_grid g s1)
      end
  end.

(** The display as [stopWebcam] and a tick without a face leave it. *)
Definition reset_display (s : state) : state :=
  with_grid fresh_grid (main_shown 0 "--" "0%" s).

(** The first three statements of [stopWebcam]: tracks stopped, flag
    lowered, timer cleared. *)
Definition halted (s : state) : state :=
  let s1 := in_document
              (fun d => set_video_srcObject
                          (option_map (map stop) (video_srcObject d)) d) s in
  let s2 := set_isVideoRunning false s1 in
  match detectingInterval s with
  | Some id =>
      set_browser
        (set_timers (filter (fun t => negb (Pos.eqb t id)) (timers (browser s)))
           (browser s)) s2
  | None => s2
  end.

Definition null_ctx : js_error := TypeError "Cannot read properties of null".

(** ** Invariants and frames *)

(** The script's variables, the timers, the alerts, the pending promises and
    the controls: everything but the display and the console. *)
Definition same_session (s s' : state) : Prop :=
  isVideoRunning s' = isVideoRunning s /\
  detectingInterval s' = detectingInterval s /\
  ctx s' = ctx s /\
  timers (browser s') = timers (browser s) /\
  next_timer (browser s') = next_timer (browser s) /\
  alerts (browser s') = alerts (browser s) /\
  load_fired (browser s') = load_fired (browser s) /\
  models_loading (browser s') = models_loading (browser s) /\
  camera_requests (browser s') = camera_requests (browser s) /\
  detections_in_flight (browser s') = detections_in_flight (browser s) /\
  video_srcObject (document s') = video_srcObject (document s) /\
  video_onloadedmetadata (document s') = video_onloadedmetadata (document s) /\
  toggleBtn (document s') = toggleBtn (document s) /\
  loadingIndicator (document s') = loadingIndicator (document s).

(** While the flag is up or a detection is awaited, [ctx] is the context. *)
Definition ctx_ready (s : state) : Prop :=
  (isVideoRunning s = true \/ detections_in_flight (browser s) <> O) ->
  ctx s = Some Context2D.

(** The only timer that can be set is the one [detectingInterval] names. *)
Definition one_timer (s : state) : Prop :=
  timers (browser s) = [] \/
  exists id, timers (browser s) = [id] /\ detectingInterval s = Some id.

(** ** A sample session, for concrete runs *)
Module Sample.

(** A page as its markup could leave it, before the script has run. *)
Definition page : state :=
  {| isVideoRunning := false; detectingInterval := None; ctx := None;
     document :=
       {| video_srcObject := None; video_onloadedmetadata := false;
          canvas := blank_canvas 300 150;
          emotionName := "--"; emotionConfidence := "0%";
          faceCount := "Faces Detected: 0"; emotionsList := [];
          toggleBtn := {| textContent := "Start Camera"; disabled := true;
                          active := false |};
          loadingIndicator := {| indicator_text := "Loading models...";
                                 indicator_display := "" |} |};
     browser :=
       {| timers := []; next_timer := 1%positive; console := []; alerts := [];
          load_fired := false; models_loading := false;
          camera_requests := O; detections_in_flight := O |} |}.

(** The same page with markup that leaves the start control enabled. *)
Definition enabled_page : state :=
  set_document
    (set_toggleBtn {| textContent := "Start Camera"; disabled := false;
                      active := false |} (document page)) page.

Definition camera : MediaStream := [ {| kind := "video"; ended := false |} ].

Definition face_at (scores : list (string * float)) : WithFaceExpressions :=
  {| detection := {| box := {| x := 10; y := 20; width := 100; height := 120 |} |};
     expressions := scores |}.

(** The detection result of the specification's example. *)
Definition example_scores : list (string * float) :=
  [ ("happy", 0.82); ("sad", 0.10); ("neutral", 0.05); ("angry", 0.01);
    ("fearful", 0.01); ("disgusted", 0.005); ("surprised", 0.005) ]%float.

Definition example_box : Box :=
  {| x := 10; y := 20; width := 100; height := 120 |}.

(** What the example paints: the rectangle of the box in the colour of
    'happy', line width 3, then the label (emoji, name, percentage) ten
    pixels above the box. *)
Definition example_overlay : list paint :=
  [ StrokeRect "#90ee90" 3%float 10%float 20%float 100%float 120%float;
    FillText (JS.of_bytes [195; 176; 197; 184; 203; 156; 197; 160]
              ++ " HAPPY (82.0%)")
      "#90ee90" "bold 18px Arial" 10%float 10%float ].

(** The page loaded, the camera granted, the video ready. *)
Definition started : list event :=
  [ WindowLoad; ModelsSettled (Fulfilled tt); Click;
    CameraSettled (Fulfilled camera); LoadedMetadata 640 480 ].

(** The same, with one tick waiting for the detector. *)
Definition detecting : list event := started ++ [ TimerTick 1 ].

Definition state_after (evs : list event) : state :=
  match run page evs with Some s => s | None => page end.

End Sample.

(** The labels whose id is the id of a text element of the display. *)
Definition names_text_element (l : string) : bool :=
  String.eqb l "name" || String.eqb l "confidence".

(** A box the canvas paints: finite numbers, not both sizes zero. *)
Definition paintable (b : Box) : bool :=
  is_finite (x b) && is_finite (y b) && is_finite (width b)
  && is_finite (height b) && negb (is_zero (width b) && is_zero (height b))
  && is_finite (y b - 10)%float.

(** One entry applied to one item: the update when the ids agree. *)
Definition update_item (maxEmotion l : string) (w : float) (it : EmotionItem)
  : EmotionItem :=
  if String.eqb (item_id it) ("emotion-" ++ l)
  then entry_update maxEmotion l w it else it.

(** The whole update, item by item. *)
Definition item_after (maxEmotion : string) (entries : list (string * float))
  (it : EmotionItem) : EmotionItem :=
  fold_left (fun it e => update_item maxEmotion (fst e) (snd e) it) entries it.

(** Once the [load] handler has run, the grid holds one item per registered
    emotion, in the order of the registry. *)
Definition grid_built (s : state) : Prop :=
  map item_id (emotionsList (document s)) =
  map (fun l => ("emotion-" ++ l)%string) registered.

(** What the user sees of a detection: the three texts, the grid and the
    canvas. *)
Definition display (s : state)
  : string * string * string * list EmotionItem * list paint :=
  (emotionName (document s), emotionConfidence (document s),
   faceCount (document s), emotionsList (document s),
   painted (canvas (document s))).

(** The display in its zero state. *)
Definition reset_shown : string * string * string * list EmotionItem * list paint :=
  ("--", "0%", "Faces Detected: 0", fresh_grid, []).

(** The event that starts detection. *)
Definition is_metadata (ev : event) : bool :=
  match ev with LoadedMetadata _ _ => true | _ => false end.

(** ** What the dominant-emotion texts should read

    The capital of an ASCII letter, and a number of tenths written with one
    decimal place: the digits of [n / 10], the point, the digit [n mod 10]. *)
Definition capital (c : ascii) : ascii :=
  if (97 <=? nat_of_ascii c)%nat && (nat_of_ascii c <=? 122)%nat
  then ascii_of_nat (nat_of_ascii c - 32) else c.

Definition one_decimal (n : Z) : string :=
  NilEmpty.string_of_uint (N.to_uint (Z.to_N (n / 10))) ++ "."
  ++ String (ascii_of_nat (48 + Z.to_nat (n mod 10))) EmptyString.

(** [n] tenths is the multiple of a tenth nearest to [m * 2^e], the larger
    one when two are as near: [10 * m * 2^e - 1/2 < n <= 10 * m * 2^e + 1/2],
    with [m * 2^e] written as a fraction of integers. *)
Definition nearest_tenth (m : positive) (e n : Z) : Prop :=
  let num := (Zpos m * 2 ^ Z.max 0 e)%Z in
  let den := (2 ^ Z.max 0 (- e))%Z in
  (2 * den * n <= 20 * num + den < 2 * den * (n + 1))%Z.

(** ** Vocabulary of the further properties *)

(** The one message the script alerts. *)
Definition camera_alert : string :=
  "Could not access webcam. Please check permissions.".

(** A console entry the browser writes for an exception no handler caught. *)
Definition is_uncaught (c : console_entry) : bool :=
  match c with
  | console_error message _ => String.eqb message "Uncaught"
  | console_log _ => false
  end.


(** What [initEmotionsGrid] fixes of an item: id, name text and bar colour. *)
Definition item_static (it : EmotionItem) : string * string * string :=
  (item_id it, item_name it, bar_background it).

(** The bar and the text of an item agree as far as CSS lets them: the item
    is as built ('0%', no width), or its text is a percentage, its bar is as
    wide as the text says whenever CSS accepts the text, and the bar has no
    width or one CSS accepts. *)
Definition item_consistent (it : EmotionItem) : Prop :=
  (item_value it = "0%" /\ bar_width it = None) \/
  exists p,
    item_value it = (p ++ "%")%string /\
    (width_accepted p = true -> bar_width it = Some (p ++ "%")%string) /\
    (bar_width it = None \/
     exists q, bar_width it = Some (q ++ "%")%string /\
               width_accepted q = true).

(** The grid of a loaded page: the static parts as built, bars and texts in
    agreement. *)
Definition grid_sound (s : state) : Prop :=
  map item_static (emotionsList (document s)) = map item_static fresh_grid /\
  Forall item_consistent (emotionsList (document s)).

(** All tracks of the stream attached to the video, if any, have ended. *)
Definition camera_released (s : state) : Prop :=
  match video_srcObject (document s) with
  | Some stream => Forall (fun t => ended t = true) stream
  | None => True
  end.

(** One more detector call awaited, nothing else changed. *)
Definition one_more_in_flight (s : state) : state :=
  set_browser
    (set_detections_in_flight (S (detections_in_flight (browser s))) (browser s)) s.

(** * Properties *)

(** ** The order of JavaScript numbers

    The comparisons of binary64 values are read off their ranks. *)

Module OrderFacts.
Import Order.

Lemma SFcompare_rank (f1 f2 : spec_float) :
  match SFcompare f1 f2 with
  | None => rank_of f1 = None \/ rank_of f2 = None
  | Some Lt => lt_rank (rank_of f1) (rank_of f2)
  | Some Eq => rank_of f1 <> None /\ rank_of f1 = rank_of f2
  | Some Gt => lt_rank (rank_of f2) (rank_of f1)
  end.
Proof.
  destruct f1 as [s1|s1| |s1 m1 e1], f2 as [s2|s2| |s2 m2 e2];
    try destruct s1; try destruct s2; cbn; try tauto; try lia;
    try (split; [discriminate | reflexivity]).
  - destruct (Z.compare_spec e1 e2) as [He|He|He]; cbn; try lia.
    rewrite Pos.compare_cont_spec; cbn.
    destruct (Pos.compare_spec m1 m2) as [Hm|Hm|Hm]; cbn; subst; try lia.
    split; [discriminate | reflexivity].
  - destruct (Z.compare_spec e1 e2) as [He|He|He]; cbn; try lia.
    rewrite Pos.compare_cont_spec; cbn.
    destruct (Pos.compare_spec m1 m2) as [Hm|Hm|Hm]; cbn; subst; try lia.
    split; [discriminate | reflexivity].
Qed.

Lemma ltb_rank (a b : float) :
  PrimFloat.ltb a b = true <-> lt_rank (rank a) (rank b).
Proof.
  rewrite ltb_spec. unfold SFltb, rank.
  pose proof (SFcompare_rank (Prim2SF a) (Prim2SF b)) as H.
  destruct (SFcompare (Prim2SF a) (Prim2SF b)) as [[ | | ]|].
  - destruct H as [Hn He]. rewrite <- He.
    destruct (rank_of (Prim2SF a)) as [[[? ?] ?]|]; cbn; split;
      try discriminate; try tauto; lia.
  - tauto.
  - split; [discriminate|]. intro H'.
    destruct (rank_of (Prim2SF a)) as [[[? ?] ?]|],
             (rank_of (Prim2SF b)) as [[[? ?] ?]|]; cbn in *; try tauto; lia.
  - split; [discriminate|]. intro H'.
    destruct H as [H|H]; rewrite H in H'; cbn in H'; try tauto.
    destruct (rank_of (Prim2SF a)); cbn in H'; tauto.
Qed.

Lemma leb_rank (a b : float) :
  PrimFloat.leb a b = true <-> le_rank (rank a) (rank b).
Proof.
  rewrite leb_spec. unfold SFleb, rank.
  pose proof (SFcompare_rank (Prim2SF a) (Prim2SF b)) as H.
  destruct (SFcompare (Prim2SF a) (Prim2SF b)) as [[ | | ]|].
  - destruct H as [Hn He]. rewrite <- He.
    destruct (rank_of (Prim2SF a)) as [[[? ?] ?]|]; cbn; split;
      try discriminate; try tauto; auto.
  - split; [intros _|reflexivity].
    destruct (rank_of (Prim2SF a)) as [[[? ?] ?]|],
             (rank_of (Prim2SF b)) as [[[? ?] ?]|]; cbn in *; tauto.
  - split; [discriminate|]. intro H'.
    destruct (rank_of (Prim2SF a)) as [[[a1 b1] c1]|],
             (rank_of (Prim2SF b)) as [[[a2 b2] c2]|]; cbn in *; try tauto.
    lia.
  - split; [discriminate|]. intro H'.
    destruct H as [H|H]; rewrite H in H'; cbn in H'; try tauto.
    destruct (rank_of (Prim2SF a)); cbn in H'; tauto.
Qed.

Lemma gt_true (a b : float) :
  JS.gt a b = true <-> lt_rank (rank b) (rank a).
Proof. apply ltb_rank. Qed.

Lemma gt_false (a b : float) :
  JS.gt a b = false <-> ~ lt_rank (rank b) (rank a).
Proof.
  rewrite <- gt_true. destruct (JS.gt a b); split; congruence.
Qed.

Lemma reaches_true (a b : float) :
  reaches a b = true <-> le_rank (rank b) (rank a).
Proof. apply leb_rank. Qed.

Lemma reaches_false (a b : float) :
  reaches a b = false <-> ~ le_rank (rank b) (rank a).
Proof.
  rewrite <- reaches_true. destruct (reaches a b); split; congruence.
Qed.

Lemma rank_zero : rank 0%float = Some (0, 0, 0)%Z.
Proof. reflexivity. Qed.

End OrderFacts.

(** Comparisons in the context and in the goal become facts on ranks, which
    [lia] settles once the ranks are named. *)
Ltac by_rank :=
  rewrite ?OrderFacts.gt_true, ?OrderFacts.gt_false, ?OrderFacts.reaches_true,
    ?OrderFacts.reaches_false in *;
  repeat match goal with
    | |- context [Order.rank ?a] =>
        destruct (Order.rank a) as [[[? ?] ?]|]
    | H : context [Order.rank ?a] |- _ =>
        destruct (Order.rank a) as [[[? ?] ?]|]
    end;
  cbn in *; try tauto; try congruence; try lia.

(** ** The dominant emotion *)

Section Dominant.

Implicit Types (m : list (string * float)) (e : string * float).

Lemma fold_keep_max_cons l w m l0 v0 :
  fold_left keep_max ((l, w) :: m) (l0, v0) =
  fold_left keep_max m (if JS.gt w v0 then (l, w) else (l0, v0)).
Proof. reflexivity. Qed.

(** No score of the mapping is strictly greater than the value the loop
    ends with, whatever it started from. *)
Lemma fold_keep_max_upper m : forall l0 v0,
  Order.rank v0 <> None ->
  JS.gt v0 (snd (fold_left keep_max m (l0, v0))) = false /\
  forall e, In e m -> JS.gt (snd e) (snd (fold_left keep_max m (l0, v0))) = false.
Proof.
  induction m as [|[l w] r IH]; intros l0 v0 Hv0.
  - split; [cbn; by_rank | intros e []].
  - rewrite fold_keep_max_cons. destruct (JS.gt w v0) eqn:G.
    + destruct (IH l w) as [H1 H2]; [by_rank|].
      set (v := snd (fold_left keep_max r (l, w))) in *.
      split; [by_rank|]. intros e [<-|He]; cbn [snd]; auto.
    + destruct (IH l0 v0 Hv0) as [H1 H2].
      set (v := snd (fold_left keep_max r (l0, v0))) in *.
      split; [exact H1|]. intros e [<-|He]; cbn [snd]; auto.
      by_rank.
Qed.

(** Either no score is above the start and the start stays, or the result is
    an entry of the mapping, above the start, that no earlier entry reaches. *)
Lemma fold_keep_max_first m : forall l0 v0,
  Order.rank v0 <> None ->
  (fold_left keep_max m (l0, v0) = (l0, v0) /\
   forall e, In e m -> JS.gt (snd e) v0 = false) \/
  (exists before after,
     m = before ++ fold_left keep_max m (l0, v0) :: after /\
     JS.gt (snd (fold_left keep_max m (l0, v0))) v0 = true /\
     forall e, In e before ->
       Order.reaches (snd e) (snd (fold_left keep_max m (l0, v0))) = false).
Proof.
  induction m as [|[l w] r IH]; intros l0 v0 Hv0.
  - left. split; [reflexivity | intros e []].
  - rewrite fold_keep_max_cons. destruct (JS.gt w v0) eqn:G.
    + right. destruct (IH l w) as [[E H]|(b & a & E & Hgt & Hb)]; [by_rank|..].
      * exists [], r. rewrite E. cbn. repeat split; auto. intros e [].
      * exists ((l, w) :: b), a.
        set (res := fold_left keep_max r (l, w)) in *.
        split; [cbn; f_equal; exact E|]. split; [by_rank|].
        intros e [<-|He]; cbn [snd]; auto. by_rank.
    + destruct (IH l0 v0 Hv0) as [[E H]|(b & a & E & Hgt & Hb)].
      * left. split; [exact E|]. intros e [<-|He]; cbn [snd]; auto.
      * right. exists ((l, w) :: b), a.
        set (res := fold_left keep_max r (l0, v0)) in *.
        split; [cbn; f_equal; exact E|]. split; [exact Hgt|].
        intros e [<-|He]; cbn [snd]; auto. by_rank.
Qed.

End Dominant.

(** ** The grid update is [update_grid] *)

Lemma update_first_twice id (f g : EmotionItem -> EmotionItem) l :
  (forall it, item_id (f it) = item_id it) ->
  update_first id g (update_first id f l) =
  update_first id (fun it => g (f it)) l.
Proof.
  intros Hf. induction l as [|it r IH]; cbn; [reflexivity|].
  destruct (String.eqb (item_id it) id) eqn:E; cbn.
  - rewrite Hf, E. reflexivity.
  - rewrite E, IH. reflexivity.
Qed.

Lemma with_grid_same s : with_grid (emotionsList (document s)) s = s.
Proof. destruct s as [? ? ? [] ?]; reflexivity. Qed.

Lemma with_grid_twice g g' s : with_grid g' (with_grid g s) = with_grid g' s.
Proof. destruct s as [? ? ? [] ?]; reflexivity. Qed.

Lemma assign_width_id p it : item_id (assign_width p it) = item_id it.
Proof. unfold assign_width. destruct (width_accepted p); reflexivity. Qed.

Lemma update_emotion_eq maxEmotion emotion confidence s :
  update_emotion maxEmotion (emotion, confidence) s =
  match find_element ("emotion-" ++ emotion) (emotionsList (document s)) with
  | None => (Normal tt, s)
  | Some EmotionItemElement =>
      (Normal tt,
       with_grid (update_first ("emotion-" ++ emotion)
                    (entry_update maxEmotion emotion confidence)
                    (emotionsList (document s))) s)
  | Some _ => (Throw null_textContent, s)
  end.
Proof.
  unfold update_emotion, bind at 1, get, getElementById.
  destruct (find_element ("emotion-" ++ emotion) (emotionsList (document s)))
    as [[ | | ]|]; try reflexivity.
  unfold on_item, on_document, modify, bind, with_grid.
  cbn [document emotionsList set_document set_emotionsList].
  rewrite !update_first_twice
    by (intros; rewrite ?assign_width_id; reflexivity).
  destruct s as [? ? ? [] ?]; reflexivity.
Qed.

Lemma forEach_update_emotion maxEmotion entries : forall s,
  forEach entries (update_emotion maxEmotion) s =
  (fst (update_grid maxEmotion entries (emotionsList (document s))),
   with_grid (snd (update_grid maxEmotion entries (emotionsList (document s)))) s).
Proof.
  induction entries as [|[emotion confidence] r IH]; intros s.
  - cbn. rewrite with_grid_same. reflexivity.
  - cbn [forEach update_grid]. unfold bind. rewrite update_emotion_eq.
    destruct (find_element ("emotion-" ++ emotion) (emotionsList (document s)))
      as [[ | | ]|] eqn:E.
    + cbn. rewrite with_grid_same. reflexivity.
    + cbn. rewrite with_grid_same. reflexivity.
    + rewrite IH, with_grid_twice.
      destruct s as [? ? ? [] ?]; reflexivity.
    + rewrite IH. reflexivity.
Qed.

(** ** What a tick leaves behind *)

Lemma draw_face_eq l v b s :
  ctx s = Some Context2D ->
  draw_face l v b s =
  match emotionMap_get l with
  | Own e => (Normal tt, in_canvas (face_painted (Some (color e)) (emoji e) l v b) s)
  | Inherited => (Normal tt, in_canvas (face_painted None "undefined" l v b) s)
  | Undefined => (Throw undefined_color, s)
  end.
Proof.
  intros Hc. unfold draw_face.
  destruct s as [? ? c [? ? [] ? ? ? ? ? ?] ?]. cbn in Hc. subst c.
  destruct (emotionMap_get l); reflexivity.
Qed.

Lemma show_face_eq face rest s l v :
  ctx s = Some Context2D ->
  dominant (expressions face) = (l, v) ->
  show_detections (face :: rest) s =
  (forEach (expressions face) (update_emotion l) ;;
   draw_face l v (box (detection face)))
    (main_shown (S (List.length rest)) (JS.toUpperCase l) (percent v ++ "%") s).
Proof.
  intros Hc D. unfold show_detections. rewrite D.
  destruct s as [? ? c [? ? [] ? ? ? ? ? ?] ?]. cbn in Hc. subst c.
  reflexivity.
Qed.

Lemma show_none_eq s :
  ctx s = Some Context2D ->
  show_detections [] s =
  (Normal tt, with_grid fresh_grid (main_shown 0 "--" "0%" s)).
Proof.
  intros Hc.
  destruct s as [? ? c [? ? [] ? ? ? ? ? ?] ?]. cbn in Hc. subst c.
  reflexivity.
Qed.

Lemma show_without_ctx detections s :
  ctx s = None ->
  show_detections detections s =
  (Throw (TypeError "Cannot read properties of null"), s).
Proof.
  intros Hc.
  destruct s as [? ? c ? ?]. cbn in Hc. subst c. reflexivity.
Qed.

Lemma detectEmotions_resume_face face rest s :
  ctx s = Some Context2D ->
  detectEmotions_resume (Fulfilled (face :: rest)) s =
  (Normal tt, after_face face (List.length rest) s).
Proof.
  intros Hc. unfold detectEmotions_resume, try_catch, after_face.
  destruct (dominant (expressions face)) as [l v] eqn:D.
  rewrite (show_face_eq face rest s l v Hc D).
  unfold bind. rewrite forEach_update_emotion.
  replace (emotionsList (document (main_shown (S (List.length rest))
             (JS.toUpperCase l) (percent v ++ "%") s)))
    with (emotionsList (document s)) by reflexivity.
  destruct (update_grid l (expressions face) (emotionsList (document s)))
    as [[[]|e] g]; cbn [fst snd].
  - rewrite draw_face_eq by exact Hc.
    destruct (emotionMap_get l); reflexivity.
  - reflexivity.
Qed.

Lemma detectEmotions_resume_none s :
  ctx s = Some Context2D ->
  detectEmotions_resume (Fulfilled []) s =
  (Normal tt, with_grid fresh_grid (main_shown 0 "--" "0%" s)).
Proof.
  intros Hc. unfold detectEmotions_resume, try_catch.
  rewrite show_none_eq by exact Hc. reflexivity.
Qed.

Lemma detectEmotions_resume_without_ctx detections s :
  ctx s = None ->
  detectEmotions_resume (Fulfilled detections) s =
  (Normal tt, logged "Detection error:" (TypeError "Cannot read properties of null") s).
Proof.
  intros Hc. unfold detectEmotions_resume, try_catch.
  rewrite show_without_ctx by exact Hc. reflexivity.
Qed.

Lemma detectEmotions_resume_rejected e s :
  detectEmotions_resume (Rejected e) s =
  (Normal tt, logged "Detection error:" e s).
Proof. reflexivity. Qed.

(** ** What [stopWebcam] leaves behind *)

Lemma stopWebcam_eq s :
  stopWebcam s =
  match ctx s with
  | Some Context2D => (Normal tt, reset_display (halted s))
  | None => (Throw null_ctx, halted s)
  end.
Proof.
  destruct s as [? i c [src ? [] ? ? ? ? ? ?] []].
  destruct c as [[]|], src, i; reflexivity.
Qed.

Lemma detectEmotions_resume_none_eq s :
  ctx s = Some Context2D ->
  detectEmotions_resume (Fulfilled []) s = (Normal tt, reset_display s).
Proof. apply detectEmotions_resume_none. Qed.

(** ** What a tick never touches *)

Ltac same_session := unfold same_session; repeat split; reflexivity.

Lemma after_face_same_session face n s : same_session s (after_face face n s).
Proof.
  unfold after_face.
  destruct (dominant (expressions face)) as [l v].
  destruct (update_grid l (expressions face) (emotionsList (document s)))
    as [[[]|e] g]; [destruct (emotionMap_get l)|]; same_session.
Qed.

(** The continuation of a tick always completes normally, and leaves the
    session as it was. *)
Lemma detectEmotions_resume_normal r s :
  fst (detectEmotions_resume r s) = Normal tt /\
  same_session s (snd (detectEmotions_resume r s)).
Proof.
  destruct r as [detections|e].
  - destruct (ctx s) as [[]|] eqn:Hc.
    + destruct detections as [|face rest].
      * rewrite detectEmotions_resume_none by exact Hc.
        split; [reflexivity | same_session].
      * rewrite detectEmotions_resume_face by exact Hc.
        split; [reflexivity | apply after_face_same_session].
    + rewrite detectEmotions_resume_without_ctx by exact Hc.
      split; [reflexivity | same_session].
  - rewrite detectEmotions_resume_rejected.
    split; [reflexivity | same_session].
Qed.

Lemma handle_detectEmotions_resume r s :
  handle (detectEmotions_resume r) s = snd (detectEmotions_resume r s).
Proof.
  destruct (detectEmotions_resume_normal r s) as [H _].
  unfold handle. destruct (detectEmotions_resume r s) as [c s'].
  cbn in H. subst c. reflexivity.
Qed.

(** ** Invariants of a session *)

Lemma step_ctx_ready s ev s' :
  step s ev = Some s' -> ctx_ready s -> ctx_ready s'.
Proof.
  unfold ctx_ready. intros Hstep Hinv.
  destruct ev as [ |r| |r|w h|id|r| ]; cbn [step] in Hstep.
  - destruct (load_fired (browser s)); [discriminate|].
    injection Hstep as <-.
    destruct s as [run i c [src ? [] ? ? ? ? ? ?] []]. exact Hinv.
  - destruct (models_loading (browser s)); [|discriminate].
    injection Hstep as <-.
    destruct s as [run i c [src ? [] ? ? ? ? ? ?] []], r; exact Hinv.
  - destruct (disabled (toggleBtn (document s))); [discriminate|].
    injection Hstep as <-.
    destruct s as [run i c [src ? [] ? ? ? ? ? ?] []].
    destruct run, c as [[]|], src, i; cbn in *; intuition congruence.
  - destruct (camera_requests (browser s)) eqn:E; [discriminate|].
    injection Hstep as <-.
    destruct s as [run i c [src ? [] ? ? ? ? ? ?] []], r; cbn in *;
      intuition congruence.
  - destruct (video_onloadedmetadata (document s)); [|discriminate].
    destruct (video_srcObject (document s)) eqn:E; [|discriminate].
    injection Hstep as <-.
    destruct s as [run i c [src ? [] ? ? ? ? ? ?] []].
    destruct i; exact Hinv.
  - destruct (existsb (Pos.eqb id) (timers (browser s))); [|discriminate].
    injection Hstep as <-.
    destruct s as [run i c [src ? [] ? ? ? ? ? ?] []].
    destruct run; cbn in *; intuition congruence.
  - destruct (detections_in_flight (browser s)) eqn:E; [discriminate|].
    injection Hstep as <-.
    rewrite handle_detectEmotions_resume.
    match goal with |- context [detectEmotions_resume r ?s0] =>
      destruct (detectEmotions_resume_normal r s0) as [_ H] end.
    destruct H as (H1 & H2 & H3 & H4 & H5 & H6 & H7 & H8 & H9 & H10 & _).
    rewrite H1, H3, H10. cbn. intros _. apply Hinv.
    right. rewrite ?E. discriminate.
  - injection Hstep as <-.
    destruct s as [run i c [src ? [] ? ? ? ? ? ?] []].
    destruct run, c as [[]|], src, i; cbn in *; intuition congruence.
Qed.

Lemma step_one_timer s ev s' :
  step s ev = Some s' -> one_timer s -> one_timer s'.
Proof.
  unfold one_timer. intros Hstep Hinv.
  destruct ev as [ |r| |r|w h|id|r| ]; cbn [step] in Hstep.
  - destruct (load_fired (browser s)); [discriminate|].
    injection Hstep as <-.
    destruct s as [run i c [src ? [] ? ? ? ? ? ?] []]. exact Hinv.
  - destruct (models_loading (browser s)); [|discriminate].
    injection Hstep as <-.
    destruct s as [run i c [src ? [] ? ? ? ? ? ?] []], r; exact Hinv.
  - destruct (disabled (toggleBtn (document s))); [discriminate|].
    injection Hstep as <-.
    destruct s as [run i c [src ? [] ? ? ? ? ? ?] [tm ? ? ? ? ? ? ?]].
    cbn in Hinv.
    destruct Hinv as [->|(id & -> & ->)]; [destruct i|];
      destruct run, c as [[]|], src; cbn; rewrite ?Pos.eqb_refl; cbn;
      eauto.
  - destruct (camera_requests (browser s)) eqn:E; [discriminate|].
    injection Hstep as <-.
    destruct s as [run i c [src ? [] ? ? ? ? ? ?] []], r; exact Hinv.
  - destruct (video_onloadedmetadata (document s)); [|discriminate].
    destruct (video_srcObject (document s)) eqn:E; [|discriminate].
    injection Hstep as <-.
    destruct s as [run i c [src ? [] ? ? ? ? ? ?] [tm nx ? ? ? ? ? ?]].
    cbn in Hinv. right. exists nx.
    destruct Hinv as [->|(id & -> & ->)]; [destruct i|]; cbn;
      rewrite ?Pos.eqb_refl; cbn; auto.
  - destruct (existsb (Pos.eqb id) (timers (browser s))); [|discriminate].
    injection Hstep as <-.
    destruct s as [run i c [src ? [] ? ? ? ? ? ?] []].
    destruct run; exact Hinv.
  - destruct (detections_in_flight (browser s)) eqn:E; [discriminate|].
    injection Hstep as <-.
    rewrite handle_detectEmotions_resume.
    match goal with |- context [detectEmotions_resume r ?s0] =>
      destruct (detectEmotions_resume_normal r s0) as [_ H] end.
    destruct H as (H1 & H2 & H3 & H4 & _).
    rewrite H2, H4. exact Hinv.
  - injection Hstep as <-.
    destruct s as [run i c [src ? [] ? ? ? ? ? ?] [tm ? ? ? ? ? ? ?]].
    cbn in Hinv.
    destruct Hinv as [->|(id & -> & ->)]; [destruct i|];
      destruct run, c as [[]|], src; cbn; rewrite ?Pos.eqb_refl; cbn;
      eauto.
Qed.

Lemma reachable_invariants s : reachable s -> ctx_ready s /\ one_timer s.
Proof.
  induction 1 as [s Hi|s ev s' _ [IH1 IH2] Hstep].
  - destruct Hi as (Hr & _ & Hc & _ & _ & Ht & _ & _ & _ & Hd).
    split; [|left; exact Ht].
    intros [H|H]; congruence.
  - split; [eapply step_ctx_ready | eapply step_one_timer]; eassumption.
Qed.

Lemma run_reachable evs : forall s s',
  reachable s -> run s evs = Some s' -> reachable s'.
Proof.
  induction evs as [|ev r IH]; intros s s' Hs Hrun; cbn in Hrun.
  - injection Hrun as <-. exact Hs.
  - destruct (step s ev) as [s1|] eqn:E; [|discriminate].
    eapply IH; [|exact Hrun]. eapply reachable_step; eassumption.
Qed.

(** A tick's continuation in a session finds [ctx] set. *)
Lemma awaited_detection_has_ctx s r s' :
  reachable s -> step s (DetectionSettled r) = Some s' ->
  ctx s = Some Context2D /\
  exists n, detections_in_flight (browser s) = S n /\
    s' = snd (detectEmotions_resume r
                (set_browser (set_detections_in_flight n (browser s)) s)).
Proof.
  intros Hs Hstep. cbn [step] in Hstep.
  destruct (detections_in_flight (browser s)) as [|n] eqn:E; [discriminate|].
  injection Hstep as <-. split.
  - apply (proj1 (reachable_invariants s Hs)). right. rewrite E. discriminate.
  - exists n. split; [reflexivity|]. apply handle_detectEmotions_resume.
Qed.

Module SampleFacts.
Import Sample.

Lemma page_initial : initial page.
Proof. repeat split. Qed.

Lemma reachable_after evs :
  run page evs <> None -> reachable (state_after evs).
Proof.
  unfold state_after. intros H.
  destruct (run page evs) as [s|] eqn:E; [|congruence].
  eapply run_reachable; [|exact E].
  apply reachable_initial, page_initial.
Qed.

End SampleFacts.

(** * The claims *)

(** ** Model loading *)

(** C1 (the code departs from the claim): when the model load is rejected,
    the load handler resumes after [await loadModels()], shows the error text
    in the loading indicator, and then enables the start control all the same:
    the control ends enabled, labelled "Start Camera", whatever the state the
    rejection arrives in. *)
Theorem load_failure_enables_start_control (s : state) (e : js_error) :
  disabled (toggleBtn (document (handle (onload_resume (Rejected e)) s))) = false /\
  textContent (toggleBtn (document (handle (onload_resume (Rejected e)) s)))
    = "Start Camera" /\
  indicator_text (loadingIndicator (document (handle (onload_resume (Rejected e)) s)))
    = "Error loading models".
Proof.
  destruct s as [? ? ? [? ? ? ? ? ? ? [] []] []]. repeat split.
Qed.

(** The same on the sample page, event by event: a click is then accepted. *)
Example load_failure_then_click :
  let s := Sample.state_after
             [WindowLoad; ModelsSettled (Rejected (Error "network"))] in
  disabled (toggleBtn (document s)) = false /\
  indicator_text (loadingIndicator (document s)) = "Error loading models" /\
  indicator_display (loadingIndicator (document s)) = "" /\
  step s Click <> None.
Proof. vm_compute. repeat split; discriminate. Qed.

(** ** Camera access *)

(** C2 (the code departs from the claim): a click while the camera is off
    calls [startWebcam()] without awaiting it and labels the control
    "Stop Camera" at once; when the request is then rejected the flag is
    false, one alert is shown and no new request is pending, but the control
    still reads "Stop Camera" and is still marked active. *)
Theorem camera_denial_leaves_stop_label (s s1 s2 : state) (e : js_error) :
  isVideoRunning s = false ->
  step s Click = Some s1 ->
  step s1 (CameraSettled (Rejected e)) = Some s2 ->
  isVideoRunning s2 = false /\
  textContent (toggleBtn (document s2)) = "Stop Camera" /\
  active (toggleBtn (document s2)) = true /\
  alerts (browser s2) =
    alerts (browser s) ++ ["Could not access webcam. Please check permissions."] /\
  camera_requests (browser s2) = camera_requests (browser s).
Proof.
  intros Hrun Hclick Hdeny.
  destruct s as [run i c [? ? ? ? ? ? ? [] []] []].
  cbn in Hrun. subst run. cbn [step] in Hclick.
  match type of Hclick with (if ?b then _ else _) = _ => destruct b end;
    [discriminate|].
  injection Hclick as <-. cbn in Hdeny. injection Hdeny as <-.
  repeat split.
Qed.

Lemma camera_denial_leaves_stop_label_witness :
  let loaded := [WindowLoad; ModelsSettled (Fulfilled tt)] in
  let denied := CameraSettled (Rejected (DOMException "NotAllowedError")) in
  let s := Sample.state_after loaded in
  let s2 := Sample.state_after (loaded ++ [Click; denied]) in
  isVideoRunning s2 = false /\
  textContent (toggleBtn (document s2)) = "Stop Camera" /\
  active (toggleBtn (document s2)) = true /\
  alerts (browser s2) =
    alerts (browser s) ++ ["Could not access webcam. Please check permissions."] /\
  camera_requests (browser s2) = camera_requests (browser s).
Proof.
  intros loaded denied s s2.
  apply (camera_denial_leaves_stop_label s
           (Sample.state_after (loaded ++ [Click])) s2
           (DOMException "NotAllowedError"));
    vm_compute; reflexivity.
Defined.

(** ** Stopping *)

Lemma map_stop_twice (stream : MediaStream) :
  map stop (map stop stream) = map stop stream.
Proof. rewrite map_map. reflexivity. Qed.

Lemma filter_twice {A} (f : A -> bool) (l : list A) :
  filter f (filter f l) = filter f l.
Proof.
  induction l as [|a r IH]; cbn; [reflexivity|].
  destruct (f a) eqn:E; cbn; rewrite ?E, IH; reflexivity.
Qed.

(** Once [ctx] is set, [stopWebcam] completes, and a second call changes
    nothing: the flag is false, the timer the variable names is cleared, the
    canvas is blank and the display is in its zero state after one call as
    after two. *)
Lemma stopWebcam_twice (s : state) :
  ctx s = Some Context2D ->
  fst (stopWebcam s) = Normal tt /\
  stopWebcam (snd (stopWebcam s)) = stopWebcam s.
Proof.
  intros Hc. rewrite !stopWebcam_eq, Hc. cbn [fst snd].
  split; [reflexivity|].
  replace (ctx (reset_display (halted s))) with (ctx s)
    by (unfold halted; destruct (detectingInterval s); reflexivity).
  rewrite Hc. f_equal.
  destruct s as [run i c [src ? [] ? ? ? ? ? ?] [tm ? ? ? ? ? ? ?]].
  unfold halted. cbn [detectingInterval].
  destruct i as [id|], src as [stream|];
    cbv beta iota zeta delta -[filter map stop fresh_grid];
    rewrite ?map_stop_twice, ?filter_twice; reflexivity.
Qed.

Lemma stopWebcam_reset (s : state) :
  ctx s = Some Context2D ->
  let s' := snd (stopWebcam s) in
  isVideoRunning s' = false /\
  (forall id, detectingInterval s = Some id -> ~ In id (timers (browser s'))) /\
  painted (canvas (document s')) = [] /\
  emotionName (document s') = "--" /\
  emotionConfidence (document s') = "0%" /\
  faceCount (document s') = "Faces Detected: 0" /\
  emotionsList (document s') = fresh_grid.
Proof.
  intros Hc. rewrite stopWebcam_eq, Hc. cbn [snd].
  destruct s as [run i c [src ? [] ? ? ? ? ? ?] [tm ? ? ? ? ? ? ?]].
  unfold halted. cbn [detectingInterval].
  destruct i as [id0|]; repeat split; try discriminate.
  intros id [= <-]. cbn. rewrite filter_In, Pos.eqb_refl. cbn. intros [_ H].
  discriminate.
Qed.

(** C3 (the code departs from the claim): [stopWebcam] guards the stream and
    the timer against [null] but not the drawing context.  While [ctx] is
    still [null], as it is until a camera request has been granted, the call
    [ctx.clearRect(...)] throws a [TypeError]: the call does throw, and the
    display is not reset. *)
Theorem stopWebcam_throws_before_first_start (s : state) :
  ctx s = None ->
  fst (stopWebcam s) = Throw null_ctx /\
  snd (stopWebcam s) = halted s /\
  emotionName (document (halted s)) = emotionName (document s) /\
  emotionsList (document (halted s)) = emotionsList (document s).
Proof.
  intros Hc. rewrite stopWebcam_eq, Hc. cbn [fst snd].
  repeat split; unfold halted; destruct (detectingInterval s); reflexivity.
Qed.

Lemma stopWebcam_throws_before_first_start_witness :
  fst (stopWebcam Sample.page) = Throw null_ctx /\
  snd (stopWebcam Sample.page) = halted Sample.page /\
  emotionName (document (halted Sample.page)) =
    emotionName (document Sample.page) /\
  emotionsList (document (halted Sample.page)) =
    emotionsList (document Sample.page).
Proof.
  apply (stopWebcam_throws_before_first_start Sample.page). reflexivity.
Defined.

(** ** Ticks without a face *)

Lemma fresh_grid_zero :
  List.length fresh_grid = 7 /\
  map item_id fresh_grid =
    map (fun l => ("emotion-" ++ l)%string) registered /\
  Forall (fun it => item_value it = "0%" /\ bar_width it = None /\
                    item_active it = false) fresh_grid.
Proof.
  split; [reflexivity|]. split; [reflexivity|].
  repeat constructor.
Qed.

(** C6: in a session, when the detection a tick awaits resolves with no
    face, the dominant-emotion display is back at '--' and '0%' and the grid
    is rebuilt: the 7 registered emotions, each with the text '0%', no bar
    width and no highlight. *)
Theorem tick_without_face_resets_display (s s' : state) :
  reachable s ->
  step s (DetectionSettled (Fulfilled [])) = Some s' ->
  emotionName (document s') = "--" /\
  emotionConfidence (document s') = "0%" /\
  emotionsList (document s') = fresh_grid /\
  map item_id (emotionsList (document s')) =
    map (fun l => ("emotion-" ++ l)%string) registered /\
  List.length (emotionsList (document s')) = 7 /\
  Forall (fun it => item_value it = "0%" /\ bar_width it = None /\
                    item_active it = false) (emotionsList (document s')).
Proof.
  intros Hs Hstep.
  destruct (awaited_detection_has_ctx s _ s' Hs Hstep) as (Hc & n & _ & ->).
  rewrite detectEmotions_resume_none_eq by exact Hc. cbn [snd].
  change (emotionsList (document (reset_display _))) with fresh_grid.
  destruct fresh_grid_zero as (H1 & H2 & H3).
  repeat split; assumption.
Qed.

(** On the sample session, after a tick on the example scores the display
    reads HAPPY and 82.0% and the grid is not the grid as built; the next tick,
    without a face, resets it. *)
Lemma tick_without_face_resets_display_witness :
  let face := Sample.face_at Sample.example_scores in
  let before := Sample.detecting ++
                [DetectionSettled (Fulfilled [face]); TimerTick 1] in
  let s := Sample.state_after before in
  let s' := Sample.state_after (before ++ [DetectionSettled (Fulfilled [])]) in
  (emotionName (document s) = "HAPPY" /\
   emotionConfidence (document s) = "82.0%" /\
   map item_value (emotionsList (document s)) =
     ["5.0%"; "82.0%"; "10.0%"; "1.0%"; "1.0%"; "0.5%"; "0.5%"] /\
   map item_active (emotionsList (document s)) =
     [false; true; false; false; false; false; false]) /\
  emotionName (document s') = "--" /\
  emotionConfidence (document s') = "0%" /\
  emotionsList (document s') = fresh_grid /\
  map item_id (emotionsList (document s')) =
    map (fun l => ("emotion-" ++ l)%string) registered /\
  List.length (emotionsList (document s')) = 7 /\
  Forall (fun it => item_value it = "0%" /\ bar_width it = None /\
                    item_active it = false) (emotionsList (document s')).
Proof.
  intros face before s s'.
  split; [vm_compute; repeat split|].
  apply (tick_without_face_resets_display s s').
  - apply SampleFacts.reachable_after. vm_compute. discriminate.
  - vm_compute. reflexivity.
Defined.

(** ** Ticks with a face: the dominant-emotion display *)

Lemma after_face_main face n s :
  emotionName (document (after_face face n s)) =
    JS.toUpperCase (fst (dominant (expressions face))) /\
  emotionConfidence (document (after_face face n s)) =
    (percent (snd (dominant (expressions face))) ++ "%")%string /\
  faceCount (document (after_face face n s)) =
    ("Faces Detected: " ++ JS.nat_to_string (S n))%string /\
  emotionsList (document (after_face face n s)) =
    snd (update_grid (fst (dominant (expressions face))) (expressions face)
           (emotionsList (document s))).
Proof.
  unfold after_face.
  destruct (dominant (expressions face)) as [l v]. cbn [fst snd].
  destruct (update_grid l (expressions face) (emotionsList (document s)))
    as [[[]|e] g]; [destruct (emotionMap_get l)|]; repeat split.
Qed.

(** A tick on a face, in a session: the state it leaves. *)
Lemma tick_with_face s face rest s' :
  reachable s ->
  step s (DetectionSettled (Fulfilled (face :: rest))) = Some s' ->
  exists s0,
    s' = after_face face (List.length rest) s0 /\
    ctx s0 = Some Context2D /\
    document s0 = document s /\
    same_session s0 s'.
Proof.
  intros Hs Hstep.
  destruct (awaited_detection_has_ctx s _ s' Hs Hstep) as (Hc & n & _ & ->).
  exists (set_browser (set_detections_in_flight n (browser s)) s).
  rewrite detectEmotions_resume_face by exact Hc. cbn [snd].
  repeat split; try exact Hc; apply after_face_same_session.
Qed.

Lemma dominant_baseline (m : list (string * float)) :
  (forall e, In e m -> JS.gt (snd e) 0%float = false) ->
  dominant m = ("neutral", 0%float).
Proof.
  unfold dominant. induction m as [|[l w] r IH]; intros H; [reflexivity|].
  pose proof (H (l, w) (or_introl eq_refl)) as Hw. cbn [snd] in Hw.
  rewrite fold_keep_max_cons, Hw.
  apply IH. intros e He. apply H. right. exact He.
Qed.

(** C9: in a session, when the first face of a tick has no score strictly
    greater than 0 (all scores 0 in particular), in whatever order the
    mapping lists them, the display shows NEUTRAL and 0.0%: the loop keeps its
    baseline, label 'neutral' and value 0. *)
Theorem all_zero_scores_show_neutral (s s' : state)
  (face : WithFaceExpressions) (rest : list WithFaceExpressions) :
  reachable s ->
  step s (DetectionSettled (Fulfilled (face :: rest))) = Some s' ->
  (forall e, In e (expressions face) -> JS.gt (snd e) 0%float = false) ->
  emotionName (document s') = "NEUTRAL" /\
  emotionConfidence (document s') = "0.0%".
Proof.
  intros Hs Hstep Hzero.
  destruct (tick_with_face s face rest s' Hs Hstep) as (s0 & -> & _).
  destruct (after_face_main face (List.length rest) s0) as (Hn & Hc & _).
  rewrite Hn, Hc, (dominant_baseline _ Hzero). split; reflexivity.
Qed.

Lemma all_zero_scores_show_neutral_witness :
  let zeros := [("happy", 0); ("sad", 0); ("neutral", 0); ("angry", 0);
                ("fearful", 0); ("disgusted", 0); ("surprised", 0)]%float in
  let s' := Sample.state_after
              (Sample.detecting ++
               [DetectionSettled (Fulfilled [Sample.face_at zeros])]) in
  emotionName (document s') = "NEUTRAL" /\
  emotionConfidence (document s') = "0.0%".
Proof.
  intros zeros s'.
  apply (all_zero_scores_show_neutral
           (Sample.state_after Sample.detecting) s'
           (Sample.face_at zeros) []).
  - apply SampleFacts.reachable_after. vm_compute. discriminate.
  - vm_compute. reflexivity.
  - intros e He. cbn in He.
    repeat (destruct He as [<-|He]; [reflexivity|]). destruct He.
Defined.

(** ** Errors in a tick *)

(** C7, as the code has it: whatever the awaited detection settles to, the
    tick's continuation completes normally (nothing escapes it), and it leaves
    the timers, the timer variable and the alerts as they were.  When the
    detection call itself is rejected, the only effect is one console entry:
    the document is untouched.  (An error raised later, while the result is
    processed, is caught and logged in the same way, after the updates that
    came before it.) *)
Theorem tick_errors_are_caught (s : state)
  (r : settled (list WithFaceExpressions)) :
  fst (detectEmotions_resume r s) = Normal tt /\
  timers (browser (snd (detectEmotions_resume r s))) = timers (browser s) /\
  detectingInterval (snd (detectEmotions_resume r s)) = detectingInterval s /\
  isVideoRunning (snd (detectEmotions_resume r s)) = isVideoRunning s /\
  alerts (browser (snd (detectEmotions_resume r s))) = alerts (browser s) /\
  (console (browser (snd (detectEmotions_resume r s))) = console (browser s) \/
   exists e,
     console (browser (snd (detectEmotions_resume r s))) =
       console (browser s) ++ [console_error "Detection error:" e]) /\
  (forall e, r = Rejected e ->
     document (snd (detectEmotions_resume r s)) = document s /\
     console (browser (snd (detectEmotions_resume r s))) =
       console (browser s) ++ [console_error "Detection error:" e]).
Proof.
  destruct (detectEmotions_resume_normal r s)
    as (H & H1 & H2 & _ & H4 & _ & H6 & _).
  repeat split; try assumption; [|subst r; reflexivity..].
  destruct r as [detections|e]; [|right; exists e; reflexivity].
  destruct (ctx s) as [[]|] eqn:Hc.
  - destruct detections as [|face rest].
    + rewrite detectEmotions_resume_none by exact Hc. left. reflexivity.
    + rewrite detectEmotions_resume_face by exact Hc. cbn [snd].
      unfold after_face.
      destruct (dominant (expressions face)) as [l v].
      destruct (update_grid l (expressions face) (emotionsList (document s)))
        as [[[]|e] g]; [destruct (emotionMap_get l)|];
        first [left; reflexivity | right; eexists; reflexivity].
  - rewrite detectEmotions_resume_without_ctx by exact Hc.
    right. eexists. reflexivity.
Qed.

(** C7, as stated, fails when the error is raised while the result is
    processed.  On the sample session a face whose only label is not in the
    registry makes [emotionMap[maxEmotion].color] throw; the error is logged,
    and by then the counter and the dominant-emotion display have changed. *)
Lemma processing_error_keeps_partial_update :
  let s := Sample.state_after Sample.detecting in
  let face := Sample.face_at [("contempt", 0.5%float)] in
  let s' := Sample.state_after
              (Sample.detecting ++ [DetectionSettled (Fulfilled [face])]) in
  console (browser s') =
    console (browser s) ++ [console_error "Detection error:" undefined_color] /\
  emotionName (document s) = "--" /\
  emotionName (document s') = "CONTEMPT" /\
  emotionConfidence (document s) = "0%" /\
  emotionConfidence (document s') = "50.0%" /\
  document s' <> document s.
Proof.
  vm_compute. repeat split. discriminate.
Qed.

(** ** Ticks with a face: the arg-max and the overlay *)

Lemma find_element_by_label l grid :
  find_element ("emotion-" ++ l) grid =
  if String.eqb l "name" then Some EmotionNameElement
  else if String.eqb l "confidence" then Some EmotionConfidenceElement
  else if existsb (fun it => String.eqb (item_id it) ("emotion-" ++ l)) grid
       then Some EmotionItemElement
       else None.
Proof. reflexivity. Qed.

Lemma update_grid_normal maxEmotion entries : forall grid,
  (forall e, In e entries -> names_text_element (fst e) = false) ->
  fst (update_grid maxEmotion entries grid) = Normal tt.
Proof.
  induction entries as [|[l w] r IH]; intros grid H; [reflexivity|].
  cbn [update_grid]. rewrite find_element_by_label.
  pose proof (H (l, w) (or_introl eq_refl)) as Hl.
  unfold names_text_element in Hl. cbn [fst] in Hl.
  apply orb_false_elim in Hl. destruct Hl as [-> ->].
  destruct (existsb _ grid); apply IH; intros e He; apply H; right; exact He.
Qed.

Lemma after_face_painted face n s e :
  fst (update_grid (fst (dominant (expressions face))) (expressions face)
         (emotionsList (document s))) = Normal tt ->
  emotionMap_get (fst (dominant (expressions face))) = Own e ->
  paintable (box (detection face)) = true ->
  painted (canvas (document (after_face face n s))) =
  [ StrokeRect (color e) 3%float
      (x (box (detection face))) (y (box (detection face)))
      (width (box (detection face))) (height (box (detection face)));
    FillText (emoji e ++ " "
              ++ JS.toUpperCase (fst (dominant (expressions face)))
              ++ " (" ++ percent (snd (dominant (expressions face))) ++ "%)")
      (color e) "bold 18px Arial"
      (x (box (detection face))) (y (box (detection face)) - 10)%float ].
Proof.
  unfold after_face, paintable.
  destruct (dominant (expressions face)) as [l v]. cbn [fst snd].
  destruct (update_grid l (expressions face) (emotionsList (document s)))
    as [[[]|err] g]; cbn [fst]; [|discriminate].
  intros _ -> Hb.
  apply andb_prop in Hb. destruct Hb as [Hb Hy].
  unfold in_canvas, in_document, face_painted, stroked, filled.
  cbn [document canvas set_document set_canvas].
  rewrite Hb.
  apply andb_prop in Hb. destruct Hb as [Hb _].
  apply andb_prop in Hb. destruct Hb as [Hb _].
  apply andb_prop in Hb. destruct Hb as [Hb _].
  apply andb_prop in Hb. destruct Hb as [Hx _].
  rewrite Hx, Hy. reflexivity.
Qed.

(** ** The texts of the dominant emotion *)

Lemma code_points_ascii b r :
  (b <? 128)%Z = true ->
  JS.code_points (b :: r) = JS.CodePoint b :: JS.code_points r.
Proof. intros H. cbn [JS.code_points]. rewrite H. reflexivity. Qed.

Lemma upper_ascii_byte (c : ascii) :
  (nat_of_ascii c <? 128)%nat = true ->
  flat_map JS.utf8 (JS.upper_code_point (Z.of_nat (nat_of_ascii c))) =
  [Z.of_nat (nat_of_ascii (capital c))].
Proof.
  destruct c as [[] [] [] [] [] [] [] []]; intros H; vm_compute in H;
    try discriminate H; vm_compute; reflexivity.
Qed.

(** On a string of ASCII bytes [toUpperCase] maps byte by byte: the letters
    a..z to their capitals, every other byte to itself. *)
Lemma toUpperCase_ascii (s : string) :
  forallb (fun c => (nat_of_ascii c <? 128)%nat) (list_ascii_of_string s) = true ->
  JS.toUpperCase s = string_of_list_ascii (map capital (list_ascii_of_string s)).
Proof.
  unfold JS.toUpperCase, JS.bytes, JS.of_byte_values.
  induction (list_ascii_of_string s) as [|c r IH]; intros H; [reflexivity|].
  cbn [forallb] in H. apply andb_prop in H. destruct H as [Hc Hr].
  cbn [map]. rewrite code_points_ascii.
  - cbn [flat_map JS.upper_scalar]. rewrite upper_ascii_byte by exact Hc.
    cbn [List.app map string_of_list_ascii].
    rewrite Nat2Z.id, ascii_nat_embedding, (IH Hr). reflexivity.
  - apply Z.ltb_lt. apply Nat.ltb_lt in Hc. lia.
Qed.

(** Beyond ASCII: 'cafe' with an acute accent on its last letter is
    upper-cased letter for letter, and the sharp s of 'strasse' written with
    it becomes two letters. *)
Example toUpperCase_beyond_ascii :
  JS.toUpperCase (JS.of_bytes [99; 97; 102; 195; 169]) =
    JS.of_bytes [67; 65; 70; 195; 137] /\
  JS.toUpperCase (JS.of_bytes [115; 116; 114; 97; 195; 159; 101]) = "STRASSE".
Proof. vm_compute. split; reflexivity. Qed.

Lemma digit_to_string (d : Z) :
  (0 <= d < 10)%Z ->
  JS.Z_to_string d = String (ascii_of_nat (48 + Z.to_nat d)) EmptyString.
Proof.
  intros H.
  assert (E : (d = 0 \/ d = 1 \/ d = 2 \/ d = 3 \/ d = 4 \/ d = 5 \/ d = 6
               \/ d = 7 \/ d = 8 \/ d = 9)%Z) by lia.
  repeat (destruct E as [->|E]; [reflexivity|]). subst d. reflexivity.
Qed.

Lemma with_point_one_decimal (n : Z) :
  (0 <= n)%Z -> JS.with_point n = one_decimal n.
Proof.
  intros H. unfold JS.with_point, one_decimal.
  rewrite (digit_to_string (n mod 10))
    by (apply Z.mod_pos_bound; reflexivity).
  assert (Hq : (0 <= n / 10)%Z) by (apply Z.div_pos; lia).
  destruct (n / 10)%Z as [|p|p]; [reflexivity|reflexivity|lia].
Qed.

(** The integer [toFixed] picks is the nearest number of tenths. *)
Lemma tenths_nearest (m : positive) (e : Z) :
  (0 <= JS.tenths m e)%Z /\ nearest_tenth m e (JS.tenths m e).
Proof.
  unfold JS.tenths, nearest_tenth.
  destruct (Z.leb_spec 0 e) as [He|He].
  - rewrite (Z.max_r 0 e), (Z.max_l 0 (- e)) by lia.
    assert (0 < 2 ^ e)%Z by (apply Z.pow_pos_nonneg; lia).
    change (2 ^ 0)%Z with 1%Z. nia.
  - rewrite (Z.max_l 0 e), (Z.max_r 0 (- e)) by lia.
    assert (Hq : (0 < 2 ^ (- e))%Z) by (apply Z.pow_pos_nonneg; lia).
    change (2 ^ 0)%Z with 1%Z. rewrite Z.mul_1_r.
    set (q := (2 ^ (- e))%Z) in *.
    assert (H2q : (0 < 2 * q)%Z) by lia.
    pose proof (Z.mul_div_le (20 * Zpos m + q) (2 * q) H2q) as H1.
    pose proof (Z.mul_succ_div_gt (20 * Zpos m + q) (2 * q) H2q) as H2.
    split; [apply Z.div_pos; lia|]. lia.
Qed.

(** Below [10^21], [toFixed(1)] writes the nearest number of tenths with one
    decimal place. *)
Lemma toFixed1_one_decimal (f : float) (m : positive) (e : Z) :
  Prim2SF f = S754_finite false m e ->
  (Zpos m * 2 ^ e < 10 ^ 21)%Z ->
  exists n, nearest_tenth m e n /\ JS.toFixed1 f = one_decimal n.
Proof.
  intros Hf Hlt. exists (JS.tenths m e).
  destruct (tenths_nearest m e) as [H0 Hn]. split; [exact Hn|].
  unfold JS.toFixed1. rewrite Hf.
  destruct (Z.leb_spec (10 ^ 21) (Zpos m * 2 ^ e)) as [H|_]; [lia|].
  rewrite with_point_one_decimal by exact H0. reflexivity.
Qed.

Lemma toFixed1_zero (f : float) (sg : bool) :
  Prim2SF f = S754_zero sg -> JS.toFixed1 f = "0.0".
Proof. intros Hf. unfold JS.toFixed1. rewrite Hf. reflexivity. Qed.

(** C4, as the code has it: in a session, when the detection a tick awaits
    resolves with at least one face, the display shows the label [l] and the
    value [v] that the loop over the first face's scores ends with.  The name
    is [l] upper-cased: for a label of ASCII bytes, the same bytes with each
    letter a..z replaced by its capital.  The confidence is
    [(v * 100).toFixed(1)] followed by '%': when the product is a finite
    number below [10^21], the number of tenths nearest to it (the larger one
    when two are as near) written with one decimal place, and '0.0%' when the
    product is zero.  No score of the face is strictly greater than [v]; and
    either no score is above the baseline 0 and the result is the baseline
    ('neutral', 0), or [(l, v)] is an entry of the mapping, above 0, that no
    earlier entry reaches, so that the first entry with the highest score wins
    a tie.  For the scores and the box of the specification's example the
    display reads HAPPY and 82.0%, and the canvas holds the rectangle of the
    box in the colour registered for 'happy', followed by the label. *)
Theorem dominant_emotion_is_first_arg_max (s s' : state)
  (face : WithFaceExpressions) (rest : list WithFaceExpressions) :
  reachable s ->
  step s (DetectionSettled (Fulfilled (face :: rest))) = Some s' ->
  let l := fst (dominant (expressions face)) in
  let v := snd (dominant (expressions face)) in
  emotionName (document s') = JS.toUpperCase l /\
  (forallb (fun c => (nat_of_ascii c <? 128)%nat) (list_ascii_of_string l)
     = true ->
   emotionName (document s') =
     string_of_list_ascii (map capital (list_ascii_of_string l))) /\
  emotionConfidence (document s') = (percent v ++ "%")%string /\
  (forall m e,
     Prim2SF (v * 100)%float = S754_finite false m e ->
     (Zpos m * 2 ^ e < 10 ^ 21)%Z ->
     exists n, nearest_tenth m e n /\
       emotionConfidence (document s') = (one_decimal n ++ "%")%string) /\
  (forall sg, Prim2SF (v * 100)%float = S754_zero sg ->
     emotionConfidence (document s') = "0.0%") /\
  (forall e, In e (expressions face) -> JS.gt (snd e) v = false) /\
  ((l = "neutral" /\ v = 0%float /\
    forall e, In e (expressions face) -> JS.gt (snd e) 0%float = false) \/
   (exists before after,
      expressions face = before ++ (l, v) :: after /\
      JS.gt v 0%float = true /\
      forall e, In e before -> Order.reaches (snd e) v = false)) /\
  (expressions face = Sample.example_scores ->
   box (detection face) = Sample.example_box ->
   emotionName (document s') = "HAPPY" /\
   emotionConfidence (document s') = "82.0%" /\
   painted (canvas (document s')) = Sample.example_overlay).
Proof.
  intros Hs Hstep l v.
  destruct (tick_with_face s face rest s' Hs Hstep) as (s0 & -> & _).
  destruct (after_face_main face (List.length rest) s0) as (Hn & Hc & _).
  split; [exact Hn|].
  split; [intros Hascii; rewrite Hn; apply toUpperCase_ascii; exact Hascii|].
  split; [exact Hc|].
  split.
  { intros m e Hf Hlt.
    destruct (toFixed1_one_decimal (v * 100)%float m e Hf Hlt) as (n & Hn1 & Hn2).
    exists n. split; [exact Hn1|]. rewrite Hc. fold v. unfold percent.
    rewrite Hn2. reflexivity. }
  split.
  { intros sg Hf. rewrite Hc. fold v. unfold percent.
    rewrite (toFixed1_zero _ sg Hf). reflexivity. }
  assert (H0 : Order.rank 0%float <> None) by (rewrite OrderFacts.rank_zero; discriminate).
  split; [|split].
  - apply (fold_keep_max_upper (expressions face) "neutral" 0%float H0).
  - destruct (fold_keep_max_first (expressions face) "neutral" 0%float H0)
      as [[E H]|(b & a & E & Hgt & Hb)].
    + left. unfold l, v, dominant. rewrite E. auto.
    + right. exists b, a. unfold l, v.
      rewrite <- surjective_pairing. auto.
  - intros Hscores Hbox.
    assert (D : dominant (expressions face) = ("happy", 0.82%float))
      by (rewrite Hscores; reflexivity).
    rewrite Hn, Hc.
    rewrite (after_face_painted face (List.length rest) s0
               {| emoji := JS.of_bytes [195; 176; 197; 184; 203; 156; 197; 160];
                  color := "#90ee90" |}).
    + rewrite D, Hbox. repeat split.
    + apply update_grid_normal. rewrite Hscores. intros e He. cbn in He.
      repeat (destruct He as [<-|He]; [reflexivity|]). destruct He.
    + rewrite D. reflexivity.
    + rewrite Hbox. reflexivity.
Qed.

(** On the sample session, for the example of the specification: the score
    0.82 times 100 is 82 exactly, 820 tenths, written '82.0'. *)
Lemma dominant_emotion_is_first_arg_max_witness :
  let face := {| detection := {| box := Sample.example_box |};
                 expressions := Sample.example_scores |} in
  let s' := Sample.state_after
              (Sample.detecting ++ [DetectionSettled (Fulfilled [face])]) in
  let l := fst (dominant (expressions face)) in
  let v := snd (dominant (expressions face)) in
  (emotionName (document s') = JS.toUpperCase l /\
   (forallb (fun c => (nat_of_ascii c <? 128)%nat) (list_ascii_of_string l)
      = true ->
    emotionName (document s') =
      string_of_list_ascii (map capital (list_ascii_of_string l))) /\
   emotionConfidence (document s') = (percent v ++ "%")%string /\
   (forall m e,
      Prim2SF (v * 100)%float = S754_finite false m e ->
      (Zpos m * 2 ^ e < 10 ^ 21)%Z ->
      exists n, nearest_tenth m e n /\
        emotionConfidence (document s') = (one_decimal n ++ "%")%string) /\
   (forall sg, Prim2SF (v * 100)%float = S754_zero sg ->
      emotionConfidence (document s') = "0.0%") /\
   (forall e, In e (expressions face) -> JS.gt (snd e) v = false) /\
   ((l = "neutral" /\ v = 0%float /\
     forall e, In e (expressions face) -> JS.gt (snd e) 0%float = false) \/
    (exists before after,
       expressions face = before ++ (l, v) :: after /\
       JS.gt v 0%float = true /\
       forall e, In e before -> Order.reaches (snd e) v = false)) /\
   (expressions face = Sample.example_scores ->
    box (detection face) = Sample.example_box ->
    emotionName (document s') = "HAPPY" /\
    emotionConfidence (document s') = "82.0%" /\
    painted (canvas (document s')) = Sample.example_overlay)) /\
  (l, v) = ("happy", 0.82%float) /\
  Prim2SF (v * 100)%float = S754_finite false 5770237022568448 (-46) /\
  (5770237022568448 * 2 ^ (-46) < 10 ^ 21)%Z /\
  nearest_tenth 5770237022568448 (-46) 820 /\
  (one_decimal 820 ++ "%")%string = "82.0%" /\
  string_of_list_ascii (map capital (list_ascii_of_string l)) = "HAPPY".
Proof.
  intros face s' l v. split.
  - apply (dominant_emotion_is_first_arg_max
             (Sample.state_after Sample.detecting) s' face []).
    + apply SampleFacts.reachable_after. vm_compute. discriminate.
    + vm_compute. reflexivity.
  - split; [reflexivity|]. split; [reflexivity|].
    split; [reflexivity|].
    split; [unfold nearest_tenth;
            split; [apply Z.leb_le | apply Z.ltb_lt]; vm_compute; reflexivity|].
    split; reflexivity.
Defined.

(** C4, as stated, fails for a score whose product with 100 reaches
    [10^21] or is infinite: [toFixed] then leaves the notation with one
    decimal place.  On the sample session a face whose only score is 1e20 is
    shown with the confidence '1e+22%', and one whose only score is infinite
    with 'Infinity%'. *)
Lemma huge_score_is_not_shown_with_one_decimal :
  let tick scores :=
    Sample.state_after
      (Sample.detecting ++
       [DetectionSettled (Fulfilled [Sample.face_at scores])]) in
  let huge := tick [("happy", 1e20%float)] in
  let unbounded := tick [("happy", infinity)] in
  emotionName (document huge) = "HAPPY" /\
  emotionConfidence (document huge) = "1e+22%" /\
  Prim2SF (1e20 * 100)%float = S754_finite false 4768371582031250 21 /\
  (4768371582031250 * 2 ^ 21 = 10 ^ 22)%Z /\
  emotionName (document unbounded) = "HAPPY" /\
  emotionConfidence (document unbounded) = "Infinity%".
Proof.
  vm_compute. repeat split.
Qed.

(** ** The grid update, entry by entry *)

Lemma entry_update_id maxEmotion l w it :
  item_id (entry_update maxEmotion l w it) = item_id it.
Proof. unfold entry_update. cbn. rewrite assign_width_id. reflexivity. Qed.

Lemma update_first_ids id f grid :
  (forall it, item_id (f it) = item_id it) ->
  map item_id (update_first id f grid) = map item_id grid.
Proof.
  intros Hf. induction grid as [|it r IH]; cbn; [reflexivity|].
  destruct (String.eqb (item_id it) id); cbn; rewrite ?Hf, ?IH; reflexivity.
Qed.

(** The update keeps the items of the grid and their ids. *)
Lemma update_grid_ids maxEmotion entries : forall grid,
  map item_id (snd (update_grid maxEmotion entries grid)) = map item_id grid.
Proof.
  induction entries as [|[l w] r IH]; intros grid; [reflexivity|].
  cbn [update_grid].
  destruct (find_element ("emotion-" ++ l) grid) as [[ | | ]|];
    try reflexivity; rewrite IH; [|reflexivity].
  apply update_first_ids. intros it. apply entry_update_id.
Qed.

(** An item whose id is not the id looked for stays as it is. *)
Lemma update_first_frame id f grid i it :
  nth_error grid i = Some it -> item_id it <> id ->
  nth_error (update_first id f grid) i = Some it.
Proof.
  revert i. induction grid as [|a r IH]; intros [|i] H Hid; cbn in *;
    try discriminate.
  - injection H as ->.
    destruct (String.eqb_spec (item_id it) id); [contradiction|reflexivity].
  - destruct (String.eqb (item_id a) id); cbn; auto.
Qed.

Lemma update_grid_frame maxEmotion entries : forall grid i it,
  nth_error grid i = Some it ->
  (forall e, In e entries -> item_id it <> ("emotion-" ++ fst e)%string) ->
  nth_error (snd (update_grid maxEmotion entries grid)) i = Some it.
Proof.
  induction entries as [|[l w] r IH]; intros grid i it Hi Habs; [exact Hi|].
  cbn [update_grid].
  assert (Hr : forall e, In e r -> item_id it <> ("emotion-" ++ fst e)%string)
    by (intros e He; apply Habs; right; exact He).
  destruct (find_element ("emotion-" ++ l) grid) as [[ | | ]|];
    try exact Hi; apply IH; auto.
  apply update_first_frame; [exact Hi|].
  apply (Habs (l, w)). left. reflexivity.
Qed.

Lemma map_unmatched id (f : EmotionItem -> EmotionItem) grid :
  ~ In id (map item_id grid) ->
  map (fun it => if String.eqb (item_id it) id then f it else it) grid = grid.
Proof.
  induction grid as [|b r IH]; intros H; [reflexivity|].
  cbn. destruct (String.eqb_spec (item_id b) id) as [Eb|Eb].
  - exfalso. apply H. left. exact Eb.
  - f_equal. apply IH. intros Hin. apply H. right. exact Hin.
Qed.

Lemma update_first_map id f grid :
  NoDup (map item_id grid) ->
  update_first id f grid =
  map (fun it => if String.eqb (item_id it) id then f it else it) grid.
Proof.
  induction grid as [|a r IH]; intros Hnd; cbn; [reflexivity|].
  inversion Hnd as [|? ? Hnotin Hnd']; subst.
  destruct (String.eqb_spec (item_id a) id) as [E|E].
  - f_equal. rewrite map_unmatched; [reflexivity|]. rewrite <- E. exact Hnotin.
  - f_equal. apply IH. exact Hnd'.
Qed.

Lemma existsb_false_map {A} (p : A -> bool) (f : A -> A) (l : list A) :
  existsb p l = false -> map (fun a => if p a then f a else a) l = l.
Proof.
  induction l as [|a r IH]; cbn; [reflexivity|].
  intros H. apply orb_false_elim in H. destruct H as [-> H].
  rewrite IH by exact H. reflexivity.
Qed.

Lemma update_grid_cons maxEmotion l w r grid :
  NoDup (map item_id grid) ->
  names_text_element l = false ->
  update_grid maxEmotion ((l, w) :: r) grid =
  update_grid maxEmotion r (map (update_item maxEmotion l w) grid).
Proof.
  intros Hnd Hl. cbn [update_grid]. rewrite find_element_by_label.
  unfold names_text_element in Hl. apply orb_false_elim in Hl.
  destruct Hl as [-> ->].
  destruct (existsb _ grid) eqn:E.
  - rewrite update_first_map by exact Hnd. reflexivity.
  - unfold update_item. rewrite existsb_false_map by exact E. reflexivity.
Qed.

Lemma map_update_item_ids maxEmotion l w grid :
  map item_id (map (update_item maxEmotion l w) grid) = map item_id grid.
Proof.
  rewrite map_map. apply map_ext. intros it. unfold update_item.
  destruct (String.eqb _ _); rewrite ?entry_update_id; reflexivity.
Qed.

Lemma update_grid_items maxEmotion entries : forall grid,
  NoDup (map item_id grid) ->
  (forall e, In e entries -> names_text_element (fst e) = false) ->
  update_grid maxEmotion entries grid =
  (Normal tt, map (item_after maxEmotion entries) grid).
Proof.
  induction entries as [|[l w] r IH]; intros grid Hnd Ht.
  - cbn. rewrite map_id. reflexivity.
  - rewrite update_grid_cons;
      [|exact Hnd|exact (Ht (l, w) (or_introl eq_refl))].
    rewrite IH.
    + rewrite map_map. reflexivity.
    + rewrite map_update_item_ids. exact Hnd.
    + intros e He. apply Ht. right. exact He.
Qed.

Lemma item_after_id maxEmotion entries : forall it,
  item_id (item_after maxEmotion entries it) = item_id it.
Proof.
  induction entries as [|[l w] r IH]; intros it; [reflexivity|].
  cbn. unfold item_after in IH. rewrite IH. unfold update_item.
  destruct (String.eqb _ _); rewrite ?entry_update_id; reflexivity.
Qed.

Lemma emotion_id_inj l l' :
  ("emotion-" ++ l)%string = ("emotion-" ++ l')%string -> l = l'.
Proof. cbn. intros H. injection H as ->. reflexivity. Qed.

(** An item whose label is absent from the mapping is not touched; an item
    whose label is a key of the mapping, once, gets that entry's update. *)
Lemma item_after_absent maxEmotion entries : forall it,
  (forall e, In e entries -> item_id it <> ("emotion-" ++ fst e)%string) ->
  item_after maxEmotion entries it = it.
Proof.
  induction entries as [|[l w] r IH]; intros it H; [reflexivity|].
  cbn. unfold update_item at 2. cbn [fst snd].
  destruct (String.eqb_spec (item_id it) ("emotion-" ++ l)) as [E|E].
  - exfalso. exact (H (l, w) (or_introl eq_refl) E).
  - apply IH. intros e He. apply H. right. exact He.
Qed.

Lemma item_after_present maxEmotion entries : forall it l w,
  NoDup (map fst entries) ->
  In (l, w) entries ->
  item_id it = ("emotion-" ++ l)%string ->
  item_after maxEmotion entries it = entry_update maxEmotion l w it.
Proof.
  induction entries as [|[l0 w0] r IH]; intros it l w Hnd Hin Hid; [destruct Hin|].
  cbn in Hnd. inversion Hnd as [|? ? Hnotin Hnd']; subst.
  cbn. unfold update_item at 2. cbn [fst snd].
  destruct Hin as [[= -> ->]|Hin].
  - rewrite Hid, String.eqb_refl.
    apply item_after_absent. intros e He. rewrite entry_update_id, Hid.
    intros E. apply emotion_id_inj in E. apply Hnotin. rewrite E.
    apply in_map. exact He.
  - destruct (String.eqb_spec (item_id it) ("emotion-" ++ l0)) as [E|E].
    + exfalso. rewrite Hid in E. apply emotion_id_inj in E. subst l0.
      apply Hnotin. change l with (fst (l, w)). apply in_map. exact Hin.
    + apply IH; assumption.
Qed.

(** ** The grid of a loaded page *)

Lemma detectEmotions_resume_ids r s :
  map item_id (emotionsList (document (snd (detectEmotions_resume r s)))) =
    map item_id (emotionsList (document s)) \/
  emotionsList (document (snd (detectEmotions_resume r s))) = fresh_grid.
Proof.
  destruct r as [detections|e]; [|left; reflexivity].
  destruct (ctx s) as [[]|] eqn:Hc.
  - destruct detections as [|face rest].
    + rewrite detectEmotions_resume_none by exact Hc. right. reflexivity.
    + rewrite detectEmotions_resume_face by exact Hc. left. cbn [snd].
      destruct (after_face_main face (List.length rest) s) as (_ & _ & _ & ->).
      apply update_grid_ids.
  - rewrite detectEmotions_resume_without_ctx by exact Hc. left. reflexivity.
Qed.

Lemma step_grid_built s ev s' :
  step s ev = Some s' ->
  (load_fired (browser s) = true -> grid_built s) ->
  load_fired (browser s') = true -> grid_built s'.
Proof.
  unfold grid_built. intros Hstep Hinv.
  destruct ev as [ |r| |r|w h|id|r| ]; cbn [step] in Hstep.
  - destruct (load_fired (browser s)); [discriminate|].
    injection Hstep as <-. intros _.
    destruct s as [run i c [src ? [] ? ? ? ? ? ?] []]. reflexivity.
  - destruct (models_loading (browser s)); [|discriminate].
    injection Hstep as <-.
    destruct s as [run i c [src ? [] ? ? ? ? ? ?] []], r; exact Hinv.
  - destruct (disabled (toggleBtn (document s))); [discriminate|].
    injection Hstep as <-.
    destruct s as [run i c [src ? [] ? ? ? ? ? ?] []].
    destruct run, c as [[]|], src, i; try exact Hinv; reflexivity.
  - destruct (camera_requests (browser s)) eqn:E; [discriminate|].
    injection Hstep as <-.
    destruct s as [run i c [src ? [] ? ? ? ? ? ?] []], r; exact Hinv.
  - destruct (video_onloadedmetadata (document s)); [|discriminate].
    destruct (video_srcObject (document s)) eqn:E; [|discriminate].
    injection Hstep as <-.
    destruct s as [run i c [src ? [] ? ? ? ? ? ?] []].
    destruct i; exact Hinv.
  - destruct (existsb (Pos.eqb id) (timers (browser s))); [|discriminate].
    injection Hstep as <-.
    destruct s as [run i c [src ? [] ? ? ? ? ? ?] []].
    destruct run; exact Hinv.
  - destruct (detections_in_flight (browser s)) eqn:E; [discriminate|].
    injection Hstep as <-.
    rewrite handle_detectEmotions_resume.
    match goal with |- context [detectEmotions_resume r ?s0] =>
      destruct (detectEmotions_resume_normal r s0) as [_ H];
      destruct (detectEmotions_resume_ids r s0) as [Hids|Hids]
    end.
    + destruct H as (_ & _ & _ & _ & _ & _ & H7 & _).
      rewrite H7, Hids. exact Hinv.
    + rewrite Hids. reflexivity.
  - injection Hstep as <-.
    destruct s as [run i c [src ? [] ? ? ? ? ? ?] []].
    destruct run, c as [[]|], src, i; try exact Hinv; reflexivity.
Qed.

Lemma loaded_page_has_grid s :
  reachable s -> load_fired (browser s) = true -> grid_built s.
Proof.
  induction 1 as [s Hi|s ev s' _ IH Hstep].
  - destruct Hi as (_ & _ & _ & _ & _ & _ & Hl & _). congruence.
  - eapply step_grid_built; eassumption.
Qed.

Lemma registered_ids_distinct :
  NoDup (map (fun l => ("emotion-" ++ l)%string) registered).
Proof.
  repeat constructor; cbn; intuition discriminate.
Qed.

(** ** Ticks with a face: the grid *)

(** A tick on a face, in a session, leaves the grid that [update_grid]
    computes from the grid it found. *)
Lemma tick_grid_is_update_grid (s s' : state)
  (face : WithFaceExpressions) (rest : list WithFaceExpressions) :
  reachable s ->
  step s (DetectionSettled (Fulfilled (face :: rest))) = Some s' ->
  emotionsList (document s') =
  snd (update_grid (fst (dominant (expressions face))) (expressions face)
         (emotionsList (document s))).
Proof.
  intros Hs Hstep.
  destruct (tick_with_face s face rest s' Hs Hstep) as (s0 & -> & _ & Hd & _).
  destruct (after_face_main face (List.length rest) s0) as (_ & _ & _ & ->).
  rewrite Hd. reflexivity.
Qed.

(** What an entry's update leaves in its item: the percentage text, the bar
    as wide as the text says when CSS accepts it and as wide as before when
    not, and the highlight when the label is [maxEmotion]. *)
Lemma entry_update_fields maxEmotion l w it :
  item_value (entry_update maxEmotion l w it) = (percent w ++ "%")%string /\
  bar_width (entry_update maxEmotion l w it) =
    (if width_accepted (percent w) then Some (percent w ++ "%")%string
     else bar_width it) /\
  item_active (entry_update maxEmotion l w it) = String.eqb l maxEmotion.
Proof.
  unfold entry_update, assign_width.
  destruct (width_accepted (percent w)); repeat split.
Qed.

Lemma same_id_same_item (grid : list EmotionItem) it it0 :
  NoDup (map item_id grid) -> In it grid -> In it0 grid ->
  item_id it = item_id it0 -> it = it0.
Proof.
  induction grid as [|a r IH]; intros Hnd Hin Hin0 E; [destruct Hin|].
  cbn in Hnd. inversion Hnd as [|? ? Hnotin Hnd']; subst.
  destruct Hin as [<-|Hin], Hin0 as [<-|Hin0]; auto.
  - exfalso. apply Hnotin. rewrite E. apply in_map. exact Hin0.
  - exfalso. apply Hnotin. rewrite <- E. apply in_map. exact Hin.
Qed.

(** On a grid with distinct ids and a mapping with distinct keys, none of
    them 'name' or 'confidence', every item whose label is a key is the item
    of that id before the update, with that key's update applied. *)
Lemma updated_items maxEmotion entries grid l w it' :
  NoDup (map item_id grid) ->
  NoDup (map fst entries) ->
  (forall e, In e entries -> names_text_element (fst e) = false) ->
  In (l, w) entries ->
  In it' (snd (update_grid maxEmotion entries grid)) ->
  item_id it' = ("emotion-" ++ l)%string ->
  exists it, In it grid /\ item_id it = ("emotion-" ++ l)%string /\
             it' = entry_update maxEmotion l w it.
Proof.
  intros Hg Hnd Ht Hin Hit' Hid.
  rewrite update_grid_items in Hit' by assumption.
  cbn [snd] in Hit'. apply in_map_iff in Hit'. destruct Hit' as (it & <- & Hit).
  rewrite item_after_id in Hid.
  exists it. split; [exact Hit|]. split; [exact Hid|].
  apply item_after_present; assumption.
Qed.

(** C10, as the code has it: in a session, on a tick with at least one face,
    a grid item whose label is not a key of the first face's mapping is left
    as it was (bar width, percentage text, highlight), and the grid keeps its
    items: none is added for a label without an item.  On a loaded page, when
    no key of the mapping is 'name' or 'confidence' (the ids [emotion-name]
    and [emotion-confidence] are those of the dominant-emotion display), every
    item whose label is a key of the mapping shows that key's percentage and
    is highlighted exactly when the key is the dominant label, whatever other
    keys the mapping has; its bar gets the width the text says when CSS
    accepts the text, and keeps the width it had when not (a score that is
    NaN, infinite or negative). *)
Theorem grid_update_frame (s s' : state)
  (face : WithFaceExpressions) (rest : list WithFaceExpressions) :
  reachable s ->
  step s (DetectionSettled (Fulfilled (face :: rest))) = Some s' ->
  (forall i it,
     nth_error (emotionsList (document s)) i = Some it ->
     (forall e, In e (expressions face) ->
        item_id it <> ("emotion-" ++ fst e)%string) ->
     nth_error (emotionsList (document s')) i = Some it) /\
  map item_id (emotionsList (document s')) =
    map item_id (emotionsList (document s)) /\
  (load_fired (browser s) = true ->
   NoDup (map fst (expressions face)) ->
   (forall e, In e (expressions face) -> names_text_element (fst e) = false) ->
   forall l w it it',
     In (l, w) (expressions face) ->
     In it (emotionsList (document s)) ->
     In it' (emotionsList (document s')) ->
     item_id it = ("emotion-" ++ l)%string ->
     item_id it' = ("emotion-" ++ l)%string ->
     item_value it' = (percent w ++ "%")%string /\
     bar_width it' =
       (if width_accepted (percent w) then Some (percent w ++ "%")%string
        else bar_width it) /\
     item_active it' = String.eqb l (fst (dominant (expressions face)))).
Proof.
  intros Hs Hstep.
  rewrite (tick_grid_is_update_grid s s' face rest Hs Hstep).
  split; [|split].
  - intros i it Hi Habs. apply update_grid_frame; assumption.
  - apply update_grid_ids.
  - intros Hl Hnd Ht l w it it' Hin Hit Hit' Hid Hid'.
    pose proof (loaded_page_has_grid s Hs Hl) as Hg. unfold grid_built in Hg.
    assert (Hids : NoDup (map item_id (emotionsList (document s))))
      by (rewrite Hg; apply registered_ids_distinct).
    destruct (updated_items _ (expressions face) (emotionsList (document s))
                l w it' Hids Hnd Ht Hin Hit' Hid') as (it0 & Hit0 & Hid0 & ->).
    assert (E : it0 = it)
      by (apply (same_id_same_item _ _ _ Hids Hit0 Hit); congruence).
    subst it0. apply entry_update_fields.
Qed.

(** On the sample session, after a tick on the example scores, a tick on a
    face that lists 'happy' with a score that is not a number, 'sad' and an
    unregistered label: the item of 'happy' reads 'NaN%' and keeps its bar at
    '82.0%', the item of 'sad' is updated and highlighted, the five others
    stay as the first tick left them. *)
Lemma grid_update_frame_witness :
  let first := Sample.face_at Sample.example_scores in
  let face := Sample.face_at
                [("happy", nan); ("sad", 0.3%float); ("contempt", 0.05%float)] in
  let before := Sample.detecting ++
                [DetectionSettled (Fulfilled [first]); TimerTick 1] in
  let s := Sample.state_after before in
  let s' := Sample.state_after (before ++ [DetectionSettled (Fulfilled [face])]) in
  ((forall i it,
      nth_error (emotionsList (document s)) i = Some it ->
      (forall e, In e (expressions face) ->
         item_id it <> ("emotion-" ++ fst e)%string) ->
      nth_error (emotionsList (document s')) i = Some it) /\
   map item_id (emotionsList (document s')) =
     map item_id (emotionsList (document s)) /\
   (load_fired (browser s) = true ->
    NoDup (map fst (expressions face)) ->
    (forall e, In e (expressions face) -> names_text_element (fst e) = false) ->
    forall l w it it',
      In (l, w) (expressions face) ->
      In it (emotionsList (document s)) ->
      In it' (emotionsList (document s')) ->
      item_id it = ("emotion-" ++ l)%string ->
      item_id it' = ("emotion-" ++ l)%string ->
      item_value it' = (percent w ++ "%")%string /\
      bar_width it' =
        (if width_accepted (percent w) then Some (percent w ++ "%")%string
         else bar_width it) /\
      item_active it' = String.eqb l (fst (dominant (expressions face))))) /\
  map (fun it => (item_value it, bar_width it, item_active it))
      (emotionsList (document s)) =
    [ ("5.0%", Some "5.0%", false); ("82.0%", Some "82.0%", true);
      ("10.0%", Some "10.0%", false); ("1.0%", Some "1.0%", false);
      ("1.0%", Some "1.0%", false); ("0.5%", Some "0.5%", false);
      ("0.5%", Some "0.5%", false) ] /\
  map (fun it => (item_value it, bar_width it, item_active it))
      (emotionsList (document s')) =
    [ ("5.0%", Some "5.0%", false); ("NaN%", Some "82.0%", false);
      ("30.0%", Some "30.0%", true); ("1.0%", Some "1.0%", false);
      ("1.0%", Some "1.0%", false); ("0.5%", Some "0.5%", false);
      ("0.5%", Some "0.5%", false) ].
Proof.
  intros first face before s s'.
  split; [|vm_compute; split; reflexivity].
  apply (grid_update_frame s s' face []).
  - apply SampleFacts.reachable_after. vm_compute. discriminate.
  - vm_compute. reflexivity.
Defined.

(** C10, as stated, fails for the keys 'name' and 'confidence'.  They are
    not registered, yet they are not ignored: the element with id
    [emotion-name] is the dominant-emotion text, it has no [.emotion-value]
    inside, and the assignment to the [textContent] of [null] ends the update.
    On the sample session the item of 'happy' then keeps its '0%', while the
    same mapping without the key 'name' sets it to '90.0%'. *)
Lemma text_element_key_is_not_ignored :
  let s := Sample.state_after Sample.detecting in
  let tick scores :=
    Sample.state_after
      (Sample.detecting ++
       [DetectionSettled (Fulfilled [Sample.face_at scores])]) in
  let with_name := tick [("name", 0.5%float); ("happy", 0.9%float)] in
  let without := tick [("happy", 0.9%float)] in
  emotionsList (document with_name) = emotionsList (document s) /\
  emotionsList (document without) <> emotionsList (document s) /\
  map item_value (emotionsList (document with_name)) =
    ["0%"; "0%"; "0%"; "0%"; "0%"; "0%"; "0%"] /\
  map item_value (emotionsList (document without)) =
    ["0%"; "90.0%"; "0%"; "0%"; "0%"; "0%"; "0%"] /\
  console (browser with_name) =
    console (browser s) ++ [console_error "Detection error:" null_textContent].
Proof.
  vm_compute. repeat split. discriminate.
Qed.

(** ** Ticks with a face: the highlight *)

Lemma registered_distinct : NoDup registered.
Proof. repeat constructor; cbn; intuition discriminate. Qed.

Lemma registered_not_text_element l :
  In l registered -> names_text_element l = false.
Proof.
  cbn. intros H.
  repeat (destruct H as [<-|H]; [reflexivity|]). destruct H.
Qed.

Lemma one_item_per_id (grid : list EmotionItem) id :
  NoDup (map item_id grid) -> In id (map item_id grid) ->
  List.length (filter (fun it => String.eqb (item_id it) id) grid) = 1.
Proof.
  induction grid as [|a r IH]; intros Hnd Hin; [destruct Hin|].
  cbn in Hnd. inversion Hnd as [|? ? Hnotin Hnd']; subst. cbn.
  destruct (String.eqb_spec (item_id a) id) as [E|E].
  - cbn. f_equal. subst id.
    clear IH Hin Hnd Hnd'. induction r as [|b r IHr]; [reflexivity|].
    cbn. destruct (String.eqb_spec (item_id b) (item_id a)) as [Eb|Eb].
    + exfalso. apply Hnotin. left. exact Eb.
    + apply IHr. intros H. apply Hnotin. right. exact H.
  - apply IH; [exact Hnd'|]. destruct Hin as [Hin|Hin]; [contradiction|exact Hin].
Qed.

(** The label the loop ends with is 'neutral' or a key of the mapping. *)
Lemma dominant_label (m : list (string * float)) :
  fst (dominant m) = "neutral" \/ In (fst (dominant m)) (map fst m).
Proof.
  assert (H0 : Order.rank 0%float <> None)
    by (rewrite OrderFacts.rank_zero; discriminate).
  destruct (fold_keep_max_first m "neutral" 0%float H0)
    as [[E _]|(b & a & E & _)]; unfold dominant.
  - left. rewrite E. reflexivity.
  - right. rewrite E at 2. rewrite map_app. apply in_or_app. right. left.
    reflexivity.
Qed.

(** When the score listed for 'neutral' is not negative, the score listed
    for the dominant label is one that no score of the mapping exceeds. *)
Lemma dominant_score_is_maximal (m : list (string * float)) :
  In "neutral" (map fst m) ->
  (forall w, In ("neutral", w) m -> JS.gt 0%float w = false) ->
  exists w, In (fst (dominant m), w) m /\
            forall e, In e m -> JS.gt (snd e) w = false.
Proof.
  intros Hn Hpos.
  assert (H0 : Order.rank 0%float <> None)
    by (rewrite OrderFacts.rank_zero; discriminate).
  destruct (fold_keep_max_first m "neutral" 0%float H0)
    as [[E H]|(b & a & E & _)]; unfold dominant.
  - rewrite E. cbn [fst]. apply in_map_iff in Hn.
    destruct Hn as ([l w] & Hl & Hin). cbn in Hl. subst l.
    exists w. split; [exact Hin|]. intros e He.
    pose proof (H e He) as H1. pose proof (Hpos w Hin) as H2.
    pose proof OrderFacts.rank_zero as Hz.
    revert H1 H2 Hz. generalize (snd e) 0%float. intros a z H1 H2 Hz.
    by_rank.
  - exists (snd (fold_left keep_max m ("neutral", 0%float))). split.
    + rewrite <- surjective_pairing. rewrite E at 2.
      apply in_or_app. right. left. reflexivity.
    + apply (fold_keep_max_upper m "neutral" 0%float H0).
Qed.

(** C5, as the code has it: in a session on a loaded page, when the first
    face's mapping has the 7 registered labels as its keys, the items
    highlighted after the tick are exactly those of the dominant label, and
    there is exactly one of them; when moreover the score listed for
    'neutral' is not negative, the score listed for the dominant label is one
    that no score of the face exceeds. *)
Theorem one_active_item_is_dominant (s s' : state)
  (face : WithFaceExpressions) (rest : list WithFaceExpressions) :
  reachable s ->
  load_fired (browser s) = true ->
  step s (DetectionSettled (Fulfilled (face :: rest))) = Some s' ->
  Permutation (map fst (expressions face)) registered ->
  let l := fst (dominant (expressions face)) in
  (forall it, In it (emotionsList (document s')) ->
     (item_active it = true <-> item_id it = ("emotion-" ++ l)%string)) /\
  List.length (filter item_active (emotionsList (document s'))) = 1 /\
  ((forall w, In ("neutral", w) (expressions face) -> JS.gt 0%float w = false) ->
   exists w, In (l, w) (expressions face) /\
     forall e, In e (expressions face) -> JS.gt (snd e) w = false).
Proof.
  intros Hs Hl Hstep Hperm l.
  assert (Hnd : NoDup (map fst (expressions face)))
    by (eapply Permutation_NoDup;
        [apply Permutation_sym; exact Hperm | apply registered_distinct]).
  assert (Hkeys : forall k, In k (map fst (expressions face)) <-> In k registered)
    by (intros k; split; apply Permutation_in;
        [exact Hperm | apply Permutation_sym; exact Hperm]).
  assert (Ht : forall e, In e (expressions face) ->
                 names_text_element (fst e) = false)
    by (intros e He; apply registered_not_text_element, Hkeys, in_map, He).
  assert (Hlreg : In l registered).
  { destruct (dominant_label (expressions face)) as [E|E]; unfold l.
    - rewrite E. left. reflexivity.
    - apply Hkeys. exact E. }
  pose proof (loaded_page_has_grid s Hs Hl) as Hg. unfold grid_built in Hg.
  pose proof (tick_grid_is_update_grid s s' face rest Hs Hstep) as Hgrid.
  assert (Hids : map item_id (emotionsList (document s')) =
                 map item_id (emotionsList (document s)))
    by (rewrite Hgrid; apply update_grid_ids).
  assert (Hupd : forall l0 w0 it,
            In (l0, w0) (expressions face) ->
            In it (emotionsList (document s')) ->
            item_id it = ("emotion-" ++ l0)%string ->
            item_active it = String.eqb l0 l).
  { intros l0 w0 it Hin Hit Hid. rewrite Hgrid in Hit.
    destruct (updated_items l (expressions face) (emotionsList (document s))
                l0 w0 it) as (it0 & _ & _ & ->); try assumption.
    - rewrite Hg. apply registered_ids_distinct.
    - apply entry_update_fields. }
  assert (Hact : forall it, In it (emotionsList (document s')) ->
            item_active it = String.eqb (item_id it) ("emotion-" ++ l)).
  { intros it Hit.
    assert (Hid : In (item_id it) (map item_id (emotionsList (document s'))))
      by (apply in_map; exact Hit).
    rewrite Hids, Hg in Hid. apply in_map_iff in Hid.
    destruct Hid as (l0 & Hid & Hl0). symmetry in Hid.
    apply Hkeys, in_map_iff in Hl0. destruct Hl0 as ([l1 w0] & El & Hin).
    cbn in El. subst l1.
    rewrite (Hupd l0 w0 it Hin Hit Hid), Hid.
    fold l. destruct (String.eqb_spec l0 l) as [->|Hne].
    - symmetry. apply String.eqb_refl.
    - symmetry. apply String.eqb_neq. intros E. apply Hne.
      exact (emotion_id_inj _ _ E). }
  split; [|split].
  - intros it Hit. rewrite (Hact it Hit). apply String.eqb_eq.
  - rewrite (filter_ext_in _ _ _ Hact). apply one_item_per_id.
    + rewrite Hids, Hg. apply registered_ids_distinct.
    + rewrite Hids, Hg. apply in_map. exact Hlreg.
  - intros Hpos. apply dominant_score_is_maximal; [|exact Hpos].
    apply Hkeys. left. reflexivity.
Qed.

Lemma one_active_item_is_dominant_witness :
  let first := Sample.face_at
                 [("sad", 0.6%float); ("neutral", 0.1%float);
                  ("happy", 0.1%float); ("angry", 0.1%float);
                  ("fearful", 0.05%float); ("disgusted", 0.03%float);
                  ("surprised", 0.02%float)] in
  let face := {| detection := {| box := Sample.example_box |};
                 expressions := Sample.example_scores |} in
  let before := Sample.detecting ++
                [DetectionSettled (Fulfilled [first]); TimerTick 1] in
  let s := Sample.state_after before in
  let s' := Sample.state_after (before ++ [DetectionSettled (Fulfilled [face])]) in
  let l := fst (dominant (expressions face)) in
  map item_id (filter item_active (emotionsList (document s))) =
    ["emotion-sad"] /\
  l = "happy" /\
  (forall it, In it (emotionsList (document s')) ->
     (item_active it = true <-> item_id it = ("emotion-" ++ l)%string)) /\
  List.length (filter item_active (emotionsList (document s'))) = 1 /\
  ((forall w, In ("neutral", w) (expressions face) -> JS.gt 0%float w = false) ->
   exists w, In (l, w) (expressions face) /\
     forall e, In e (expressions face) -> JS.gt (snd e) w = false).
Proof.
  intros first face before s s'.
  split; [vm_compute; reflexivity|]. split; [vm_compute; reflexivity|].
  apply (one_active_item_is_dominant s s' face []).
  - apply SampleFacts.reachable_after. vm_compute. discriminate.
  - vm_compute. reflexivity.
  - vm_compute. reflexivity.
  - cbn. unfold registered. cbn.
    apply perm_trans with
      (l' := ["neutral"; "happy"; "sad"; "angry"; "fearful"; "disgusted";
              "surprised"]); [|apply Permutation_refl].
    apply perm_trans with
      (l' := ["happy"; "neutral"; "sad"; "angry"; "fearful"; "disgusted";
              "surprised"]); [|apply perm_swap].
    apply perm_skip, perm_swap.
Defined.

(** C5, as stated, fails in three ways.  When a key is missing from the
    mapping, the item of a label that the mapping does not list keeps the
    highlight it had: on the sample session, after a tick on the example
    scores ('happy' on top) a tick on a face that lists 'sad' only leaves two
    items highlighted.  When the mapping has all its keys but no score is
    above the loop's baseline 0, the highlight goes to 'neutral' whatever its
    score: with 'neutral' at -0.5 and 'happy' at -0.1, the one item
    highlighted is that of 'neutral', whose score is not the maximum.  And
    when the markup leaves the start control enabled and the camera is started
    before the [load] event, the grid is not built yet: a tick on the example
    scores shows HAPPY and highlights nothing. *)
Lemma missing_key_keeps_old_highlight :
  let first := Sample.face_at Sample.example_scores in
  let second := Sample.face_at [("sad", 0.9%float)] in
  let s' := Sample.state_after
              (Sample.detecting ++
               [DetectionSettled (Fulfilled [first]); TimerTick 1;
                DetectionSettled (Fulfilled [second])]) in
  let below := Sample.face_at
                 [("neutral", (-0.5)%float); ("happy", (-0.1)%float);
                  ("sad", (-0.2)%float); ("angry", (-0.2)%float);
                  ("fearful", (-0.2)%float); ("disgusted", (-0.2)%float);
                  ("surprised", (-0.2)%float)] in
  let t' := Sample.state_after
              (Sample.detecting ++ [DetectionSettled (Fulfilled [below])]) in
  let u' := match run Sample.enabled_page
                    [ Click; CameraSettled (Fulfilled Sample.camera);
                      LoadedMetadata 640 480; TimerTick 1;
                      DetectionSettled (Fulfilled [first]) ] with
            | Some u => u
            | None => Sample.enabled_page
            end in
  (emotionName (document s') = "SAD" /\
   map item_id (filter item_active (emotionsList (document s'))) =
     ["emotion-happy"; "emotion-sad"] /\
   List.length (filter item_active (emotionsList (document s'))) <> 1) /\
  (map fst (expressions below) = registered /\
   map item_id (filter item_active (emotionsList (document t'))) =
     ["emotion-neutral"] /\
   JS.gt (-0.1)%float (-0.5)%float = true) /\
  (initial Sample.enabled_page /\
   load_fired (browser u') = false /\
   emotionName (document u') = "HAPPY" /\
   filter item_active (emotionsList (document u')) = []).
Proof.
  vm_compute. repeat split. discriminate.
Qed.

(** ** The detection timer *)

(** No timer set: no tick can be delivered, and only [loadedmetadata] sets
    a timer. *)
Lemma step_without_timer s ev s' :
  timers (browser s) = [] -> is_metadata ev = false ->
  step s ev = Some s' ->
  timers (browser s') = [] /\ (forall id, ev <> TimerTick id).
Proof.
  intros Ht Hm Hstep.
  destruct ev as [ |r| |r|w h|id|r| ]; cbn [step] in Hstep;
    try discriminate Hm.
  - destruct (load_fired (browser s)); [discriminate|].
    injection Hstep as <-. split; [|discriminate].
    destruct s as [run i c [src ? [] ? ? ? ? ? ?] []]. exact Ht.
  - destruct (models_loading (browser s)); [|discriminate].
    injection Hstep as <-. split; [|discriminate].
    destruct s as [run i c [src ? [] ? ? ? ? ? ?] []], r; exact Ht.
  - destruct (disabled (toggleBtn (document s))); [discriminate|].
    injection Hstep as <-. split; [|discriminate].
    destruct s as [run i c [src ? [] ? ? ? ? ? ?] [tm ? ? ? ? ? ? ?]].
    cbn in Ht. subst tm.
    destruct run, c as [[]|], src, i; reflexivity.
  - destruct (camera_requests (browser s)) eqn:E; [discriminate|].
    injection Hstep as <-. split; [|discriminate].
    destruct s as [run i c [src ? [] ? ? ? ? ? ?] []], r; exact Ht.
  - rewrite Ht in Hstep. discriminate.
  - destruct (detections_in_flight (browser s)) eqn:E; [discriminate|].
    injection Hstep as <-. split; [|discriminate].
    rewrite handle_detectEmotions_resume.
    match goal with |- context [detectEmotions_resume r ?s0] =>
      destruct (detectEmotions_resume_normal r s0) as [_ H] end.
    destruct H as (_ & _ & _ & H4 & _). rewrite H4. exact Ht.
  - injection Hstep as <-. split; [|discriminate].
    destruct s as [run i c [src ? [] ? ? ? ? ? ?] [tm ? ? ? ? ? ? ?]].
    cbn in Ht. subst tm.
    destruct run, c as [[]|], src, i; reflexivity.
Qed.

(** With no timer and no detection awaited, an event other than
    [loadedmetadata] leaves a reset display reset. *)
Lemma step_keeps_reset_display s ev s' :
  timers (browser s) = [] -> detections_in_flight (browser s) = O ->
  is_metadata ev = false -> display s = reset_shown ->
  step s ev = Some s' ->
  detections_in_flight (browser s') = O /\ display s' = reset_shown.
Proof.
  intros Ht Hd Hm Hshown Hstep. unfold display, reset_shown in *.
  destruct ev as [ |r| |r|w h|id|r| ]; cbn [step] in Hstep;
    try discriminate Hm;
    try (rewrite Ht in Hstep; discriminate);
    try (rewrite Hd in Hstep; discriminate);
    destruct s as [run i c [src ? [] ? ? ? ? ? ?] [tm ? ? ? ? ? ? ?]];
    cbn [document emotionName emotionConfidence faceCount emotionsList
         canvas painted browser detections_in_flight timers
         load_fired models_loading camera_requests toggleBtn]
      in Ht, Hd, Hshown, Hstep;
    subst tm; injection Hshown as -> -> -> -> ->.
  - destruct load_fired0; [discriminate|].
    injection Hstep as <-. split; [exact Hd|reflexivity].
  - destruct models_loading0; [|discriminate].
    injection Hstep as <-. destruct r; split; first [exact Hd|reflexivity].
  - destruct (disabled toggleBtn0); [discriminate|].
    injection Hstep as <-.
    destruct run, c as [[]|], src, i; split; first [exact Hd | reflexivity].
  - destruct camera_requests0; [discriminate|].
    injection Hstep as <-.
    destruct r; split; first [exact Hd | reflexivity].
  - injection Hstep as <-.
    destruct run, c as [[]|], src, i; split; first [exact Hd | reflexivity].
Qed.

Lemma run_without_timer evs : forall s s',
  timers (browser s) = [] ->
  forallb (fun ev => negb (is_metadata ev)) evs = true ->
  run s evs = Some s' ->
  timers (browser s') = [] /\ (forall id, ~ In (TimerTick id) evs) /\
  (detections_in_flight (browser s) = O -> display s = reset_shown ->
   display s' = reset_shown).
Proof.
  induction evs as [|ev r IH]; intros s s' Ht Hm Hrun; cbn in Hrun.
  - injection Hrun as <-. repeat split; auto.
  - cbn in Hm. apply andb_prop in Hm. destruct Hm as [Hev Hr].
    apply negb_true_iff in Hev.
    destruct (step s ev) as [s1|] eqn:E; [|discriminate].
    destruct (step_without_timer s ev s1 Ht Hev E) as [Ht1 Hne].
    destruct (IH s1 s' Ht1 Hr Hrun) as (H1 & H2 & H3).
    split; [exact H1|]. split.
    + intros id [Hin|Hin]; [exact (Hne id Hin)|exact (H2 id Hin)].
    + intros Hd Hshown.
      destruct (step_keeps_reset_display s ev s1 Ht Hd Hev Hshown E) as [Hd1 Hs1].
      auto.
Qed.

(** The click that stops a running camera, in a session. *)
Lemma stop_click s s1 :
  reachable s -> isVideoRunning s = true -> step s Click = Some s1 ->
  isVideoRunning s1 = false /\ timers (browser s1) = [] /\
  display s1 = reset_shown /\
  detections_in_flight (browser s1) = detections_in_flight (browser s).
Proof.
  intros Hs Hrun Hstep.
  destruct (reachable_invariants s Hs) as [Hc Ht].
  specialize (Hc (or_introl Hrun)).
  cbn [step] in Hstep.
  destruct (disabled (toggleBtn (document s))); [discriminate|].
  injection Hstep as <-.
  destruct s as [run i c [src ? [] ? ? ? ? ? ?] [tm ? ? ? ? ? ? ?]].
  cbn in Hrun, Hc. subst run c. unfold one_timer in Ht. cbn in Ht.
  destruct Ht as [->|(id & -> & ->)]; [destruct i|]; destruct src;
    repeat split; try reflexivity;
    cbn [handle onclick]; cbn; rewrite Pos.eqb_refl; reflexivity.
Qed.

Lemma at_most_one_timer s :
  reachable s -> List.length (timers (browser s)) <= 1.
Proof.
  intros Hs. destruct (reachable_invariants s Hs) as [_ [->|(id & -> & _)]];
    cbn; lia.
Qed.

(** C8, as the code has it: in a session at most one interval timer is set
    at any time.  The click that stops a running camera lowers the flag, leaves
    no timer set and the display reset; from then on, as long as no
    [loadedmetadata] event starts detection again, no timer is set and no tick
    can be delivered, and, if no detection was still awaited at the stop, the
    display stays as the stop left it. *)
Theorem stop_cancels_the_only_timer (s : state) :
  reachable s ->
  List.length (timers (browser s)) <= 1 /\
  (forall s1,
     isVideoRunning s = true ->
     step s Click = Some s1 ->
     isVideoRunning s1 = false /\
     timers (browser s1) = [] /\
     (forall evs s2,
        forallb (fun ev => negb (is_metadata ev)) evs = true ->
        run s1 evs = Some s2 ->
        timers (browser s2) = [] /\
        (forall id, ~ In (TimerTick id) evs) /\
        (detections_in_flight (browser s) = O -> display s2 = display s1))).
Proof.
  intros Hs. split; [apply at_most_one_timer; exact Hs|].
  intros s1 Hrun Hstep.
  destruct (stop_click s s1 Hs Hrun Hstep) as (H1 & H2 & H3 & H4).
  split; [exact H1|]. split; [exact H2|].
  intros evs s2 Hm Hevs.
  destruct (run_without_timer evs s1 s2 H2 Hm Hevs) as (Ht & Hno & Hshown).
  split; [exact Ht|]. split; [exact Hno|].
  intros Hd. rewrite H3. apply Hshown; [rewrite H4; exact Hd|exact H3].
Qed.

Lemma stop_cancels_the_only_timer_witness :
  let s := Sample.state_after Sample.started in
  List.length (timers (browser s)) <= 1 /\
  (forall s1,
     isVideoRunning s = true ->
     step s Click = Some s1 ->
     isVideoRunning s1 = false /\
     timers (browser s1) = [] /\
     (forall evs s2,
        forallb (fun ev => negb (is_metadata ev)) evs = true ->
        run s1 evs = Some s2 ->
        timers (browser s2) = [] /\
        (forall id, ~ In (TimerTick id) evs) /\
        (detections_in_flight (browser s) = O -> display s2 = display s1))).
Proof.
  intros s.
  apply (stop_cancels_the_only_timer s).
  apply SampleFacts.reachable_after. vm_compute. discriminate.
Defined.

(** The sample session does run that far: the camera is on, its timer is
    set, and the click is accepted. *)
Example sample_session_is_running :
  let s := Sample.state_after Sample.started in
  isVideoRunning s = true /\ timers (browser s) = [1%positive] /\
  step s Click <> None.
Proof. vm_compute. repeat split. discriminate. Qed.

(** C8, as stated, fails on the sample session: a detection still awaited
    when the camera is stopped completes afterwards and writes the display,
    although the flag is false and no timer is set. *)
Lemma stop_does_not_end_all_updates :
  let face := Sample.face_at Sample.example_scores in
  let stopped := Sample.state_after (Sample.detecting ++ [Click]) in
  let later := Sample.state_after
                 (Sample.detecting ++
                  [Click; DetectionSettled (Fulfilled [face])]) in
  isVideoRunning stopped = false /\ timers (browser stopped) = [] /\
  emotionName (document stopped) = "--" /\
  painted (canvas (document stopped)) = [] /\
  isVideoRunning later = false /\ timers (browser later) = [] /\
  emotionName (document later) = "HAPPY" /\
  painted (canvas (document later)) = Sample.example_overlay /\
  display later <> display stopped.
Proof.
  vm_compute. repeat split. discriminate.
Qed.

(** Why the theorem leaves [loadedmetadata] out: [stopWebcam] does not remove
    the handler, so when the camera is stopped before the video's metadata has
    loaded, the event still starts the timer, and its tick is delivered with
    the flag down. *)
Example metadata_after_stop_starts_timer :
  let early_stop :=
    [ WindowLoad; ModelsSettled (Fulfilled tt); Click;
      CameraSettled (Fulfilled Sample.camera); Click;
      LoadedMetadata 640 480 ] in
  isVideoRunning (Sample.state_after early_stop) = false /\
  timers (browser (Sample.state_after early_stop)) = [1%positive] /\
  run Sample.page (early_stop ++ [TimerTick 1]) <> None.
Proof.
  vm_compute. repeat split. discriminate.
Qed.

(** * Further properties of the script *)

(** ** [stopWebcam] and the handlers that call it *)

Lemma halted_releases s : camera_released (halted s).
Proof.
  unfold camera_released, halted.
  destruct (detectingInterval s); cbn;
    destruct (video_srcObject (document s)) as [stream|]; cbn; auto;
    apply Forall_forall; intros t Ht; apply in_map_iff in Ht;
    destruct Ht as (t0 & <- & _); reflexivity.
Qed.

(** X1: once the drawing context exists, [stopWebcam] completes normally,
    ends every track of the attached stream, and is idempotent: a second call
    returns the same completion and the same state as the first. *)
Theorem stopWebcam_idempotent_with_ctx (s : state) :
  ctx s = Some Context2D ->
  fst (stopWebcam s) = Normal tt /\
  camera_released (snd (stopWebcam s)) /\
  stopWebcam (snd (stopWebcam s)) = stopWebcam s.
Proof.
  intros Hc. destruct (stopWebcam_twice s Hc) as [H1 H2].
  split; [exact H1|]. split; [|exact H2].
  rewrite stopWebcam_eq, Hc. cbn [snd].
  pose proof (halted_releases s) as H. unfold camera_released in *.
  exact H.
Qed.

Lemma stopWebcam_idempotent_with_ctx_witness :
  let s := Sample.state_after Sample.detecting in
  fst (stopWebcam s) = Normal tt /\
  camera_released (snd (stopWebcam s)) /\
  stopWebcam (snd (stopWebcam s)) = stopWebcam s.
Proof.
  intros s. apply (stopWebcam_idempotent_with_ctx s). vm_compute. reflexivity.
Defined.

(** X2: in a session, the click on a running camera stops it for good: the
    flag is false, no interval timer is left, every track of the stream has
    ended, the display is in its zero state, and the control reads
    "Start Camera" without the class [active]; the next click is a start. *)
Theorem stop_click_releases_camera (s s1 : state) :
  reachable s ->
  isVideoRunning s = true ->
  step s Click = Some s1 ->
  isVideoRunning s1 = false /\
  timers (browser s1) = [] /\
  camera_released s1 /\
  display s1 = reset_shown /\
  textContent (toggleBtn (document s1)) = "Start Camera" /\
  active (toggleBtn (document s1)) = false /\
  (forall s2, step s1 Click = Some s2 ->
     camera_requests (browser s2) = S (camera_requests (browser s1)) /\
     textContent (toggleBtn (document s2)) = "Stop Camera").
Proof.
  intros Hs Hrun Hstep.
  destruct (stop_click s s1 Hs Hrun Hstep) as (H1 & H2 & H3 & _).
  split; [exact H1|]. split; [exact H2|].
  destruct (reachable_invariants s Hs) as [Hc _].
  specialize (Hc (or_introl Hrun)).
  cbn [step] in Hstep.
  destruct (disabled (toggleBtn (document s))) eqn:Hdis; [discriminate|].
  injection Hstep as <-.
  assert (E : handle onclick s =
              in_document (fun d => set_toggleBtn
                 (set_active false (set_textContent "Start Camera" (toggleBtn d))) d)
                (reset_display (halted s))).
  { unfold handle, onclick, bind at 1, get. rewrite Hrun.
    unfold bind at 1. rewrite stopWebcam_eq, Hc. vm_compute. reflexivity. }
  split.
  - rewrite E. pose proof (halted_releases s) as H.
    unfold camera_released in *. exact H.
  - split; [exact H3|]. rewrite E. split; [reflexivity|]. split; [reflexivity|].
    intros s2 Hs2. cbn [step] in Hs2.
    match type of Hs2 with (if ?b then _ else _) = _ => destruct b end;
      [discriminate|].
    injection Hs2 as <-.
    destruct s as [run i c [src ? [] ? ? ? ? ? ?] []].
    destruct i, src; vm_compute; split; reflexivity.
Qed.

Lemma stop_click_releases_camera_witness :
  let s1 := Sample.state_after (Sample.detecting ++ [Click]) in
  isVideoRunning s1 = false /\
  timers (browser s1) = [] /\
  camera_released s1 /\
  display s1 = reset_shown /\
  textContent (toggleBtn (document s1)) = "Start Camera" /\
  active (toggleBtn (document s1)) = false /\
  (forall s2, step s1 Click = Some s2 ->
     camera_requests (browser s2) = S (camera_requests (browser s1)) /\
     textContent (toggleBtn (document s2)) = "Stop Camera").
Proof.
  intros s1.
  apply (stop_click_releases_camera (Sample.state_after Sample.detecting) s1).
  - apply SampleFacts.reachable_after. vm_compute. discriminate.
  - vm_compute. reflexivity.
  - vm_compute. reflexivity.
Defined.

(** ** Loading the models *)





(** X4: when the model load succeeds, the load handler leaves the grid
    rebuilt in its zero state, the loading indicator hidden, and the start
    control enabled with the label "Start Camera"; it never touches the
    script's variables, and a click is then delivered. *)
Theorem load_success_enables_start (s s1 s2 : state) :
  step s WindowLoad = Some s1 ->
  step s1 (ModelsSettled (Fulfilled tt)) = Some s2 ->
  emotionsList (document s2) = fresh_grid /\
  indicator_display (loadingIndicator (document s2)) = "none" /\
  disabled (toggleBtn (document s2)) = false /\
  textContent (toggleBtn (document s2)) = "Start Camera" /\
  isVideoRunning s2 = isVideoRunning s /\
  detectingInterval s2 = detectingInterval s /\
  ctx s2 = ctx s /\
  step s2 Click <> None.
Proof.
  intros H1 H2. cbn [step] in H1.
  destruct (load_fired (browser s)); [discriminate|].
  injection H1 as <-.
  destruct s as [run i c [src ? [] ? ? ? ? ? ?] []].
  vm_compute in H2. injection H2 as <-.
  vm_compute. repeat split. discriminate.
Qed.

Lemma load_success_enables_start_witness :
  let s2 := Sample.state_after [WindowLoad; ModelsSettled (Fulfilled tt)] in
  emotionsList (document s2) = fresh_grid /\
  indicator_display (loadingIndicator (document s2)) = "none" /\
  disabled (toggleBtn (document s2)) = false /\
  textContent (toggleBtn (document s2)) = "Start Camera" /\
  isVideoRunning s2 = isVideoRunning Sample.page /\
  detectingInterval s2 = detectingInterval Sample.page /\
  ctx s2 = ctx Sample.page /\
  step s2 Click <> None.
Proof.
  intros s2.
  apply (load_success_enables_start Sample.page
           (Sample.state_after [WindowLoad]) s2); vm_compute; reflexivity.
Defined.

(** ** Starting the camera *)

(** X5: a click while the flag is down asks for the camera and marks the
    control "Stop Camera" at once; when the request is granted the stream is
    attached, the flag is up, [ctx] is the context and the metadata handler is
    installed, but no timer is set yet and the display is untouched:
    detection begins only with [loadedmetadata]. *)
Theorem camera_grant_starts_without_timer (s s1 s2 : state)
  (stream : MediaStream) :
  isVideoRunning s = false ->
  step s Click = Some s1 ->
  step s1 (CameraSettled (Fulfilled stream)) = Some s2 ->
  textContent (toggleBtn (document s1)) = "Stop Camera" /\
  isVideoRunning s1 = false /\
  isVideoRunning s2 = true /\
  ctx s2 = Some Context2D /\
  video_srcObject (document s2) = Some stream /\
  video_onloadedmetadata (document s2) = true /\
  timers (browser s2) = timers (browser s) /\
  detectingInterval s2 = detectingInterval s /\
  display s2 = display s /\
  step s2 (LoadedMetadata 640 480) <> None.
Proof.
  intros Hrun Hclick Hgrant.
  destruct s as [run i c [? ? [] ? ? ? ? [] []] []].
  cbn in Hrun. subst run. cbn [step] in Hclick.
  match type of Hclick with (if ?b then _ else _) = _ => destruct b end;
    [discriminate|].
  injection Hclick as <-. vm_compute in Hgrant. injection Hgrant as <-.
  vm_compute. repeat split. discriminate.
Qed.

Lemma camera_grant_starts_without_timer_witness :
  let loaded := [WindowLoad; ModelsSettled (Fulfilled tt)] in
  let s := Sample.state_after loaded in
  let s1 := Sample.state_after (loaded ++ [Click]) in
  let s2 := Sample.state_after
              (loaded ++ [Click; CameraSettled (Fulfilled Sample.camera)]) in
  textContent (toggleBtn (document s1)) = "Stop Camera" /\
  isVideoRunning s1 = false /\
  isVideoRunning s2 = true /\
  ctx s2 = Some Context2D /\
  video_srcObject (document s2) = Some Sample.camera /\
  video_onloadedmetadata (document s2) = true /\
  timers (browser s2) = timers (browser s) /\
  detectingInterval s2 = detectingInterval s /\
  display s2 = display s /\
  step s2 (LoadedMetadata 640 480) <> None.
Proof.
  intros loaded s s1 s2.
  apply (camera_grant_starts_without_timer s s1 s2 Sample.camera);
    vm_compute; reflexivity.
Defined.

(** X6: in a session, [loadedmetadata] sizes the canvas to the video and
    leaves it blank, and [startDetection] leaves exactly one interval timer:
    a new one, which [detectingInterval] names, the timer set before (if any)
    being cleared. *)
Theorem loadedmetadata_restarts_detection (s s' : state) (w h : N) :
  reachable s ->
  step s (LoadedMetadata w h) = Some s' ->
  canvas_width (canvas (document s')) = w /\
  canvas_height (canvas (document s')) = h /\
  painted (canvas (document s')) = [] /\
  timers (browser s') = [next_timer (browser s)] /\
  detectingInterval s' = Some (next_timer (browser s)) /\
  next_timer (browser s') = Pos.succ (next_timer (browser s)) /\
  isVideoRunning s' = isVideoRunning s.
Proof.
  intros Hs Hstep.
  destruct (reachable_invariants s Hs) as [_ Ht].
  cbn [step] in Hstep.
  destruct (video_onloadedmetadata (document s)); [|discriminate].
  destruct (video_srcObject (document s)) eqn:E; [|discriminate].
  injection Hstep as <-.
  destruct s as [run i c [src ? [] ? ? ? ? ? ?] [tm nx ? ? ? ? ? ?]].
  unfold one_timer in Ht. cbn in Ht.
  destruct Ht as [->|(id & -> & ->)]; [destruct i|]; cbn;
    rewrite ?Pos.eqb_refl; repeat split.
Qed.

Lemma loadedmetadata_restarts_detection_witness :
  let s := Sample.state_after Sample.detecting in
  let s' := Sample.state_after (Sample.detecting ++ [LoadedMetadata 320 240]) in
  canvas_width (canvas (document s')) = 320%N /\
  canvas_height (canvas (document s')) = 240%N /\
  painted (canvas (document s')) = [] /\
  timers (browser s') = [next_timer (browser s)] /\
  detectingInterval s' = Some (next_timer (browser s)) /\
  next_timer (browser s') = Pos.succ (next_timer (browser s)) /\
  isVideoRunning s' = isVideoRunning s.
Proof.
  intros s s'.
  apply (loadedmetadata_restarts_detection s s' 320 240).
  - apply SampleFacts.reachable_after. vm_compute. discriminate.
  - vm_compute. reflexivity.
Defined.

(** ** Ticks *)

Lemma tick_begin_eq s :
  handle detectEmotions_begin s =
  if isVideoRunning s then one_more_in_flight s else s.
Proof.
  destruct s as [run i c d []]. destruct run; reflexivity.
Qed.

(** X7: while the flag is down a tick is a no-op: whatever timers are still
    set, any number of their ticks leaves the whole state as it was and calls
    the detector not once. *)
Theorem ticks_are_noops_when_stopped (ids : list positive) : forall s s',
  isVideoRunning s = false ->
  run s (map TimerTick ids) = Some s' ->
  s' = s.
Proof.
  induction ids as [|id r IH]; intros s s' Hrun H; cbn in H.
  - injection H as <-. reflexivity.
  - destruct (existsb (Pos.eqb id) (timers (browser s))); [|discriminate].
    rewrite tick_begin_eq, Hrun in H. apply IH; assumption.
Qed.

Lemma ticks_are_noops_when_stopped_witness :
  let early_stop :=
    [ WindowLoad; ModelsSettled (Fulfilled tt); Click;
      CameraSettled (Fulfilled Sample.camera); Click;
      LoadedMetadata 640 480 ] in
  Sample.state_after (early_stop ++ map TimerTick [1; 1; 1]%positive) =
  Sample.state_after early_stop.
Proof.
  intros early_stop.
  apply (ticks_are_noops_when_stopped [1; 1; 1]%positive
           (Sample.state_after early_stop)); vm_compute; reflexivity.
Defined.

(** X8: while the flag is up every tick calls the detector, whether or not
    earlier calls are still awaited: after [n] ticks in a row there are [n]
    more calls in flight, and nothing but that count has changed. *)
Theorem running_ticks_overlap (ids : list positive) : forall s s',
  isVideoRunning s = true ->
  run s (map TimerTick ids) = Some s' ->
  detections_in_flight (browser s') =
    (List.length ids + detections_in_flight (browser s))%nat /\
  document s' = document s /\
  timers (browser s') = timers (browser s) /\
  isVideoRunning s' = true.
Proof.
  induction ids as [|id r IH]; intros s s' Hrun H; cbn in H.
  - injection H as <-. repeat split. exact Hrun.
  - destruct (existsb (Pos.eqb id) (timers (browser s))); [|discriminate].
    rewrite tick_begin_eq, Hrun in H.
    destruct (IH (one_more_in_flight s) s' Hrun H) as (H1 & H2 & H3 & H4).
    rewrite H1, H2, H3. cbn. repeat split; [lia|exact H4].
Qed.

Lemma running_ticks_overlap_witness :
  let s := Sample.state_after Sample.started in
  let s' := Sample.state_after (Sample.started ++ map TimerTick [1; 1; 1]%positive) in
  detections_in_flight (browser s') =
    (3 + detections_in_flight (browser s))%nat /\
  document s' = document s /\
  timers (browser s') = timers (browser s) /\
  isVideoRunning s' = true.
Proof.
  intros s s'.
  apply (running_ticks_overlap [1; 1; 1]%positive s s'); vm_compute; reflexivity.
Defined.

(** ** What a detection result changes *)

(** X9: of a detection result only the first face and the number of faces
    are used: two results with the same first face leave states that differ
    in the text of the face counter alone, which shows the number of faces. *)
Theorem only_first_face_is_shown (s : state) (face : WithFaceExpressions)
  (rest rest' : list WithFaceExpressions) :
  ctx s = Some Context2D ->
  let t := snd (detectEmotions_resume (Fulfilled (face :: rest)) s) in
  let t' := snd (detectEmotions_resume (Fulfilled (face :: rest')) s) in
  faceCount (document t) =
    ("Faces Detected: " ++ JS.nat_to_string (S (List.length rest)))%string /\
  in_document (set_faceCount (faceCount (document t))) t' = t.
Proof.
  intros Hc t t'. unfold t, t'.
  rewrite !detectEmotions_resume_face by exact Hc. cbn [snd].
  unfold after_face.
  destruct (dominant (expressions face)) as [l v].
  destruct (update_grid l (expressions face) (emotionsList (document s)))
    as [[[]|e] g]; [destruct (emotionMap_get l)|];
    (split; [reflexivity|]);
    destruct s as [? ? ? [? ? [] ? ? ? ? ? ?] []]; reflexivity.
Qed.

Lemma only_first_face_is_shown_witness :
  let s := Sample.state_after Sample.detecting in
  let face := Sample.face_at Sample.example_scores in
  let other := Sample.face_at [("sad", 0.9%float)] in
  let t := snd (detectEmotions_resume (Fulfilled [face; other; other]) s) in
  let t' := snd (detectEmotions_resume (Fulfilled [face]) s) in
  faceCount (document t) = "Faces Detected: 3" /\
  in_document (set_faceCount (faceCount (document t))) t' = t.
Proof.
  intros s face other.
  apply (only_first_face_is_shown s face [other; other] []).
  vm_compute. reflexivity.
Defined.

(** X10: a tick's continuation clears the canvas before it draws: what was
    painted before has no influence on the state it leaves, so the canvas then
    holds at most the box and the label of this tick. *)
Theorem stale_paint_never_survives (s : state) (old : list paint)
  (detections : list WithFaceExpressions) :
  ctx s = Some Context2D ->
  snd (detectEmotions_resume (Fulfilled detections)
         (in_canvas (set_painted old) s)) =
  snd (detectEmotions_resume (Fulfilled detections) s) /\
  List.length
    (painted (canvas (document
       (snd (detectEmotions_resume (Fulfilled detections) s))))) <= 2.
Proof.
  intros Hc.
  assert (Hc' : ctx (in_canvas (set_painted old) s) = Some Context2D)
    by exact Hc.
  destruct detections as [|face rest].
  - rewrite !detectEmotions_resume_none by assumption. cbn [snd].
    split; [|cbn; lia].
    destruct s as [? ? ? [? ? [] ? ? ? ? ? ?] []]; reflexivity.
  - rewrite !detectEmotions_resume_face by assumption. cbn [snd].
    unfold after_face.
    replace (emotionsList (document (in_canvas (set_painted old) s)))
      with (emotionsList (document s)) by reflexivity.
    destruct (dominant (expressions face)) as [l v].
    destruct (update_grid l (expressions face) (emotionsList (document s)))
      as [[[]|e] g]; [destruct (emotionMap_get l) as [en| |]|];
      (split; [destruct s as [? ? ? [? ? [] ? ? ? ? ? ?] []]; reflexivity|]);
      try (cbn; lia);
      unfold in_canvas, in_document, face_painted, stroked, filled;
      cbn [document canvas set_document set_canvas];
      repeat match goal with
        | |- context [if ?b then _ else _] => destruct b
        end; cbn; lia.
Qed.

Lemma stale_paint_never_survives_witness :
  let s := Sample.state_after Sample.detecting in
  let face := Sample.face_at Sample.example_scores in
  snd (detectEmotions_resume (Fulfilled [face])
         (in_canvas (set_painted Sample.example_overlay) s)) =
  snd (detectEmotions_resume (Fulfilled [face]) s) /\
  List.length
    (painted (canvas (document
       (snd (detectEmotions_resume (Fulfilled [face]) s))))) <= 2.
Proof.
  intros s face.
  apply (stale_paint_never_survives s Sample.example_overlay [face]).
  vm_compute. reflexivity.
Defined.

(** ** The arg-max loop *)

(** X11: whatever the detector returns, negative scores and NaN included,
    the value the arg-max loop ends with is a number at least 0: the displayed
    confidence is never NaN and never below zero. *)
Theorem dominant_value_is_never_negative (m : list (string * float)) :
  Order.reaches (snd (dominant m)) 0%float = true /\
  JS.gt 0%float (snd (dominant m)) = false.
Proof.
  assert (H0 : Order.rank 0%float <> None)
    by (rewrite OrderFacts.rank_zero; discriminate).
  unfold dominant.
  destruct (fold_keep_max_first m "neutral" 0%float H0)
    as [[E _]|(b & a & _ & Hgt & _)].
  - rewrite E. split; reflexivity.
  - set (v := snd (fold_left keep_max m ("neutral", 0%float))) in *.
    pose proof OrderFacts.rank_zero as Hz.
    revert Hgt Hz. generalize 0%float. intros z Hgt Hz. split; by_rank.
Qed.

(** A rank other than that of zero names one number. *)
Lemma rank_determines_number (a b : float) k :
  Order.rank a = Some k -> Order.rank b = Some k -> k <> (0, 0, 0)%Z -> a = b.
Proof.
  unfold Order.rank. intros Ha Hb Hk. apply Prim2SF_inj.
  destruct (Prim2SF a) as [sa|sa| |sa ma ea], (Prim2SF b) as [sb|sb| |sb mb eb];
    try destruct sa; try destruct sb; cbn in Ha, Hb;
    try discriminate; try congruence;
    rewrite <- Ha in Hb; injection Hb as H1 H2; f_equal; lia.
Qed.

(** X12: the value the arg-max loop ends with does not depend on the order
    in which the mapping lists its entries (only the label does, on ties). *)
Theorem dominant_value_ignores_order (m m' : list (string * float)) :
  Permutation m m' ->
  snd (dominant m) = snd (dominant m').
Proof.
  intros Hp.
  assert (H0 : Order.rank 0%float <> None)
    by (rewrite OrderFacts.rank_zero; discriminate).
  pose proof (fold_keep_max_upper m "neutral" 0%float H0) as [_ U].
  pose proof (fold_keep_max_upper m' "neutral" 0%float H0) as [_ U'].
  unfold dominant.
  destruct (fold_keep_max_first m "neutral" 0%float H0)
    as [[E H]|(b & a & E & Hgt & _)];
    destruct (fold_keep_max_first m' "neutral" 0%float H0)
      as [[E' H']|(b' & a' & E' & Hgt' & _)].
  - rewrite E, E'. reflexivity.
  - exfalso.
    assert (Hin : In (fold_left keep_max m' ("neutral", 0%float)) m)
      by (apply (Permutation_in _ (Permutation_sym Hp)); rewrite E' at 2;
          apply in_or_app; right; left; reflexivity).
    rewrite (H _ Hin) in Hgt'. discriminate.
  - exfalso.
    assert (Hin : In (fold_left keep_max m ("neutral", 0%float)) m')
      by (apply (Permutation_in _ Hp); rewrite E at 2;
          apply in_or_app; right; left; reflexivity).
    rewrite (H' _ Hin) in Hgt. discriminate.
  - assert (Hin : In (fold_left keep_max m ("neutral", 0%float)) m')
      by (apply (Permutation_in _ Hp); rewrite E at 2;
          apply in_or_app; right; left; reflexivity).
    assert (Hin' : In (fold_left keep_max m' ("neutral", 0%float)) m)
      by (apply (Permutation_in _ (Permutation_sym Hp)); rewrite E' at 2;
          apply in_or_app; right; left; reflexivity).
    pose proof (U' _ Hin) as L1. pose proof (U _ Hin') as L2.
    set (v := snd (fold_left keep_max m ("neutral", 0%float))) in *.
    set (v' := snd (fold_left keep_max m' ("neutral", 0%float))) in *.
    pose proof OrderFacts.rank_zero as Hz.
    clearbody v v'. clear - L1 L2 Hgt Hgt' Hz.
    revert Hgt Hgt' Hz. generalize 0%float. intros z Hgt Hgt' Hz.
    rewrite OrderFacts.gt_true in Hgt, Hgt'.
    rewrite OrderFacts.gt_false in L1, L2.
    destruct (Order.rank v) as [[[a1 b1] c1]|] eqn:Rv;
      destruct (Order.rank v') as [[[a2 b2] c2]|] eqn:Rv';
      rewrite Hz in *; cbn in *; try tauto.
    assert (Heq : (a1, b1, c1) = (a2, b2, c2))
      by (f_equal; [f_equal|]; lia).
    rewrite <- Heq in Rv'.
    apply (rank_determines_number v v' (a1, b1, c1) Rv Rv').
    intros [= -> -> ->]. lia.
Qed.

Lemma dominant_value_ignores_order_witness :
  snd (dominant Sample.example_scores) =
  snd (dominant (List.rev Sample.example_scores)).
Proof.
  apply (dominant_value_ignores_order Sample.example_scores
           (List.rev Sample.example_scores)).
  apply Permutation_rev.
Defined.

(** ** What the handlers never do *)

(** X13: the script alerts in one place only.  Whatever the state, an event
    leaves the alerts as they were, except the rejection of a camera request,
    which adds the one camera message; a failed model load and a failed
    detection alert nothing. *)
Theorem only_camera_denial_alerts (s s' : state) (ev : event) :
  step s ev = Some s' ->
  alerts (browser s') = alerts (browser s) \/
  (exists e, ev = CameraSettled (Rejected e) /\
             alerts (browser s') = alerts (browser s) ++ [camera_alert]).
Proof.
  intros Hstep.
  destruct ev as [ |r| |r|w h|id|r| ]; cbn [step] in Hstep.
  - destruct (load_fired (browser s)); [discriminate|].
    injection Hstep as <-. left.
    destruct s as [run i c [src ? [] ? ? ? ? ? ?] []]. reflexivity.
  - destruct (models_loading (browser s)); [|discriminate].
    injection Hstep as <-. left.
    destruct s as [run i c [src ? [] ? ? ? ? ? ?] []], r; reflexivity.
  - destruct (disabled (toggleBtn (document s))); [discriminate|].
    injection Hstep as <-. left.
    destruct s as [run i c [src ? [] ? ? ? ? ? ?] []].
    destruct run, c as [[]|], src, i; reflexivity.
  - destruct (camera_requests (browser s)) eqn:E; [discriminate|].
    injection Hstep as <-.
    destruct s as [run i c [src ? [] ? ? ? ? ? ?] []], r as [stream|e].
    + left. reflexivity.
    + right. exists e. split; reflexivity.
  - destruct (video_onloadedmetadata (document s)); [|discriminate].
    destruct (video_srcObject (document s)) eqn:E; [|discriminate].
    injection Hstep as <-. left.
    destruct s as [run i c [src ? [] ? ? ? ? ? ?] []].
    destruct i; reflexivity.
  - destruct (existsb (Pos.eqb id) (timers (browser s))); [|discriminate].
    injection Hstep as <-. left.
    destruct s as [run i c [src ? [] ? ? ? ? ? ?] []].
    destruct run; reflexivity.
  - destruct (detections_in_flight (browser s)) eqn:E; [discriminate|].
    injection Hstep as <-. left.
    rewrite handle_detectEmotions_resume.
    match goal with |- context [detectEmotions_resume r ?s0] =>
      destruct (detectEmotions_resume_normal r s0) as [_ H] end.
    destruct H as (_ & _ & _ & _ & _ & H6 & _). rewrite H6.
    destruct s as [run i c d []]. reflexivity.
  - injection Hstep as <-. left.
    destruct s as [run i c [src ? [] ? ? ? ? ? ?] []].
    destruct run, c as [[]|], src, i; reflexivity.
Qed.

Lemma only_camera_denial_alerts_witness :
  let s := Sample.state_after [WindowLoad; ModelsSettled (Fulfilled tt); Click] in
  let ev := CameraSettled (Rejected (DOMException "NotFoundError")) in
  let s' := Sample.state_after
              [WindowLoad; ModelsSettled (Fulfilled tt); Click; ev] in
  alerts (browser s') = alerts (browser s) \/
  (exists e, ev = CameraSettled (Rejected e) /\
             alerts (browser s') = alerts (browser s) ++ [camera_alert]).
Proof.
  intros s ev s'. apply (only_camera_denial_alerts s s' ev).
  vm_compute. reflexivity.
Defined.

(** The console after the continuation of a tick: as before, or with one
    detection error more. *)
Lemma detectEmotions_resume_console r s :
  console (browser (snd (detectEmotions_resume r s))) = console (browser s) \/
  exists e,
    console (browser (snd (detectEmotions_resume r s))) =
      console (browser s) ++ [console_error "Detection error:" e].
Proof.
  destruct r as [detections|e]; [|right; exists e; reflexivity].
  destruct (ctx s) as [[]|] eqn:Hc.
  - destruct detections as [|face rest].
    + rewrite detectEmotions_resume_none by exact Hc. left. reflexivity.
    + rewrite detectEmotions_resume_face by exact Hc. cbn [snd].
      unfold after_face.
      destruct (dominant (expressions face)) as [l v].
      destruct (update_grid l (expressions face) (emotionsList (document s)))
        as [[[]|e] g]; [destruct (emotionMap_get l)|];
        first [left; reflexivity | right; eexists; reflexivity].
  - rewrite detectEmotions_resume_without_ctx by exact Hc.
    right. eexists. reflexivity.
Qed.

(** X14: in a session no exception leaves a handler: every event's handler
    runs to its end, so the console never gets an entry for an uncaught
    exception. *)
Theorem no_handler_throws_in_a_session (s s' : state) (ev : event) :
  reachable s ->
  step s ev = Some s' ->
  filter is_uncaught (console (browser s')) =
  filter is_uncaught (console (browser s)).
Proof.
  intros Hs Hstep.
  destruct (reachable_invariants s Hs) as [Hc _]. unfold ctx_ready in Hc.
  destruct ev as [ |r| |r|w h|id|r| ]; cbn [step] in Hstep.
  - destruct (load_fired (browser s)); [discriminate|].
    injection Hstep as <-.
    destruct s as [run i c [src ? [] ? ? ? ? ? ?] []].
    cbn. rewrite filter_app. cbn. apply app_nil_r.
  - destruct (models_loading (browser s)); [|discriminate].
    injection Hstep as <-.
    destruct s as [run i c [src ? [] ? ? ? ? ? ?] []], r;
      cbn; rewrite filter_app; cbn; apply app_nil_r.
  - destruct (disabled (toggleBtn (document s))); [discriminate|].
    injection Hstep as <-.
    destruct s as [run i c [src ? [] ? ? ? ? ? ?] []].
    destruct run; [|reflexivity].
    cbn in Hc. rewrite (Hc (or_introl eq_refl)).
    destruct src, i; reflexivity.
  - destruct (camera_requests (browser s)) eqn:E; [discriminate|].
    injection Hstep as <-.
    destruct s as [run i c [src ? [] ? ? ? ? ? ?] []], r; [reflexivity|].
    cbn. rewrite filter_app. cbn. apply app_nil_r.
  - destruct (video_onloadedmetadata (document s)); [|discriminate].
    destruct (video_srcObject (document s)) eqn:E; [|discriminate].
    injection Hstep as <-.
    destruct s as [run i c [src ? [] ? ? ? ? ? ?] []].
    destruct i; reflexivity.
  - destruct (existsb (Pos.eqb id) (timers (browser s))); [|discriminate].
    injection Hstep as <-.
    destruct s as [run i c [src ? [] ? ? ? ? ? ?] []].
    destruct run; reflexivity.
  - destruct (detections_in_flight (browser s)) eqn:E; [discriminate|].
    injection Hstep as <-.
    rewrite handle_detectEmotions_resume.
    match goal with |- context [detectEmotions_resume r ?s0] =>
      destruct (detectEmotions_resume_console r s0) as [H|[e H]] end;
      rewrite H.
    + destruct s as [run i c d []]. reflexivity.
    + rewrite filter_app. cbn. rewrite app_nil_r.
      destruct s as [run i c d []]. reflexivity.
  - injection Hstep as <-.
    destruct s as [run i c [src ? [] ? ? ? ? ? ?] []].
    destruct run; [|reflexivity].
    cbn in Hc. rewrite (Hc (or_introl eq_refl)).
    destruct src, i; reflexivity.
Qed.

Lemma no_handler_throws_in_a_session_witness :
  let s := Sample.state_after Sample.detecting in
  let s' := Sample.state_after (Sample.detecting ++ [Click]) in
  filter is_uncaught (console (browser s')) =
  filter is_uncaught (console (browser s)).
Proof.
  intros s s'. apply (no_handler_throws_in_a_session s s' Click).
  - apply SampleFacts.reachable_after. vm_compute. discriminate.
  - vm_compute. reflexivity.
Defined.

(** The script never sets [ctx] back to [null]. *)
Lemma step_keeps_ctx s ev s' :
  ctx s = Some Context2D -> step s ev = Some s' -> ctx s' = Some Context2D.
Proof.
  intros Hc Hstep.
  destruct ev as [ |r| |r|w h|id|r| ]; cbn [step] in Hstep.
  - destruct (load_fired (browser s)); [discriminate|].
    injection Hstep as <-.
    destruct s as [run i c [src ? [] ? ? ? ? ? ?] []]. exact Hc.
  - destruct (models_loading (browser s)); [|discriminate].
    injection Hstep as <-.
    destruct s as [run i c [src ? [] ? ? ? ? ? ?] []], r; exact Hc.
  - destruct (disabled (toggleBtn (document s))); [discriminate|].
    injection Hstep as <-.
    destruct s as [run i c [src ? [] ? ? ? ? ? ?] []].
    cbn in Hc. subst c. destruct run, src, i; reflexivity.
  - destruct (camera_requests (browser s)) eqn:E; [discriminate|].
    injection Hstep as <-.
    destruct s as [run i c [src ? [] ? ? ? ? ? ?] []], r;
      [reflexivity|exact Hc].
  - destruct (video_onloadedmetadata (document s)); [|discriminate].
    destruct (video_srcObject (document s)) eqn:E; [|discriminate].
    injection Hstep as <-.
    destruct s as [run i c [src ? [] ? ? ? ? ? ?] []].
    destruct i; exact Hc.
  - destruct (existsb (Pos.eqb id) (timers (browser s))); [|discriminate].
    injection Hstep as <-.
    destruct s as [run i c [src ? [] ? ? ? ? ? ?] []].
    destruct run; exact Hc.
  - destruct (detections_in_flight (browser s)) eqn:E; [discriminate|].
    injection Hstep as <-.
    rewrite handle_detectEmotions_resume.
    match goal with |- context [detectEmotions_resume r ?s0] =>
      destruct (detectEmotions_resume_normal r s0) as [_ H] end.
    destruct H as (_ & _ & H3 & _). rewrite H3. exact Hc.
  - injection Hstep as <-.
    destruct s as [run i c [src ? [] ? ? ? ? ? ?] []].
    cbn in Hc. subst c. destruct run, src, i; reflexivity.
Qed.

(** X15: the drawing context, once obtained, stays: after the first granted
    camera request, whatever events follow, [ctx] is the context and
    [stopWebcam] completes without an exception. *)
Theorem stopWebcam_never_throws_after_a_grant (evs : list event) :
  forall s s',
  ctx s = Some Context2D ->
  run s evs = Some s' ->
  ctx s' = Some Context2D /\ fst (stopWebcam s') = Normal tt.
Proof.
  induction evs as [|ev r IH]; intros s s' Hc Hrun; cbn in Hrun.
  - injection Hrun as <-. split; [exact Hc|].
    rewrite stopWebcam_eq, Hc. reflexivity.
  - destruct (step s ev) as [s1|] eqn:E; [|discriminate].
    apply (IH s1 s'); [|exact Hrun].
    exact (step_keeps_ctx s ev s1 Hc E).
Qed.

Lemma stopWebcam_never_throws_after_a_grant_witness :
  let granted := [ WindowLoad; ModelsSettled (Fulfilled tt); Click;
                   CameraSettled (Fulfilled Sample.camera) ] in
  let later := [ Click; Click;
                 CameraSettled (Rejected (DOMException "NotReadableError")) ] in
  ctx (Sample.state_after (granted ++ later)) = Some Context2D /\
  fst (stopWebcam (Sample.state_after (granted ++ later))) = Normal tt.
Proof.
  intros granted later.
  apply (stopWebcam_never_throws_after_a_grant later
           (Sample.state_after granted)); vm_compute; reflexivity.
Defined.

(** X16: the rejection of a camera request lowers the flag and does nothing
    else to the camera: when it arrives while an earlier request's stream is
    running, the stream's tracks go on and the timer stays set, and the next
    click asks for the camera again instead of stopping it. *)
Theorem late_denial_leaves_camera_on (s s1 : state) (e : js_error) :
  isVideoRunning s = true ->
  step s (CameraSettled (Rejected e)) = Some s1 ->
  isVideoRunning s1 = false /\
  video_srcObject (document s1) = video_srcObject (document s) /\
  timers (browser s1) = timers (browser s) /\
  detectingInterval s1 = detectingInterval s /\
  (forall s2, step s1 Click = Some s2 ->
     video_srcObject (document s2) = video_srcObject (document s) /\
     timers (browser s2) = timers (browser s) /\
     camera_requests (browser s2) = S (camera_requests (browser s1))).
Proof.
  intros Hrun Hstep. cbn [step] in Hstep.
  destruct (camera_requests (browser s)) eqn:E; [discriminate|].
  injection Hstep as <-.
  destruct s as [run i c [src ? [] ? ? ? ? [] []] []].
  repeat split; try reflexivity;
    cbn [step] in H;
    match type of H with (if ?b then _ else _) = _ => destruct b end;
    try discriminate; injection H as <-; reflexivity.
Qed.

Lemma late_denial_leaves_camera_on_witness :
  let running :=
    [ WindowLoad; ModelsSettled (Fulfilled tt); Click; Click;
      CameraSettled (Fulfilled Sample.camera); LoadedMetadata 640 480 ] in
  let denied := CameraSettled (Rejected (DOMException "NotReadableError")) in
  let s := Sample.state_after running in
  let s1 := Sample.state_after (running ++ [denied]) in
  isVideoRunning s1 = false /\
  video_srcObject (document s1) = video_srcObject (document s) /\
  timers (browser s1) = timers (browser s) /\
  detectingInterval s1 = detectingInterval s /\
  (forall s2, step s1 Click = Some s2 ->
     video_srcObject (document s2) = video_srcObject (document s) /\
     timers (browser s2) = timers (browser s) /\
     camera_requests (browser s2) = S (camera_requests (browser s1))).
Proof.
  intros running denied s s1.
  apply (late_denial_leaves_camera_on s s1 (DOMException "NotReadableError"));
    vm_compute; reflexivity.
Defined.

(** The sample session of the witness does have a live track and a timer. *)
Example late_denial_sample_is_live :
  let running :=
    [ WindowLoad; ModelsSettled (Fulfilled tt); Click; Click;
      CameraSettled (Fulfilled Sample.camera); LoadedMetadata 640 480;
      CameraSettled (Rejected (DOMException "NotReadableError")) ] in
  video_srcObject (document (Sample.state_after running)) = Some Sample.camera /\
  timers (browser (Sample.state_after running)) = [1%positive] /\
  isVideoRunning (Sample.state_after running) = false.
Proof. vm_compute. repeat split. Qed.

(** ** Leaving the page *)

(** X17: in a session, [beforeunload] stops a running camera exactly as
    [stopWebcam] does (flag false, no timer left, every track ended, display
    reset), and does nothing at all when the flag is down. *)
Theorem beforeunload_stops_a_running_camera (s s' : state) :
  reachable s ->
  step s BeforeUnload = Some s' ->
  (isVideoRunning s = false -> s' = s) /\
  (isVideoRunning s = true ->
     s' = reset_display (halted s) /\
     isVideoRunning s' = false /\
     timers (browser s') = [] /\
     camera_released s').
Proof.
  intros Hs Hstep.
  destruct (reachable_invariants s Hs) as [Hc Ht].
  cbn [step] in Hstep. injection Hstep as <-.
  split; intros Hrun.
  - unfold handle, onbeforeunload, bind, get. rewrite Hrun. reflexivity.
  - specialize (Hc (or_introl Hrun)).
    assert (E : handle onbeforeunload s = reset_display (halted s)).
    { unfold handle, onbeforeunload, bind, get. rewrite Hrun.
      rewrite stopWebcam_eq, Hc. reflexivity. }
    rewrite E. split; [reflexivity|].
    split; [unfold halted; destruct (detectingInterval s); reflexivity|].
    split.
    + unfold one_timer in Ht.
      destruct s as [run i c [src ? [] ? ? ? ? ? ?] [tm ? ? ? ? ? ? ?]].
      cbn in Ht.
      destruct Ht as [->|(id & -> & ->)]; [destruct i|]; cbn;
        rewrite ?Pos.eqb_refl; reflexivity.
    + pose proof (halted_releases s) as H. unfold camera_released in *.
      exact H.
Qed.

Lemma beforeunload_stops_a_running_camera_witness :
  let s := Sample.state_after Sample.detecting in
  let s' := Sample.state_after (Sample.detecting ++ [BeforeUnload]) in
  (isVideoRunning s = false -> s' = s) /\
  (isVideoRunning s = true ->
     s' = reset_display (halted s) /\
     isVideoRunning s' = false /\
     timers (browser s') = [] /\
     camera_released s').
Proof.
  intros s s'. apply (beforeunload_stops_a_running_camera s s').
  - apply SampleFacts.reachable_after. vm_compute. discriminate.
  - vm_compute. reflexivity.
Defined.

(** ** The grid between rebuilds *)

Lemma update_first_static id f grid :
  (forall it, item_static (f it) = item_static it) ->
  map item_static (update_first id f grid) = map item_static grid.
Proof.
  intros Hf. induction grid as [|it r IH]; cbn; [reflexivity|].
  destruct (String.eqb (item_id it) id); cbn; rewrite ?Hf, ?IH; reflexivity.
Qed.

Lemma update_first_consistent id f grid :
  (forall it, item_consistent it -> item_consistent (f it)) ->
  Forall item_consistent grid ->
  Forall item_consistent (update_first id f grid).
Proof.
  intros Hf. induction 1 as [|it r Hit Hr IH]; cbn; [constructor|].
  destruct (String.eqb (item_id it) id); constructor; auto.
Qed.

Lemma entry_update_consistent maxEmotion l w it :
  item_consistent it -> item_consistent (entry_update maxEmotion l w it).
Proof.
  intros H. right. exists (percent w).
  destruct (entry_update_fields maxEmotion l w it) as (-> & -> & _).
  split; [reflexivity|].
  destruct (width_accepted (percent w)) eqn:A.
  - split; [reflexivity|]. right. exists (percent w). split; [reflexivity|exact A].
  - split; [discriminate|].
    destruct H as [[_ H]|(p & _ & _ & H)]; [left; exact H|exact H].
Qed.

Lemma update_grid_keeps_grid_sound maxEmotion entries : forall grid,
  map item_static (snd (update_grid maxEmotion entries grid)) =
    map item_static grid /\
  (Forall item_consistent grid ->
   Forall item_consistent (snd (update_grid maxEmotion entries grid))).
Proof.
  induction entries as [|[l w] r IH]; intros grid; [split; auto|].
  cbn [update_grid].
  destruct (find_element ("emotion-" ++ l) grid) as [[ | | ]|];
    try (split; auto; fail); try apply IH.
  destruct (IH (update_first ("emotion-" ++ l)
                  (entry_update maxEmotion l w) grid)) as [H1 H2].
  split.
  - rewrite H1. apply update_first_static. intros it.
    unfold entry_update, assign_width.
    destruct (width_accepted (percent w)); reflexivity.
  - intros Hg. apply H2. apply update_first_consistent; [|exact Hg].
    apply entry_update_consistent.
Qed.

Lemma fresh_grid_consistent : Forall item_consistent fresh_grid.
Proof. repeat constructor; left; split; reflexivity. Qed.

(** The grid of a tick's continuation: rebuilt, or updated in place. *)
Lemma detectEmotions_resume_grid r s :
  emotionsList (document (snd (detectEmotions_resume r s))) = fresh_grid \/
  exists maxEmotion entries,
    emotionsList (document (snd (detectEmotions_resume r s))) =
    snd (update_grid maxEmotion entries (emotionsList (document s))).
Proof.
  destruct r as [detections|e]; [|right; exists "", []; reflexivity].
  destruct (ctx s) as [[]|] eqn:Hc.
  - destruct detections as [|face rest].
    + rewrite detectEmotions_resume_none by exact Hc. left. reflexivity.
    + rewrite detectEmotions_resume_face by exact Hc. right. cbn [snd].
      destruct (after_face_main face (List.length rest) s) as (_ & _ & _ & ->).
      eexists. eexists. reflexivity.
  - rewrite detectEmotions_resume_without_ctx by exact Hc.
    right. exists "", []. reflexivity.
Qed.

Lemma step_grid_sound s ev s' :
  step s ev = Some s' ->
  (load_fired (browser s) = true -> grid_sound s) ->
  load_fired (browser s') = true -> grid_sound s'.
Proof.
  unfold grid_sound. intros Hstep Hinv.
  pose proof fresh_grid_consistent as Hfresh.
  destruct ev as [ |r| |r|w h|id|r| ]; cbn [step] in Hstep.
  - destruct (load_fired (browser s)); [discriminate|].
    injection Hstep as <-. intros _.
    destruct s as [run i c [src ? [] ? ? ? ? ? ?] []].
    split; [reflexivity|exact Hfresh].
  - destruct (models_loading (browser s)); [|discriminate].
    injection Hstep as <-.
    destruct s as [run i c [src ? [] ? ? ? ? ? ?] []], r; exact Hinv.
  - destruct (disabled (toggleBtn (document s))); [discriminate|].
    injection Hstep as <-.
    destruct s as [run i c [src ? [] ? ? ? ? ? ?] []].
    destruct run, c as [[]|], src, i; try exact Hinv;
      intros _; (split; [reflexivity|exact Hfresh]).
  - destruct (camera_requests (browser s)) eqn:E; [discriminate|].
    injection Hstep as <-.
    destruct s as [run i c [src ? [] ? ? ? ? ? ?] []], r; exact Hinv.
  - destruct (video_onloadedmetadata (document s)); [|discriminate].
    destruct (video_srcObject (document s)) eqn:E; [|discriminate].
    injection Hstep as <-.
    destruct s as [run i c [src ? [] ? ? ? ? ? ?] []].
    destruct i; exact Hinv.
  - destruct (existsb (Pos.eqb id) (timers (browser s))); [|discriminate].
    injection Hstep as <-.
    destruct s as [run i c [src ? [] ? ? ? ? ? ?] []].
    destruct run; exact Hinv.
  - destruct (detections_in_flight (browser s)) eqn:E; [discriminate|].
    injection Hstep as <-.
    rewrite handle_detectEmotions_resume.
    match goal with |- context [detectEmotions_resume r ?s0] =>
      destruct (detectEmotions_resume_normal r s0) as [_ H];
      destruct (detectEmotions_resume_grid r s0) as [Hg|(mx & m & Hg)]
    end.
    + intros _. rewrite Hg. split; [reflexivity|exact Hfresh].
    + destruct H as (_ & _ & _ & _ & _ & _ & H7 & _).
      rewrite H7, Hg. intros Hl. destruct (Hinv Hl) as [I1 I2].
      match goal with |- context [update_grid mx m ?g] =>
        destruct (update_grid_keeps_grid_sound mx m g) as [K1 K2] end.
      split; [rewrite K1; exact I1|apply K2; exact I2].
  - injection Hstep as <-.
    destruct s as [run i c [src ? [] ? ? ? ? ? ?] []].
    destruct run, c as [[]|], src, i; try exact Hinv;
      intros _; (split; [reflexivity|exact Hfresh]).
Qed.

(** X18: in a session, once the [load] handler has run, the grid always
    lists the 7 registered emotions in the order of the registry, each with
    the id, the name text and the bar colour [initEmotionsGrid] gave it (a
    tick changes percentage, width and highlight only).  Every item is as
    built ('0%', no width) or shows a percentage text; its bar is as wide as
    that text says whenever CSS accepts the text as a width, and never has a
    width CSS rejects. *)
Theorem grid_stays_sound (s : state) :
  reachable s ->
  load_fired (browser s) = true ->
  map item_static (emotionsList (document s)) = map item_static fresh_grid /\
  List.length (emotionsList (document s)) = 7 /\
  Forall item_consistent (emotionsList (document s)).
Proof.
  intros Hs Hl.
  assert (H : load_fired (browser s) = true -> grid_sound s).
  { clear Hl. induction Hs as [s Hi|s ev s' _ IH Hstep].
    - destruct Hi as (_ & _ & _ & _ & _ & _ & Hl & _). congruence.
    - eapply step_grid_sound; eassumption. }
  destruct (H Hl) as [H1 H2]. split; [exact H1|]. split; [|exact H2].
  rewrite <- (length_map item_static), H1. reflexivity.
Qed.

Lemma grid_stays_sound_witness :
  let first := Sample.face_at Sample.example_scores in
  let second := Sample.face_at [("happy", nan); ("sad", (-0.3)%float)] in
  let s := Sample.state_after
             (Sample.detecting ++
              [DetectionSettled (Fulfilled [first]); TimerTick 1;
               DetectionSettled (Fulfilled [second])]) in
  map item_static (emotionsList (document s)) = map item_static fresh_grid /\
  List.length (emotionsList (document s)) = 7 /\
  Forall item_consistent (emotionsList (document s)).
Proof.
  intros first second s. apply (grid_stays_sound s).
  - apply SampleFacts.reachable_after. vm_compute. discriminate.
  - vm_compute. reflexivity.
Defined.

(** ** Timers never come back *)

Lemma step_keeps_cleared id s ev s' :
  (id < next_timer (browser s))%positive ->
  ~ In id (timers (browser s)) ->
  step s ev = Some s' ->
  (id < next_timer (browser s'))%positive /\
  ~ In id (timers (browser s')) /\
  ev <> TimerTick id.
Proof.
  intros Hlt Hnot Hstep.
  destruct ev as [ |r| |r|w h|id'|r| ]; cbn [step] in Hstep.
  - destruct (load_fired (browser s)); [discriminate|].
    injection Hstep as <-.
    destruct s as [run i c [src ? [] ? ? ? ? ? ?] []].
    repeat split; try assumption; discriminate.
  - destruct (models_loading (browser s)); [|discriminate].
    injection Hstep as <-.
    destruct s as [run i c [src ? [] ? ? ? ? ? ?] []], r;
      repeat split; try assumption; discriminate.
  - destruct (disabled (toggleBtn (document s))); [discriminate|].
    injection Hstep as <-.
    destruct s as [run i c [src ? [] ? ? ? ? ? ?] [tm ? ? ? ? ? ? ?]].
    cbn in Hlt, Hnot.
    destruct run, c as [[]|], src, i; cbn;
      (split; [exact Hlt|]); (split; [|discriminate]);
      try exact Hnot; rewrite filter_In; tauto.
  - destruct (camera_requests (browser s)) eqn:E; [discriminate|].
    injection Hstep as <-.
    destruct s as [run i c [src ? [] ? ? ? ? ? ?] []], r;
      repeat split; try assumption; discriminate.
  - destruct (video_onloadedmetadata (document s)); [|discriminate].
    destruct (video_srcObject (document s)) eqn:E; [|discriminate].
    injection Hstep as <-.
    destruct s as [run i c [src ? [] ? ? ? ? ? ?] [tm nx ? ? ? ? ? ?]].
    cbn in Hlt, Hnot.
    destruct i; cbn; (split; [lia|]); (split; [|discriminate]);
      rewrite in_app_iff, ?filter_In; cbn; intros [H|[H|[]]];
      try tauto; lia.
  - destruct (existsb (Pos.eqb id') (timers (browser s))) eqn:Ex; [|discriminate].
    injection Hstep as <-.
    assert (Hne : id' <> id).
    { intros ->. apply Hnot. apply existsb_exists in Ex.
      destruct Ex as (t & Hin & Heq). apply Pos.eqb_eq in Heq. subst t.
      exact Hin. }
    destruct s as [run i c [src ? [] ? ? ? ? ? ?] []].
    destruct run; repeat split; try assumption; congruence.
  - destruct (detections_in_flight (browser s)) eqn:E; [discriminate|].
    injection Hstep as <-.
    rewrite handle_detectEmotions_resume.
    match goal with |- context [detectEmotions_resume r ?s0] =>
      destruct (detectEmotions_resume_normal r s0) as [_ H] end.
    destruct H as (_ & _ & _ & H4 & H5 & _). rewrite H4, H5.
    destruct s as [run i c d []].
    repeat split; try assumption; discriminate.
  - injection Hstep as <-.
    destruct s as [run i c [src ? [] ? ? ? ? ? ?] [tm ? ? ? ? ? ? ?]].
    cbn in Hlt, Hnot.
    destruct run, c as [[]|], src, i; cbn;
      (split; [exact Hlt|]); (split; [|discriminate]);
      try exact Hnot; rewrite filter_In; tauto.
Qed.

(** X19: timer ids are not reused, so a timer that is not set stays unset:
    from a state in which an id below the next timer id names no set timer,
    no later event sets a timer with that id, and its tick is never
    delivered, restarts of the detection included. *)
Theorem cleared_timer_never_ticks_again (id : positive) (evs : list event) :
  forall s s',
  (id < next_timer (browser s))%positive ->
  ~ In id (timers (browser s)) ->
  run s evs = Some s' ->
  ~ In id (timers (browser s')) /\ ~ In (TimerTick id) evs.
Proof.
  induction evs as [|ev r IH]; intros s s' Hlt Hnot Hrun; cbn in Hrun.
  - injection Hrun as <-. split; [exact Hnot|intros []].
  - destruct (step s ev) as [s1|] eqn:E; [|discriminate].
    destruct (step_keeps_cleared id s ev s1 Hlt Hnot E) as (H1 & H2 & H3).
    destruct (IH s1 s' H1 H2 Hrun) as [K1 K2].
    split; [exact K1|]. intros [Hin|Hin]; [exact (H3 Hin)|exact (K2 Hin)].
Qed.

Lemma cleared_timer_never_ticks_again_witness :
  let stopped := Sample.started ++ [Click] in
  let restart := [ Click; CameraSettled (Fulfilled Sample.camera);
                   LoadedMetadata 640 480; TimerTick 2 ] in
  ~ In 1%positive
      (timers (browser (Sample.state_after (stopped ++ restart)))) /\
  ~ In (TimerTick 1) restart.
Proof.
  intros stopped restart.
  apply (cleared_timer_never_ticks_again 1 restart
           (Sample.state_after stopped)).
  - vm_compute. reflexivity.
  - vm_compute. intros [].
  - vm_compute. reflexivity.
Defined.

(** ** Ticks on well-formed results *)

Lemma registered_has_entry l :
  In l registered -> exists e, emotionMap_get l = Own e.
Proof.
  cbn. intros H.
  repeat (destruct H as [<-|H]; [eexists; reflexivity|]). destruct H.
Qed.

(** X20: in a session, when every key of the first face's mapping is a
    registered label, the tick's continuation raises no error: nothing is
    logged, and the stroke and fill styles are the colour registered for the
    dominant label. *)
Theorem registered_keys_never_fail (s s' : state)
  (face : WithFaceExpressions) (rest : list WithFaceExpressions) :
  reachable s ->
  step s (DetectionSettled (Fulfilled (face :: rest))) = Some s' ->
  (forall e, In e (expressions face) -> In (fst e) registered) ->
  console (browser s') = console (browser s) /\
  exists en,
    emotionMap_get (fst (dominant (expressions face))) = Own en /\
    strokeStyle (canvas (document s')) = color en /\
    fillStyle (canvas (document s')) = color en.
Proof.
  intros Hs Hstep Hreg.
  destruct (awaited_detection_has_ctx s _ s' Hs Hstep) as (Hc & n & _ & ->).
  rewrite detectEmotions_resume_face by exact Hc. cbn [snd].
  assert (Hn : fst (update_grid (fst (dominant (expressions face)))
                      (expressions face) (emotionsList (document s)))
               = Normal tt).
  { apply update_grid_normal. intros e He.
    apply registered_not_text_element, Hreg, He. }
  assert (Hl : In (fst (dominant (expressions face))) registered).
  { destruct (dominant_label (expressions face)) as [E|E].
    - rewrite E. left. reflexivity.
    - apply in_map_iff in E. destruct E as (e & <- & He). apply Hreg, He. }
  destruct (registered_has_entry _ Hl) as [en Hen].
  unfold after_face.
  replace (emotionsList (document
            (set_browser (set_detections_in_flight n (browser s)) s)))
    with (emotionsList (document s)) by reflexivity.
  destruct (dominant (expressions face)) as [l v]. cbn [fst] in *.
  destruct (update_grid l (expressions face) (emotionsList (document s)))
    as [[[]|err] g]; [|discriminate Hn].
  rewrite Hen. split.
  - destruct s as [? ? ? ? []]. reflexivity.
  - exists en. split; [reflexivity|].
    unfold in_canvas, in_document, face_painted, stroked, filled.
    cbn [document canvas set_document set_canvas].
    repeat match goal with
      | |- context [if ?b then _ else _] => destruct b
      end; split; reflexivity.
Qed.

Lemma registered_keys_never_fail_witness :
  let face := Sample.face_at Sample.example_scores in
  let s := Sample.state_after Sample.detecting in
  let s' := Sample.state_after
              (Sample.detecting ++ [DetectionSettled (Fulfilled [face])]) in
  console (browser s') = console (browser s) /\
  exists en,
    emotionMap_get (fst (dominant (expressions face))) = Own en /\
    strokeStyle (canvas (document s')) = color en /\
    fillStyle (canvas (document s')) = color en.
Proof.
  intros face s s'.
  apply (registered_keys_never_fail s s' face []).
  - apply SampleFacts.reachable_after. vm_compute. discriminate.
  - vm_compute. reflexivity.
  - intros e He. cbn in He.
    repeat (destruct He as [<-|He]; [cbn; tauto|]). destruct He.
Defined.
